(** * CGPA calculator: the grade computation and planning engine

    A shallow embedding of [frontend/lib/calculator.ts],
    [frontend/lib/statistics.ts], the intra-semester target solver, the
    chart projectors and the session edits of the dashboard, with the
    properties of the specification stated and proved over it.

    Numbers.  The engine is embedded on exact rationals [Q], which is
    where the properties that do not turn on rounding are proved: which
    courses and semesters are counted, what is ignored, the tables, the
    order of the charts.  There a division whose denominator is zero,
    which would produce [Infinity] or [NaN], goes through [div] and
    reports [NonFinite] instead, so a function that provably returns
    [Ok] never divides by zero.

    The two target solvers decide feasibility, the grade to recommend and
    the zero test on the remaining credits by comparing computed
    values, and there the last bit of a binary64 result matters.  They
    are embedded a second time in the module [F64], with every [number]
    a binary64 value and every operator the IEEE 754 one, applied in the
    order of the source.

    [null] and [undefined] are both [None]. *)

From Stdlib Require Import QArith Qround ZArith List String Ascii Bool Lia Lqa.
From Stdlib Require Import Permutation Sorted DecimalString.
From Stdlib Require Import Floats Uint63.
Import ListNotations.

Local Open Scope Q_scope.

(** A decimal literal that is not a binary64 value stands for the nearest
    one, as in JavaScript. *)
#[local] Set Warnings "-inexact-float".

(** ** Results of computations that may leave the model *)

Inductive error : Type :=
| NonFinite     (* x / 0 : Infinity or NaN *)
| TypeError     (* property read on undefined *)
| Unspecified.  (* the language leaves the result to the implementation *)

Inductive res (A : Type) : Type :=
| Ok  (a : A)
| Err (e : error).

Arguments Ok {A} a.
Arguments Err {A} e.

Definition bind {A B : Type} (c : res A) (k : A -> res B) : res B :=
  match c with
  | Ok a => k a
  | Err e => Err e
  end.

Declare Scope res_scope.
Delimit Scope res_scope with res.
Notation "x <- c ;; k" := (bind c (fun x => k))
  (at level 61, c at next level, right associativity) : res_scope.
Local Open Scope res_scope.

(** ** JavaScript operators on numbers *)

(** [a / b] *)
Definition div (a b : Q) : res Q :=
  if Qeq_bool b 0 then Err NonFinite else Ok (a / b).

(** [a > b], [a >= b], [a < b], [a <= b], [a === b] *)
Definition gtb (a b : Q) : bool := negb (Qle_bool a b).
Definition geb (a b : Q) : bool := Qle_bool b a.
Definition ltb (a b : Q) : bool := negb (Qle_bool b a).
Definition leb (a b : Q) : bool := Qle_bool a b.
Definition eqb (a b : Q) : bool := Qeq_bool a b.

(** [x || 0] on a number: zero is falsy. *)
Definition or_zero (x : Q) : Q := if eqb x 0 then 0 else x.

(** [x || 0] on a nullable number. *)
Definition opt_or_zero (x : option Q) : Q :=
  match x with
  | Some v => or_zero v
  | None => 0
  end.

(** A nullable number used as a condition: [null], [undefined] and [0]
    are falsy. *)
Definition truthy_num (x : option Q) : bool :=
  match x with
  | Some v => negb (eqb v 0)
  | None => false
  end.

(** [Math.round]: the nearest integer, halves going up. *)
Definition Math_round (x : Q) : Q := inject_Z (Qfloor (x + (1 # 2))).

(** [Math.floor] on a length divided by two. *)
Definition half (n : nat) : nat := Nat.div2 n.

(** [Math.pow(10, decimals)] for a natural number of decimals. *)
Definition pow10 (decimals : nat) : Q := inject_Z (10 ^ Z.of_nat decimals).

(** [xs.reduce((a, b) => a + b, 0)] *)
Definition sumQ (xs : list Q) : Q := fold_left Qplus xs 0.

(** [xs.length] as a number. *)
Definition lengthQ {A : Type} (xs : list A) : Q := inject_Z (Z.of_nat (List.length xs)).

(** ** JavaScript operators on strings

    Strings are byte strings; [toUpperCase] and [trim] are modelled on
    the ASCII range, where every grade of the built-in tables lives. *)

Definition upper_ascii (c : ascii) : ascii :=
  let n := nat_of_ascii c in
  if (97 <=? n)%nat && (n <=? 122)%nat then ascii_of_nat (n - 32) else c.

Fixpoint toUpperCase (s : string) : string :=
  match s with
  | EmptyString => EmptyString
  | String c s' => String (upper_ascii c) (toUpperCase s')
  end.

Definition is_space (c : ascii) : bool :=
  let n := nat_of_ascii c in
  ((9 <=? n)%nat && (n <=? 13)%nat) || (n =? 32)%nat.

Fixpoint trimStart (s : string) : string :=
  match s with
  | EmptyString => EmptyString
  | String c s' => if is_space c then trimStart s' else s
  end.

Fixpoint trimEnd (s : string) : string :=
  match s with
  | EmptyString => EmptyString
  | String c s' =>
      match trimEnd s' with
      | EmptyString => if is_space c then EmptyString else String c EmptyString
      | t => String c t
      end
  end.

Definition trim (s : string) : string := trimEnd (trimStart s).

(** A nullable string used as a condition: the empty string is falsy. *)
Definition truthy_str (s : option string) : option string :=
  match s with
  | Some EmptyString => None
  | other => other
  end.

(** ** Data model ([types/schema.ts]) *)

Inductive GradeType : Type := letter | marks.

Module Course.
Record t : Type := mk {
    name : string;
    credits : Q;
    gradeType : GradeType;
    grade : option string;
    marks : option Q;
    gradePoint : option Q
}.
End Course.
Notation Course := Course.t.

Module Semester.
Record t : Type := mk {
    id : string;
    name : string;
    courses : list Course;
    order : Q;
    manualGPA : option Q;
    manualCredits : option Q
}.
End Semester.
Notation Semester := Semester.t.

Module Session.
Record t : Type := mk {
    semesters : list Semester;
    scale : Q   (* metadata.scale *)
}.
End Session.
Notation Session := Session.t.

Module GradeMapping.
Record t : Type := mk {
    minMarks : Q;
    maxMarks : Q;
    letterGrade : string;
    gradePoint : Q
}.
End GradeMapping.
Notation GradeMapping := GradeMapping.t.

Module GradeTemplate.
Record t : Type := mk {
    name : string;
    scale : Q;
    mappings : list GradeMapping
}.
End GradeTemplate.
Notation GradeTemplate := GradeTemplate.t.

(** Schema constraint [credits: z.number().min(0)] on every course. *)
Definition credits_nonneg (courses : list Course) : Prop :=
  Forall (fun c => 0 <= Course.credits c) courses.

(** ** Grade conversion tables ([lib/calculator.ts]) *)

Definition BIT_MESRA_10_POINT : GradeTemplate :=
  GradeTemplate.mk "BIT Mesra 10-Point" 10
    [ GradeMapping.mk 91 100 "A+/O" 10;
      GradeMapping.mk 81 90 "A" 9;
      GradeMapping.mk 71 80 "B" 8;
      GradeMapping.mk 61 70 "C" 7;
      GradeMapping.mk 51 60 "D" 6;
      GradeMapping.mk 41 50 "E" 5;
      GradeMapping.mk 0 40 "F" 0 ].

Definition STANDARD_4_POINT : GradeTemplate :=
  GradeTemplate.mk "Standard 4-Point" 4
    [ GradeMapping.mk 93 100 "A+" 4;
      GradeMapping.mk 90 92 "A" 4;
      GradeMapping.mk 87 89 "A-" (37 # 10);
      GradeMapping.mk 83 86 "B+" (33 # 10);
      GradeMapping.mk 80 82 "B" 3;
      GradeMapping.mk 77 79 "B-" (27 # 10);
      GradeMapping.mk 73 76 "C+" (23 # 10);
      GradeMapping.mk 70 72 "C" 2;
      GradeMapping.mk 67 69 "C-" (17 # 10);
      GradeMapping.mk 63 66 "D+" (13 # 10);
      GradeMapping.mk 60 62 "D" 1;
      GradeMapping.mk 0 59 "F" 0 ].

Definition LETTER_TO_POINTS_10 : list (string * Q) :=
  [ ("A+/O", 10); ("A+", 10); ("O", 10); ("A", 9); ("B", 8); ("C", 7);
    ("D", 6); ("E", 5); ("F", 0) ]%string.

Definition LETTER_TO_POINTS_4 : list (string * Q) :=
  [ ("A+", 4); ("A", 4); ("A-", 37 # 10); ("B+", 33 # 10); ("B", 3);
    ("B-", 27 # 10); ("C+", 23 # 10); ("C", 2); ("C-", 17 # 10);
    ("D+", 13 # 10); ("D", 1); ("D-", 7 # 10); ("F", 0) ]%string.

(** [table[key]] on a record of numbers. *)
Definition record_get (table : list (string * Q)) (key : string) : option Q :=
  option_map snd (find (fun kv => String.eqb (fst kv) key) table).

Definition getBuiltinTemplates : list GradeTemplate :=
  [BIT_MESRA_10_POINT; STANDARD_4_POINT].

(** The test of the loop of [convertMarksToGrade]. *)
Definition in_bucket (m : Q) (mapping : GradeMapping) : bool :=
  geb m (GradeMapping.minMarks mapping) && leb m (GradeMapping.maxMarks mapping).

Definition convertMarksToGrade (m : Q) (template : GradeTemplate) : res string :=
  match find (in_bucket m) (GradeTemplate.mappings template) with
  | Some mapping => Ok (GradeMapping.letterGrade mapping)
  | None =>
      match rev (GradeTemplate.mappings template) with
      | lowest :: _ => Ok (GradeMapping.letterGrade lowest)
      | [] => Err TypeError
      end
  end.

Definition convertGradeToPoints
    (grade : string) (scale : Q) (template : option GradeTemplate) : Q :=
  let upperGrade := trim (toUpperCase grade) in
  let from_table :=
    if eqb scale 10
    then match record_get LETTER_TO_POINTS_10 upperGrade with
         | Some p => p | None => 0 end
    else match record_get LETTER_TO_POINTS_4 upperGrade with
         | Some p => p | None => 0 end in
  match template with
  | Some t =>
      match find (fun m => String.eqb (toUpperCase (GradeMapping.letterGrade m)) upperGrade)
                 (GradeTemplate.mappings t) with
      | Some mapping => GradeMapping.gradePoint mapping
      | None => from_table
      end
  | None => from_table
  end.

Definition convertMarksToPoints (m : Q) (template : GradeTemplate)
  : res (string * Q) :=
  letter <- convertMarksToGrade m template ;;
  Ok (letter, convertGradeToPoints letter (GradeTemplate.scale template) (Some template)).

(** ** GPA and CGPA ([lib/calculator.ts]) *)

(** The body of the loop over courses, on the pair
    [(totalPoints, totalCredits)]. *)
Definition gpa_step (acc : Q * Q) (course : Course) : Q * Q :=
  match Course.gradePoint course with
  | None => acc
  | Some gp =>
      if eqb (Course.credits course) 0 then acc
      else (fst acc + gp * Course.credits course, snd acc + Course.credits course)
  end.

(** [if (totalCredits === 0) return null; return totalPoints / totalCredits] *)
Definition average_or_null (totals : Q * Q) : res (option Q) :=
  if eqb (snd totals) 0 then Ok None
  else v <- div (fst totals) (snd totals) ;; Ok (Some v).

Definition calculateGPA (courses : list Course) : res (option Q) :=
  average_or_null (fold_left gpa_step courses (0, 0)).

(** The body of the loop over semesters of [calculateCGPA]. *)
Definition cgpa_step (acc : Q * Q) (semester : Semester) : Q * Q :=
  match Semester.courses semester with
  | _ :: _ => fold_left gpa_step (Semester.courses semester) acc
  | [] =>
      match Semester.manualGPA semester, Semester.manualCredits semester with
      | Some g, Some c =>
          if gtb c 0 then (fst acc + g * c, snd acc + c) else acc
      | _, _ => acc
      end
  end.

Definition calculateCGPA (semesters : list Semester) : res (option Q) :=
  average_or_null (fold_left cgpa_step semesters (0, 0)).

Module SemesterGPA.
Record t : Type := mk { gpa : option Q; isManual : bool }.
End SemesterGPA.

Definition getSemesterGPA (semester : Semester) : res SemesterGPA.t :=
  match Semester.courses semester with
  | _ :: _ =>
      g <- calculateGPA (Semester.courses semester) ;;
      Ok (SemesterGPA.mk g false)
  | [] =>
      match Semester.manualGPA semester with
      | Some g => Ok (SemesterGPA.mk (Some g) true)
      | None => Ok (SemesterGPA.mk None false)
      end
  end.

Definition getSemesterCredits (semester : Semester) : Q :=
  match Semester.courses semester with
  | _ :: _ =>
      fold_left (fun sum c => sum + or_zero (Course.credits c))
                (Semester.courses semester) 0
  | [] =>
      match Semester.manualCredits semester with
      | Some c => c
      | None => 0
      end
  end.

(** [roundForDisplay(value, decimals)] on a number. *)
Definition round_to (value : Q) (decimals : nat) : res Q :=
  div (Math_round (value * pow10 decimals)) (pow10 decimals).

(** [roundForDisplay(value)], with the default of two decimals. *)
Definition roundForDisplay (value : option Q) : res (option Q) :=
  match value with
  | None => Ok None
  | Some v => r <- round_to v 2 ;; Ok (Some r)
  end.

(** ** Loops whose body may leave the model *)

Fixpoint foldM {A S : Type} (f : S -> A -> res S) (xs : list A) (s : S) : res S :=
  match xs with
  | [] => Ok s
  | x :: xs' => s' <- f s x ;; foldM f xs' s'
  end.

Fixpoint mapM {A B : Type} (f : A -> res B) (xs : list A) : res (list B) :=
  match xs with
  | [] => Ok []
  | x :: xs' => y <- f x ;; ys <- mapM f xs' ;; Ok (y :: ys)
  end.

(** ** Grade histogram, a [Record<string, number>] built on [{}]

    The object is the list of its own keys in creation order, each with
    what it holds.  It is a plain object, so a key it does not own is read
    from [Object.prototype]. *)

(** What a key holds: a count, or the text of an inherited member
    followed by that many characters "1". *)
Inductive slot : Type :=
| Count (n : Z)
| Text (ones : nat).

Definition histogram : Type := list (string * slot).

(** The methods every object inherits from [Object.prototype]; its one
    accessor, [__proto__], is apart. *)
Definition Object_prototype_methods : list string :=
  ["constructor"; "__defineGetter__"; "__defineSetter__"; "hasOwnProperty";
   "__lookupGetter__"; "__lookupSetter__"; "isPrototypeOf";
   "propertyIsEnumerable"; "toString"; "toLocaleString"; "valueOf"]%string.

Definition inherited (g : string) : bool :=
  existsb (String.eqb g) Object_prototype_methods.

(** [(v || 0) + 1] on what an own key holds: a count is incremented, a
    text (never empty, hence truthy) gets a "1" appended. *)
Definition plus_one (v : slot) : slot :=
  match v with
  | Count n => Count (n + 1)
  | Text ones => Text (S ones)
  end.

(** [(v || 0) + 1] on a key the object does not own yet: an inherited
    method is truthy and is turned into its source text; any other key
    reads as [undefined], and the count starts at 1. *)
Definition first_one (g : string) : slot :=
  if inherited g then Text 1 else Count 1.

(** The assignment to a key other than [__proto__]: the own key is
    updated, or created behind the others. *)
Fixpoint assign_next (distribution : histogram) (g : string) : histogram :=
  match distribution with
  | [] => [(g, first_one g)]
  | (k, v) :: rest =>
      if String.eqb k g then (k, plus_one v) :: rest
      else (k, v) :: assign_next rest g
  end.

(** [distribution[g] = (distribution[g] || 0) + 1].  Under the key
    [__proto__] the value read is [Object.prototype] itself and the value
    assigned is a string, which the setter of [__proto__] ignores: no own
    key appears. *)
Definition bump (distribution : histogram) (g : string) : histogram :=
  if String.eqb g "__proto__" then distribution
  else assign_next distribution g.

(** [courses.forEach(course => { if (course.grade) ... })] *)
Definition count_grades (distribution : histogram) (courses : list Course) : histogram :=
  fold_left
    (fun d course =>
       match truthy_str (Course.grade course) with
       | Some g => bump d g
       | None => d
       end)
    courses distribution.

(** ** Statistics ([lib/statistics.ts]) *)

Inductive Trend : Type := improving | declining | stable | unknown.

Module Statistics.
Record t : Type := mk {
  totalCourses : Z;
  totalCredits : Q;
  averageCreditsPerSemester : Q;
  highestSemesterGPA : option Q;
  lowestSemesterGPA : option Q;
  gradeDistribution : histogram;
  trendDirection : Trend
}.
End Statistics.

(** The variables the [forEach] of [calculateStatistics] updates. *)
Module StatsLoop.
Record t : Type := mk {
  totalCourses : Z;
  totalCredits : Q;
  gradeDistribution : histogram;
  semesterGPAs : list Q;
  semestersWithData : Z
}.
End StatsLoop.

Definition stats_step (st : StatsLoop.t) (semester : Semester) : res StatsLoop.t :=
  eff <- getSemesterGPA semester ;;
  let credits := getSemesterCredits semester in
  let totalCourses :=
    (StatsLoop.totalCourses st + Z.of_nat (List.length (Semester.courses semester)))%Z in
  let totalCredits := StatsLoop.totalCredits st + credits in
  let gradeDistribution :=
    count_grades (StatsLoop.gradeDistribution st) (Semester.courses semester) in
  match SemesterGPA.gpa eff with
  | Some g =>
      Ok (StatsLoop.mk totalCourses totalCredits gradeDistribution
            (StatsLoop.semesterGPAs st ++ [g])
            (StatsLoop.semestersWithData st + 1)%Z)
  | None =>
      Ok (StatsLoop.mk totalCourses totalCredits gradeDistribution
            (StatsLoop.semesterGPAs st) (StatsLoop.semestersWithData st))
  end.

(** [Math.max(...xs)] and [Math.min(...xs)] on a non-empty list. *)
Definition Qmax (a b : Q) : Q := if leb a b then b else a.
Definition Qmin (a b : Q) : Q := if leb a b then a else b.

Definition Math_max (xs : list Q) : option Q :=
  match xs with
  | [] => None
  | x :: xs' => Some (fold_left Qmax xs' x)
  end.

Definition Math_min (xs : list Q) : option Q :=
  match xs with
  | [] => None
  | x :: xs' => Some (fold_left Qmin xs' x)
  end.

(** [xs.slice(-3)] *)
Definition last3 {A : Type} (xs : list A) : list A :=
  skipn (List.length xs - 3) xs.

(** The trend block of [calculateStatistics], on the list of GPAs the
    loop collected. *)
Definition trend_of (semesterGPAs : list Q) : res Trend :=
  if (2 <=? List.length semesterGPAs)%nat then
    let recentGPAs := last3 semesterGPAs in
    let firstHalf := firstn (half (List.length recentGPAs)) recentGPAs in
    let secondHalf := skipn (half (List.length recentGPAs)) recentGPAs in
    avgFirst <- div (sumQ firstHalf) (lengthQ firstHalf) ;;
    avgSecond <- div (sumQ secondHalf) (lengthQ secondHalf) ;;
    if gtb avgSecond (avgFirst + (2 # 10)) then Ok improving
    else if ltb avgSecond (avgFirst - (2 # 10)) then Ok declining
    else Ok stable
  else Ok unknown.

Definition calculateStatistics (session : Session) : res Statistics.t :=
  st <- foldM stats_step (Session.semesters session)
          (StatsLoop.mk 0 0 [] [] 0) ;;
  let semesterGPAs := StatsLoop.semesterGPAs st in
  let highestSemesterGPA := Math_max semesterGPAs in
  let lowestSemesterGPA := Math_min semesterGPAs in
  averageCreditsPerSemester <-
    (if (0 <? StatsLoop.semestersWithData st)%Z
     then div (StatsLoop.totalCredits st) (inject_Z (StatsLoop.semestersWithData st))
     else Ok 0) ;;
  trendDirection <- trend_of semesterGPAs ;;
  avgR <- roundForDisplay (Some averageCreditsPerSemester) ;;
  hiR <- roundForDisplay highestSemesterGPA ;;
  loR <- roundForDisplay lowestSemesterGPA ;;
  Ok (Statistics.mk (StatsLoop.totalCourses st) (StatsLoop.totalCredits st)
        (opt_or_zero avgR) hiR loR (StatsLoop.gradeDistribution st)
        trendDirection).

(** ** Cross-semester target solver ([lib/statistics.ts]) *)

(** The message, by the branch that builds it and the numbers it shows
    (each printed by [toFixed(2)] in the source). *)
Inductive TargetMessage : Type :=
| NotAchievable (requiredGPA maxPossible : Q)
| TargetAlreadyAchieved (currentCGPA : Q)
| VeryChallenging (requiredGPA : Q)
| AchievableWithEffort (requiredGPA : Q)
| EasilyAchievable (requiredGPA : Q).

Module TargetCalculation.
Record t : Type := mk {
  targetCGPA : Q;
  currentCGPA : Q;
  creditsCompleted : Q;
  creditsRemaining : Q;
  requiredGPA : Q;
  feasible : bool;
  message : TargetMessage
}.
End TargetCalculation.

(** [session.semesters.forEach(s => { creditsCompleted += getSemesterCredits(s) })] *)
Definition creditsCompletedOf (semesters : list Semester) : Q :=
  fold_left (fun acc s => acc + getSemesterCredits s) semesters 0.

Definition target_message
    (feasible : bool) (requiredGPA maxPossible currentCGPA : Q) : TargetMessage :=
  if negb feasible then
    if gtb requiredGPA maxPossible then NotAchievable requiredGPA maxPossible
    else TargetAlreadyAchieved currentCGPA
  else if geb requiredGPA (maxPossible * (9 # 10)) then VeryChallenging requiredGPA
  else if geb requiredGPA (maxPossible * (7 # 10)) then AchievableWithEffort requiredGPA
  else EasilyAchievable requiredGPA.

Definition calculateTargetGPA
    (session : Session) (targetCGPA creditsRemaining : Q)
  : res TargetCalculation.t :=
  cg <- calculateCGPA (Session.semesters session) ;;
  let currentCGPA := opt_or_zero cg in
  let creditsCompleted := creditsCompletedOf (Session.semesters session) in
  requiredGPA <-
    (if gtb creditsRemaining 0
     then div (targetCGPA * (creditsCompleted + creditsRemaining)
               - currentCGPA * creditsCompleted) creditsRemaining
     else Ok 0) ;;
  let maxPossible :=
    if eqb (Session.scale session) 0 then 10 else Session.scale session in
  let feasible := leb requiredGPA maxPossible && geb requiredGPA 0 in
  let message := target_message feasible requiredGPA maxPossible currentCGPA in
  currentR <- roundForDisplay (Some currentCGPA) ;;
  requiredR <- roundForDisplay (Some requiredGPA) ;;
  Ok (TargetCalculation.mk targetCGPA (opt_or_zero currentR) creditsCompleted
        creditsRemaining (opt_or_zero requiredR) feasible message).

(** ** Intra-semester target solver *)

Inductive IntraMessage : Type :=
| AlreadyAchievedThisSemester (currentGPA : Q)
| AllCoursesGraded (currentGPA : option Q)
| TargetNotAchievable (avgGPANeeded scale : Q)
| TargetAlreadyExceeded
| VeryChallengingSemester (avgGPANeeded : Q)
| AchievableWithGoodPerformance (avgGPANeeded : Q)
| EasilyAchievableSemester (avgGPANeeded : Q).

Module CourseRecommendation.
Record t : Type := mk {
  courseName : string;
  currentMarks : option Q;
  marksNeeded : Q;
  gradeNeeded : string;
  feasible : bool
}.
End CourseRecommendation.

Module IntraSemesterTarget.
Record t : Type := mk {
  currentSemesterGPA : option Q;
  targetSemesterGPA : Q;
  coursesWithMarks : list Course;
  coursesNeedingGrades : list Course;
  recommendations : list CourseRecommendation.t;
  feasible : bool;
  message : IntraMessage
}.
End IntraSemesterTarget.

Definition has_gradePoint (c : Course) : bool :=
  match Course.gradePoint c with
  | Some _ => true
  | None => false
  end.

(** [courses.reduce((sum, c) => sum + c.credits, 0)] *)
Definition sum_credits (courses : list Course) : Q :=
  fold_left (fun sum c => sum + Course.credits c) courses 0.

(** [courses.reduce((sum, c) => sum + (c.gradePoint || 0) * c.credits, 0)] *)
Definition sum_points (courses : list Course) : Q :=
  fold_left (fun sum c => sum + opt_or_zero (Course.gradePoint c) * Course.credits c)
            courses 0.

(** [const avgGPANeeded = remainingCredits > 0 ? pointsNeeded / remainingCredits : 0] *)
Definition avgGPANeededOf (semester : Semester) (targetGPA : Q) : res Q :=
  let coursesWithMarks := filter has_gradePoint (Semester.courses semester) in
  let coursesNeedingGrades :=
    filter (fun c => negb (has_gradePoint c)) (Semester.courses semester) in
  let totalCredits := sum_credits (Semester.courses semester) in
  let remainingCredits := sum_credits coursesNeedingGrades in
  let currentPoints := sum_points coursesWithMarks in
  let targetPoints := targetGPA * totalCredits in
  let pointsNeeded := targetPoints - currentPoints in
  if gtb remainingCredits 0 then div pointsNeeded remainingCredits else Ok 0.

(** The loop over the mappings of the template, on the pair
    [(marksNeeded, gradeNeeded)]; it has no [break], so the last mapping
    that passes the test wins. *)
Definition scan_mappings (requiredGP : Q) (mappings : list GradeMapping)
    (init : Q * string) : Q * string :=
  fold_left
    (fun acc mapping =>
       if geb (GradeMapping.gradePoint mapping) requiredGP
       then (GradeMapping.minMarks mapping, GradeMapping.letterGrade mapping)
       else acc)
    mappings init.

(** The callback of [coursesNeedingGrades.map]. *)
Definition recommend (requiredGP scale : Q) (course : Course)
  : res CourseRecommendation.t :=
  let template := if eqb scale 10 then Some BIT_MESRA_10_POINT else None in
  needed <-
    match template with
    | Some t =>
        let scanned := scan_mappings requiredGP (GradeTemplate.mappings t) (0, "N/A"%string) in
        match GradeTemplate.mappings t with
        | top :: _ =>
            if gtb requiredGP (GradeMapping.gradePoint top)
            then Ok (100, (GradeMapping.letterGrade top ++ "+")%string)
            else Ok scanned
        | [] => Err TypeError
        end
    | None => Ok (0, "N/A"%string)
    end ;;
  let marksNeeded := fst needed in
  let gradeNeeded := snd needed in
  Ok (CourseRecommendation.mk (Course.name course) (Course.marks course)
        (Math_round marksNeeded) gradeNeeded (leb marksNeeded 100)).

Definition intra_message (feasible : bool) (avgGPANeeded scale : Q) : IntraMessage :=
  if negb feasible then
    if gtb avgGPANeeded scale then TargetNotAchievable avgGPANeeded scale
    else TargetAlreadyExceeded
  else if geb avgGPANeeded (scale * (9 # 10)) then VeryChallengingSemester avgGPANeeded
  else if geb avgGPANeeded (scale * (7 # 10)) then AchievableWithGoodPerformance avgGPANeeded
  else EasilyAchievableSemester avgGPANeeded.

Definition calculateIntraSemesterTarget
    (semester : Semester) (targetGPA scale : Q) : res IntraSemesterTarget.t :=
  let coursesWithMarks := filter has_gradePoint (Semester.courses semester) in
  let coursesNeedingGrades :=
    filter (fun c => negb (has_gradePoint c)) (Semester.courses semester) in
  currentGPA <- calculateGPA coursesWithMarks ;;
  match coursesNeedingGrades with
  | [] =>
      let achieved :=
        match currentGPA with
        | Some g => geb g targetGPA
        | None => false
        end in
      Ok (IntraSemesterTarget.mk currentGPA targetGPA coursesWithMarks [] []
            achieved
            (match currentGPA with
             | Some g => if geb g targetGPA then AlreadyAchievedThisSemester g
                         else AllCoursesGraded currentGPA
             | None => AllCoursesGraded currentGPA
             end))
  | _ :: _ =>
      avgGPANeeded <- avgGPANeededOf semester targetGPA ;;
      let feasible := leb avgGPANeeded scale && geb avgGPANeeded 0 in
      recommendations <- mapM (recommend avgGPANeeded scale) coursesNeedingGrades ;;
      Ok (IntraSemesterTarget.mk currentGPA targetGPA coursesWithMarks
            coursesNeedingGrades recommendations feasible
            (intra_message feasible avgGPANeeded scale))
  end.

(** The call with the default [scale = 10]. *)
Definition calculateIntraSemesterTarget_default
    (semester : Semester) (targetGPA : Q) : res IntraSemesterTarget.t :=
  calculateIntraSemesterTarget semester targetGPA 10.

(** ** Grade-distribution chart projector *)

Module ChartDataPoint.
Record t : Type := mk {
  name : string;
  value : slot;
  count : slot
}.
End ChartDataPoint.

(** *** Enumeration order of an object's own keys

    Keys that are array indices come first, in ascending numeric order;
    the other keys follow in creation order. *)

Definition digit_of (c : ascii) : option N :=
  let n := N_of_ascii c in
  if ((48 <=? n) && (n <=? 57))%N then Some (n - 48)%N else None.

Fixpoint parse_digits (s : string) (acc : N) : option N :=
  match s with
  | EmptyString => Some acc
  | String c s' =>
      match digit_of c with
      | Some d => parse_digits s' (10 * acc + d)%N
      | None => None
      end
  end.

(** The canonical decimal strings of [0 .. 2^32 - 2]. *)
Definition array_index (key : string) : option N :=
  match key with
  | EmptyString => None
  | String c rest =>
      if Ascii.eqb c "0"
      then match rest with EmptyString => Some 0%N | _ => None end
      else match parse_digits key 0 with
           | Some n => if (n <? 2 ^ 32 - 1)%N then Some n else None
           | None => None
           end
  end.

Definition index_of_key (key : string) : N :=
  match array_index key with
  | Some n => n
  | None => 0%N
  end.

Definition is_index_key (kv : string * slot) : bool :=
  match array_index (fst kv) with
  | Some _ => true
  | None => false
  end.

Fixpoint insert_by_index (kv : string * slot) (sorted : list (string * slot))
  : list (string * slot) :=
  match sorted with
  | [] => [kv]
  | kv' :: rest =>
      if (index_of_key (fst kv) <=? index_of_key (fst kv'))%N
      then kv :: sorted
      else kv' :: insert_by_index kv rest
  end.

(** [Object.entries(distribution)] *)
Definition Object_entries (distribution : histogram) : list (string * slot) :=
  fold_right insert_by_index [] (filter is_index_key distribution)
  ++ filter (fun kv => negb (is_index_key kv)) distribution.

(** [Object.keys(distribution).length === 0] *)
Definition no_keys (distribution : histogram) : bool :=
  match distribution with
  | [] => true
  | _ :: _ => false
  end.

(** *** [points.sort((a, b) => b.value - a.value)]: stable, descending *)

(** The comparator puts [p] behind [q]: [q.value - p.value > 0].  Against
    a text the difference is [NaN], which the sort reads as 0. *)
Definition sorts_behind (p q : ChartDataPoint.t) : bool :=
  match ChartDataPoint.value p, ChartDataPoint.value q with
  | Count x, Count y => (x <? y)%Z
  | _, _ => false
  end.

Fixpoint insert_desc (p : ChartDataPoint.t) (sorted : list ChartDataPoint.t)
  : list ChartDataPoint.t :=
  match sorted with
  | [] => [p]
  | q :: rest =>
      if sorts_behind p q
      then q :: insert_desc p rest
      else p :: sorted
  end.

Definition sort_desc (points : list ChartDataPoint.t) : list ChartDataPoint.t :=
  fold_right insert_desc [] points.

Definition is_count (v : slot) : bool :=
  match v with
  | Count _ => true
  | Text _ => false
  end.

Definition counts_of (points : list ChartDataPoint.t) : list Z :=
  flat_map (fun p => match ChartDataPoint.value p with
                     | Count n => [n]
                     | Text _ => []
                     end) points.

Definition all_equal (counts : list Z) : bool :=
  match counts with
  | [] => true
  | n :: rest => forallb (Z.eqb n) rest
  end.

(** The comparator is a consistent comparison function on the points: a
    text compares equal to every point, so with a text among them all
    the counts have to be equal. *)
Definition consistent_comparator (points : list ChartDataPoint.t) : bool :=
  forallb (fun p => is_count (ChartDataPoint.value p)) points
  || all_equal (counts_of points).

(** The sort is stable; with a comparator that is not consistent its
    order is left to the implementation. *)
Definition sort_by_value (points : list ChartDataPoint.t)
  : res (list ChartDataPoint.t) :=
  if consistent_comparator points then Ok (sort_desc points)
  else Err Unspecified.

(** The histogram the two nested [forEach] build. *)
Definition session_histogram (session : Session) : histogram :=
  fold_left (fun d semester => count_grades d (Semester.courses semester))
            (Session.semesters session) [].

Definition has_manualGPA (s : Semester) : bool :=
  match Semester.manualGPA s with
  | Some _ => true
  | None => false
  end.

Definition bucket_of (kv : string * slot) : ChartDataPoint.t :=
  ChartDataPoint.mk (fst kv) (snd kv) (snd kv).

Definition getGradeDistribution (session : Session) : res (list ChartDataPoint.t) :=
  let distribution := session_histogram session in
  if no_keys distribution && existsb has_manualGPA (Session.semesters session)
  then Ok [ ChartDataPoint.mk "Manual Entry" (Count 1)
              (Count (Z.of_nat (List.length
                 (filter (fun s => truthy_num (Semester.manualGPA s))
                         (Session.semesters session))))) ]
  else sort_by_value (map bucket_of (Object_entries distribution)).

(** ** Scale conversion and validation ([lib/calculator.ts]) *)

Definition getTemplateByName (name : string) : option GradeTemplate :=
  find (fun t => String.eqb (GradeTemplate.name t) name) getBuiltinTemplates.

Inductive ConversionMethod : Type := official | linear.

(** The [formula] text of a conversion, by the branch that writes it and
    the numbers it shows. *)
Inductive ConversionFormula : Type :=
| SameScale
| OfficialBand (convertedValue : Q)
| OfficialBelow (value factor : Q)
| LinearFormula (value fromScale toScale : Q).

Module Conversion.
Record t : Type := mk {
  convertedValue : Q;
  formula : ConversionFormula
}.
End Conversion.

Definition convertScale (value fromScale toScale : Q) (method : ConversionMethod)
  : res Conversion.t :=
  if eqb fromScale toScale then Ok (Conversion.mk value SameScale)
  else
    match method with
    | official =>
        if eqb fromScale 10 && eqb toScale 4 then
          if geb value (95 # 10) then Ok (Conversion.mk 4 (OfficialBand 4))
          else if geb value (85 # 10) then Ok (Conversion.mk (37 # 10) (OfficialBand (37 # 10)))
          else if geb value (75 # 10) then Ok (Conversion.mk (33 # 10) (OfficialBand (33 # 10)))
          else if geb value (65 # 10) then Ok (Conversion.mk 3 (OfficialBand 3))
          else if geb value (55 # 10) then Ok (Conversion.mk (27 # 10) (OfficialBand (27 # 10)))
          else if geb value 5 then Ok (Conversion.mk 2 (OfficialBand 2))
          else Ok (Conversion.mk (value * (4 # 10)) (OfficialBelow value (4 # 10)))
        else
          if geb value (37 # 10) then Ok (Conversion.mk 9 (OfficialBand 9))
          else if geb value (33 # 10) then Ok (Conversion.mk 8 (OfficialBand 8))
          else if geb value 3 then Ok (Conversion.mk 7 (OfficialBand 7))
          else if geb value (27 # 10) then Ok (Conversion.mk 6 (OfficialBand 6))
          else if geb value 2 then Ok (Conversion.mk (55 # 10) (OfficialBand (55 # 10)))
          else Ok (Conversion.mk (value * (25 # 10)) (OfficialBelow value (25 # 10)))
    | linear =>
        if eqb fromScale 10 && eqb toScale 4 then
          q <- div value 10 ;;
          Ok (Conversion.mk (q * 4) (LinearFormula value 10 4))
        else
          q <- div value 4 ;;
          Ok (Conversion.mk (q * 10) (LinearFormula value 4 10))
    end.



(** [calculateGradeDistribution(semesters)] *)
Definition calculateGradeDistribution (semesters : list Semester) : histogram :=
  fold_left (fun d sem => count_grades d (Semester.courses sem)) semesters [].

(** ** The other chart projectors *)

(** *** [[...semesters].sort((a, b) => a.order - b.order)]: stable, ascending *)

Fixpoint insert_by_order (s : Semester) (sorted : list Semester) : list Semester :=
  match sorted with
  | [] => [s]
  | t :: rest =>
      if ltb (Semester.order t) (Semester.order s)
      then t :: insert_by_order s rest
      else s :: sorted
  end.

Definition sort_by_order (semesters : list Semester) : list Semester :=
  fold_right insert_by_order [] semesters.

Module TimelinePoint.
Record t : Type := mk {
  name : string;
  CGPA : Q;
  SemesterGPA : Q;   (* 'Semester GPA' *)
  value : Q
}.
End TimelinePoint.

(** What one semester adds to [(cumulativePoints, cumulativeCredits)]. *)
Definition timeline_step (acc : Q * Q) (semesterGPA : option Q) (semesterCredits : Q)
  : Q * Q :=
  match semesterGPA with
  | Some g =>
      if gtb semesterCredits 0
      then (fst acc + g * semesterCredits, snd acc + semesterCredits)
      else acc
  | None => acc
  end.

(** The callback of [sortedSemesters.map], with the two counters it
    updates passed along. *)
Fixpoint timeline_points (semesters : list Semester) (acc : Q * Q)
  : res (list TimelinePoint.t) :=
  match semesters with
  | [] => Ok []
  | semester :: rest =>
      eff <- getSemesterGPA semester ;;
      let semesterGPA := SemesterGPA.gpa eff in
      let semesterCredits := getSemesterCredits semester in
      let acc' := timeline_step acc semesterGPA semesterCredits in
      cgpa <- (if gtb (snd acc') 0 then div (fst acc') (snd acc') else Ok 0) ;;
      cgpaR <- roundForDisplay (Some cgpa) ;;
      gpaR <- roundForDisplay semesterGPA ;;
      points <- timeline_points rest acc' ;;
      Ok (TimelinePoint.mk (Semester.name semester) (opt_or_zero cgpaR)
            (opt_or_zero gpaR) (opt_or_zero cgpaR) :: points)
  end.

Definition getCGPATimeline (session : Session) : res (list TimelinePoint.t) :=
  timeline_points (sort_by_order (Session.semesters session)) (0, 0).

Module CreditsPoint.
Record t : Type := mk {
  name : string;
  value : Q;
  fill : string
}.
End CreditsPoint.

Definition getCreditsBreakdown (session : Session) : list CreditsPoint.t :=
  let completedCredits := creditsCompletedOf (Session.semesters session) in
  let totalRequired := 160 in
  let remaining := Qmax 0 (totalRequired - completedCredits) in
  [ CreditsPoint.mk "Completed" completedCredits "#6366f1";
    CreditsPoint.mk "Remaining" remaining "#e5e7eb" ].

Module ComparisonPoint.
Record t : Type := mk {
  name : string;
  GPA : Q;
  value : Q
}.
End ComparisonPoint.

Definition comparison_point (semester : Semester) : res ComparisonPoint.t :=
  eff <- getSemesterGPA semester ;;
  gpaR <- roundForDisplay (SemesterGPA.gpa eff) ;;
  Ok (ComparisonPoint.mk (Semester.name semester) (opt_or_zero gpaR) (opt_or_zero gpaR)).

Definition getSemesterComparison (session : Session) : res (list ComparisonPoint.t) :=
  mapM comparison_point (sort_by_order (Session.semesters session)).

Module TopCoursePoint.
Record t : Type := mk {
  name : string;
  GradePoint : Q;    (* 'Grade Point' *)
  value : Q
}.
End TopCoursePoint.

(** The entries pushed to [allCourses]. *)
Definition graded_entries (courses : list Course) : list (string * Q) :=
  flat_map (fun course =>
              match Course.gradePoint course with
              | Some gp => [(Course.name course, gp)]
              | None => []
              end) courses.

Definition allCoursesOf (session : Session) : list (string * Q) :=
  flat_map (fun semester => graded_entries (Semester.courses semester))
           (Session.semesters session).

(** [allCourses.sort((a, b) => b.gradePoint - a.gradePoint)]: stable,
    descending. *)
Fixpoint insert_by_gradePoint (e : string * Q) (sorted : list (string * Q))
  : list (string * Q) :=
  match sorted with
  | [] => [e]
  | e' :: rest =>
      if ltb (snd e) (snd e')
      then e' :: insert_by_gradePoint e rest
      else e :: sorted
  end.

Definition sort_by_gradePoint (entries : list (string * Q)) : list (string * Q) :=
  fold_right insert_by_gradePoint [] entries.

(** [xs.slice(0, count)] for an integer [count]; a negative [count]
    counts from the end. *)
Definition slice_to {A : Type} (count : Z) (xs : list A) : list A :=
  if (count <? 0)%Z
  then firstn (Z.to_nat (Z.max (Z.of_nat (List.length xs) + count) 0)) xs
  else firstn (Z.to_nat count) xs.

(** [name.length > 25 ? name.substring(0, 25) + '...' : name] *)
Definition elide (name : string) : string :=
  if (25 <? String.length name)%nat
  then (substring 0 25 name ++ "...")%string
  else name.

Definition getTopCourses (session : Session) (count : Z) : list TopCoursePoint.t :=
  map (fun course => TopCoursePoint.mk (elide (fst course)) (snd course) (snd course))
      (slice_to count (sort_by_gradePoint (allCoursesOf session))).

(** The call with the default [count = 10]. *)
Definition getTopCourses_default (session : Session) : list TopCoursePoint.t :=
  getTopCourses session 10.

Module ProgressMetrics.
Record t : Type := mk {
  percentage : Q;
  completedCredits : Q;
  totalCredits : Q;
  coursesCompleted : Z;
  totalCourses : Z
}.
End ProgressMetrics.

(** The variables the [forEach] of [getProgressMetrics] updates. *)
Module ProgressLoop.
Record t : Type := mk {
  completedCredits : Q;
  coursesCompleted : Z;
  totalCourses : Z;
  semestersWithManualEntry : Z
}.
End ProgressLoop.

Definition progress_course_step (st : Z * Z) (course : Course) : Z * Z :=
  (* (totalCourses, coursesCompleted) *)
  ((fst st + 1)%Z,
   if has_gradePoint course then (snd st + 1)%Z else snd st).

Definition progress_step (st : ProgressLoop.t) (semester : Semester) : ProgressLoop.t :=
  let counts :=
    fold_left progress_course_step (Semester.courses semester)
              (ProgressLoop.totalCourses st, ProgressLoop.coursesCompleted st) in
  ProgressLoop.mk
    (ProgressLoop.completedCredits st + getSemesterCredits semester)
    (snd counts) (fst counts)
    (match Semester.courses semester, Semester.manualGPA semester with
     | [], Some _ => (ProgressLoop.semestersWithManualEntry st + 1)%Z
     | _, _ => ProgressLoop.semestersWithManualEntry st
     end).

Definition getProgressMetrics (session : Session) (totalCreditsRequired : Q)
  : res ProgressMetrics.t :=
  let st := fold_left progress_step (Session.semesters session)
                      (ProgressLoop.mk 0 0 0 0) in
  let manualOnly :=
    (0 <? ProgressLoop.semestersWithManualEntry st)%Z
    && (ProgressLoop.totalCourses st =? 0)%Z in
  let totalCourses :=
    if manualOnly then ProgressLoop.semestersWithManualEntry st
    else ProgressLoop.totalCourses st in
  let coursesCompleted :=
    if manualOnly then ProgressLoop.semestersWithManualEntry st
    else ProgressLoop.coursesCompleted st in
  ratio <- div (ProgressLoop.completedCredits st) totalCreditsRequired ;;
  let percentage := ratio * 100 in
  Ok (ProgressMetrics.mk (Qmin 100 (Math_round percentage))
        (ProgressLoop.completedCredits st) totalCreditsRequired
        coursesCompleted totalCourses).

(** ** Editing a session (the dashboard page) *)

(** [{ ...s, courses }] *)
Definition with_courses (s : Semester) (courses : list Course) : Semester :=
  Semester.mk (Semester.id s) (Semester.name s) courses (Semester.order s)
              (Semester.manualGPA s) (Semester.manualCredits s).

(** [{ ...session, semesters }] *)
Definition with_semesters (session : Session) (semesters : list Semester) : Session :=
  Session.mk semesters (Session.scale session).

(** The decimal text of a natural number, as a template literal prints it. *)
Definition decimal (n : nat) : string :=
  NilEmpty.string_of_uint (Nat.to_uint n).

(** [addSemester], given the text of [Date.now()]. *)
Definition addSemester (now : string) (session : Session) : Session :=
  let newSemester :=
    Semester.mk ("sem-" ++ now)
      ("Semester " ++ decimal (List.length (Session.semesters session) + 1))
      [] (inject_Z (Z.of_nat (List.length (Session.semesters session))))
      None None in
  with_semesters session (Session.semesters session ++ [newSemester]).

Definition deleteSemester (semesterId : string) (session : Session) : Session :=
  with_semesters session
    (filter (fun s => negb (String.eqb (Semester.id s) semesterId))
            (Session.semesters session)).

Definition addCourse (semesterId : string) (course : Course) (session : Session)
  : Session :=
  with_semesters session
    (map (fun s => if String.eqb (Semester.id s) semesterId
                   then with_courses s (Semester.courses s ++ [course])
                   else s)
         (Session.semesters session)).

(** [courses.filter((_, i) => i !== courseIndex)] *)
Fixpoint remove_at {A : Type} (i : nat) (xs : list A) : list A :=
  match xs, i with
  | [], _ => []
  | _ :: rest, O => rest
  | x :: rest, S i' => x :: remove_at i' rest
  end.

(** [courses.map((c, i) => i === courseIndex ? updatedCourse : c)] *)
Fixpoint replace_at {A : Type} (i : nat) (y : A) (xs : list A) : list A :=
  match xs, i with
  | [], _ => []
  | _ :: rest, O => y :: rest
  | x :: rest, S i' => x :: replace_at i' y rest
  end.

Definition deleteCourse (semesterId : string) (courseIndex : nat) (session : Session)
  : Session :=
  with_semesters session
    (map (fun s => if String.eqb (Semester.id s) semesterId
                   then with_courses s (remove_at courseIndex (Semester.courses s))
                   else s)
         (Session.semesters session)).

Definition updateCourse (semesterId : string) (courseIndex : nat)
    (updatedCourse : Course) (session : Session) : Session :=
  with_semesters session
    (map (fun s => if String.eqb (Semester.id s) semesterId
                   then with_courses s
                          (replace_at courseIndex updatedCourse (Semester.courses s))
                   else s)
         (Session.semesters session)).

(** * The target solvers on binary64

    [calculateTargetGPA] and [calculateIntraSemesterTarget] with what
    they call, every [number] a binary64 value.  [+], [-], [*], [/],
    [<], [<=] and [===] of the source are the primitive operations [+],
    [-], [*], [/], [<?], [<=?] and [=?] of binary64, applied in the order
    in which the source applies them; a decimal literal denotes the
    nearest binary64 value, as it does in the source.  No division is
    checked here: dividing by zero gives an infinity or [NaN]. *)

Module F64.

Local Open Scope float_scope.

(** ** JavaScript operators on numbers *)

(** [a > b], [a >= b] *)
Definition gtb (a b : float) : bool := b <? a.
Definition geb (a b : float) : bool := b <=? a.

(** A number used as a condition: [0], [-0] and [NaN] are falsy. *)
Definition falsy (x : float) : bool := (x =? 0) || is_nan x.

(** [x || d] on a number. *)
Definition or_else (x d : float) : float := if falsy x then d else x.

(** [x || 0] on a number, and on a nullable number. *)
Definition or_zero (x : float) : float := or_else x 0.

Definition opt_or_zero (x : option float) : float :=
  match x with
  | Some v => or_zero v
  | None => 0
  end.

(** An integer of magnitude below 2^53 as a number. *)
Definition of_Z (n : Z) : float :=
  if (n <? 0)%Z then - of_uint63 (Uint63.of_Z (- n))
  else of_uint63 (Uint63.of_Z n).

(** [Math.round]: the nearest integer, halves going up.  A finite value
    is m * 2^e for integers m and e; with e >= 0 it is an integer
    already, and otherwise it lies below 2^53 in magnitude and
    floor(x + 1/2) is computed on the integers.  A result of zero keeps
    the sign of the argument; zeros, infinities and [NaN] are returned as
    they are. *)
Definition Math_round (x : float) : float :=
  match Prim2SF x with
  | S754_finite negative m e =>
      if (0 <=? e)%Z then x
      else
        let k := (- e)%Z in
        let numerator := if negative then Z.neg m else Z.pos m in
        let n := ((2 * numerator + 2 ^ k) / 2 ^ (k + 1))%Z in
        if (n =? 0)%Z then (if negative then -0 else 0) else of_Z n
  | _ => x
  end.

(** [roundForDisplay(value)], with the default of two decimals, for which
    [Math.pow(10, decimals)] is 100. *)
Definition roundForDisplay (value : option float) : option float :=
  match value with
  | None => None
  | Some v => Some (Math_round (v * 100) / 100)
  end.

(** ** Data model ([types/schema.ts]) *)

Module Course.
Record t : Type := mk {
    name : string;
    credits : float;
    gradeType : GradeType;
    grade : option string;
    marks : option float;
    gradePoint : option float
}.
End Course.
Notation Course := Course.t.

Module Semester.
Record t : Type := mk {
    id : string;
    name : string;
    courses : list Course;
    order : float;
    manualGPA : option float;
    manualCredits : option float
}.
End Semester.
Notation Semester := Semester.t.

Module Session.
Record t : Type := mk {
    semesters : list Semester;
    scale : float   (* metadata.scale *)
}.
End Session.
Notation Session := Session.t.

Module GradeMapping.
Record t : Type := mk {
    minMarks : float;
    maxMarks : float;
    letterGrade : string;
    gradePoint : float
}.
End GradeMapping.
Notation GradeMapping := GradeMapping.t.

Module GradeTemplate.
Record t : Type := mk {
    name : string;
    scale : float;
    mappings : list GradeMapping
}.
End GradeTemplate.
Notation GradeTemplate := GradeTemplate.t.

Definition BIT_MESRA_10_POINT : GradeTemplate :=
  GradeTemplate.mk "BIT Mesra 10-Point" 10
    [ GradeMapping.mk 91 100 "A+/O" 10;
      GradeMapping.mk 81 90 "A" 9;
      GradeMapping.mk 71 80 "B" 8;
      GradeMapping.mk 61 70 "C" 7;
      GradeMapping.mk 51 60 "D" 6;
      GradeMapping.mk 41 50 "E" 5;
      GradeMapping.mk 0 40 "F" 0 ].

(** ** GPA and CGPA ([lib/calculator.ts]) *)

(** The body of the loop over courses, on the pair
    [(totalPoints, totalCredits)]. *)
Definition gpa_step (acc : float * float) (course : Course) : float * float :=
  match Course.gradePoint course with
  | None => acc
  | Some gp =>
      if Course.credits course =? 0 then acc
      else (fst acc + gp * Course.credits course, snd acc + Course.credits course)
  end.

(** [if (totalCredits === 0) return null; return totalPoints / totalCredits] *)
Definition average_or_null (totals : float * float) : option float :=
  if snd totals =? 0 then None else Some (fst totals / snd totals).

Definition calculateGPA (courses : list Course) : option float :=
  average_or_null (fold_left gpa_step courses (0, 0)).

(** The body of the loop over semesters of [calculateCGPA]. *)
Definition cgpa_step (acc : float * float) (semester : Semester) : float * float :=
  match Semester.courses semester with
  | _ :: _ => fold_left gpa_step (Semester.courses semester) acc
  | [] =>
      match Semester.manualGPA semester, Semester.manualCredits semester with
      | Some g, Some c =>
          if gtb c 0 then (fst acc + g * c, snd acc + c) else acc
      | _, _ => acc
      end
  end.

Definition calculateCGPA (semesters : list Semester) : option float :=
  average_or_null (fold_left cgpa_step semesters (0, 0)).

Definition getSemesterCredits (semester : Semester) : float :=
  match Semester.courses semester with
  | _ :: _ =>
      fold_left (fun sum c => sum + or_zero (Course.credits c))
                (Semester.courses semester) 0
  | [] =>
      match Semester.manualCredits semester with
      | Some c => c
      | None => 0
      end
  end.

(** ** Cross-semester target solver ([lib/statistics.ts]) *)

Inductive TargetMessage : Type :=
| NotAchievable (requiredGPA maxPossible : float)
| TargetAlreadyAchieved (currentCGPA : float)
| VeryChallenging (requiredGPA : float)
| AchievableWithEffort (requiredGPA : float)
| EasilyAchievable (requiredGPA : float).

Module TargetCalculation.
Record t : Type := mk {
  targetCGPA : float;
  currentCGPA : float;
  creditsCompleted : float;
  creditsRemaining : float;
  requiredGPA : float;
  feasible : bool;
  message : TargetMessage
}.
End TargetCalculation.

(** [session.semesters.forEach(s => { creditsCompleted += getSemesterCredits(s) })] *)
Definition creditsCompletedOf (semesters : list Semester) : float :=
  fold_left (fun acc s => acc + getSemesterCredits s) semesters 0.

Definition target_message
    (feasible : bool) (requiredGPA maxPossible currentCGPA : float) : TargetMessage :=
  if negb feasible then
    if gtb requiredGPA maxPossible then NotAchievable requiredGPA maxPossible
    else TargetAlreadyAchieved currentCGPA
  else if geb requiredGPA (maxPossible * 0.9) then VeryChallenging requiredGPA
  else if geb requiredGPA (maxPossible * 0.7) then AchievableWithEffort requiredGPA
  else EasilyAchievable requiredGPA.

Definition calculateTargetGPA
    (session : Session) (targetCGPA creditsRemaining : float)
  : TargetCalculation.t :=
  let currentCGPA := opt_or_zero (calculateCGPA (Session.semesters session)) in
  let creditsCompleted := creditsCompletedOf (Session.semesters session) in
  let requiredGPA :=
    if gtb creditsRemaining 0
    then (targetCGPA * (creditsCompleted + creditsRemaining)
          - currentCGPA * creditsCompleted) / creditsRemaining
    else 0 in
  let maxPossible := or_else (Session.scale session) 10 in
  let feasible := (requiredGPA <=? maxPossible) && geb requiredGPA 0 in
  let message := target_message feasible requiredGPA maxPossible currentCGPA in
  TargetCalculation.mk targetCGPA
    (opt_or_zero (roundForDisplay (Some currentCGPA)))
    creditsCompleted creditsRemaining
    (opt_or_zero (roundForDisplay (Some requiredGPA)))
    feasible message.

(** ** Intra-semester target solver *)

Inductive IntraMessage : Type :=
| AlreadyAchievedThisSemester (currentGPA : float)
| AllCoursesGraded (currentGPA : option float)
| TargetNotAchievable (avgGPANeeded scale : float)
| TargetAlreadyExceeded
| VeryChallengingSemester (avgGPANeeded : float)
| AchievableWithGoodPerformance (avgGPANeeded : float)
| EasilyAchievableSemester (avgGPANeeded : float).

Module CourseRecommendation.
Record t : Type := mk {
  courseName : string;
  currentMarks : option float;
  marksNeeded : float;
  gradeNeeded : string;
  feasible : bool
}.
End CourseRecommendation.

Module IntraSemesterTarget.
Record t : Type := mk {
  currentSemesterGPA : option float;
  targetSemesterGPA : float;
  coursesWithMarks : list Course;
  coursesNeedingGrades : list Course;
  recommendations : list CourseRecommendation.t;
  feasible : bool;
  message : IntraMessage
}.
End IntraSemesterTarget.

Definition has_gradePoint (c : Course) : bool :=
  match Course.gradePoint c with
  | Some _ => true
  | None => false
  end.

(** [courses.reduce((sum, c) => sum + c.credits, 0)] *)
Definition sum_credits (courses : list Course) : float :=
  fold_left (fun sum c => sum + Course.credits c) courses 0.

(** [courses.reduce((sum, c) => sum + (c.gradePoint || 0) * c.credits, 0)] *)
Definition sum_points (courses : list Course) : float :=
  fold_left (fun sum c => sum + opt_or_zero (Course.gradePoint c) * Course.credits c)
            courses 0.

(** [const avgGPANeeded = remainingCredits > 0 ? pointsNeeded / remainingCredits : 0] *)
Definition avgGPANeededOf (semester : Semester) (targetGPA : float) : float :=
  let coursesWithMarks := filter has_gradePoint (Semester.courses semester) in
  let coursesNeedingGrades :=
    filter (fun c => negb (has_gradePoint c)) (Semester.courses semester) in
  let totalCredits := sum_credits (Semester.courses semester) in
  let remainingCredits := sum_credits coursesNeedingGrades in
  let currentPoints := sum_points coursesWithMarks in
  let targetPoints := targetGPA * totalCredits in
  let pointsNeeded := targetPoints - currentPoints in
  if gtb remainingCredits 0 then pointsNeeded / remainingCredits else 0.

(** The loop over the mappings of the template, on the pair
    [(marksNeeded, gradeNeeded)]; it has no [break], so the last mapping
    that passes the test wins. *)
Definition scan_mappings (requiredGP : float) (mappings : list GradeMapping)
    (init : float * string) : float * string :=
  fold_left
    (fun acc mapping =>
       if geb (GradeMapping.gradePoint mapping) requiredGP
       then (GradeMapping.minMarks mapping, GradeMapping.letterGrade mapping)
       else acc)
    mappings init.

(** The callback of [coursesNeedingGrades.map]. *)
Definition recommend (requiredGP scale : float) (course : Course)
  : res CourseRecommendation.t :=
  let template := if scale =? 10 then Some BIT_MESRA_10_POINT else None in
  needed <-
    match template with
    | Some t =>
        let scanned := scan_mappings requiredGP (GradeTemplate.mappings t) (0, "N/A"%string) in
        match GradeTemplate.mappings t with
        | top :: _ =>
            if gtb requiredGP (GradeMapping.gradePoint top)
            then Ok (100, (GradeMapping.letterGrade top ++ "+")%string)
            else Ok scanned
        | [] => Err TypeError
        end
    | None => Ok (0, "N/A"%string)
    end ;;
  let marksNeeded := fst needed in
  let gradeNeeded := snd needed in
  Ok (CourseRecommendation.mk (Course.name course) (Course.marks course)
        (Math_round marksNeeded) gradeNeeded (marksNeeded <=? 100)).

Definition intra_message (feasible : bool) (avgGPANeeded scale : float) : IntraMessage :=
  if negb feasible then
    if gtb avgGPANeeded scale then TargetNotAchievable avgGPANeeded scale
    else TargetAlreadyExceeded
  else if geb avgGPANeeded (scale * 0.9) then VeryChallengingSemester avgGPANeeded
  else if geb avgGPANeeded (scale * 0.7) then AchievableWithGoodPerformance avgGPANeeded
  else EasilyAchievableSemester avgGPANeeded.

Definition calculateIntraSemesterTarget
    (semester : Semester) (targetGPA scale : float) : res IntraSemesterTarget.t :=
  let coursesWithMarks := filter has_gradePoint (Semester.courses semester) in
  let coursesNeedingGrades :=
    filter (fun c => negb (has_gradePoint c)) (Semester.courses semester) in
  let currentGPA := calculateGPA coursesWithMarks in
  match coursesNeedingGrades with
  | [] =>
      let achieved :=
        match currentGPA with
        | Some g => geb g targetGPA
        | None => false
        end in
      Ok (IntraSemesterTarget.mk currentGPA targetGPA coursesWithMarks [] []
            achieved
            (match currentGPA with
             | Some g => if geb g targetGPA then AlreadyAchievedThisSemester g
                         else AllCoursesGraded currentGPA
             | None => AllCoursesGraded currentGPA
             end))
  | _ :: _ =>
      let avgGPANeeded := avgGPANeededOf semester targetGPA in
      let feasible := (avgGPANeeded <=? scale) && geb avgGPANeeded 0 in
      recommendations <- mapM (recommend avgGPANeeded scale) coursesNeedingGrades ;;
      Ok (IntraSemesterTarget.mk currentGPA targetGPA coursesWithMarks
            coursesNeedingGrades recommendations feasible
            (intra_message feasible avgGPANeeded scale))
  end.

(** ** The quantities the statements on binary64 are written with *)

Definition course_of (cr : float) (gp : option float) : Course :=
  Course.mk "course" cr letter None None gp.

Definition semester_of (courses : list Course) (mg mc : option float) : Semester :=
  Semester.mk "sem" "Semester" courses 0 mg mc.

(** The exact value of a finite binary64 number (0 for the others). *)
Definition exact (x : float) : Q :=
  match Prim2SF x with
  | S754_finite negative m e =>
      let magnitude :=
        if (0 <=? e)%Z then inject_Z (Z.pos m * 2 ^ e)
        else Qmake (Z.pos m) (Z.to_pos (2 ^ (- e))) in
      if negative then Qopp magnitude else magnitude
  | _ => 0%Q
  end.

(** [roundForDisplay] on a number. *)
Definition round2 (x : float) : float := Math_round (x * 100) / 100.

(** [currentCGPA]: the CGPA of the session, 0 when there is none. *)
Definition currentCGPA_of (session : Session) : float :=
  opt_or_zero (calculateCGPA (Session.semesters session)).

(** [maxPossible]: the scale of the session, 10 when it is not set. *)
Definition scaleMax (session : Session) : float :=
  or_else (Session.scale session) 10.

(** The closed form of the cross-semester solver, operation by
    operation. *)
Definition closed_form (session : Session) (targetCGPA remainingCredits : float) : float :=
  let creditsCompleted := creditsCompletedOf (Session.semesters session) in
  (targetCGPA * (creditsCompleted + remainingCredits)
   - currentCGPA_of session * creditsCompleted) / remainingCredits.

(** A CGPA of 7.5 over 60 credits, on the 10-point scale. *)
Definition session_75_60 : Session :=
  Session.mk [semester_of [] (Some 7.5) (Some 60)] 10.

Definition graded (semester : Semester) : list Course :=
  filter has_gradePoint (Semester.courses semester).

Definition ungraded (semester : Semester) : list Course :=
  filter (fun c => negb (has_gradePoint c)) (Semester.courses semester).

(** [remainingCredits], [totalCredits] and [currentPoints] of the
    intra-semester solver. *)
Definition remainingCreditsOf (semester : Semester) : float :=
  sum_credits (ungraded semester).

Definition totalCreditsOf (semester : Semester) : float :=
  sum_credits (Semester.courses semester).

Definition currentPointsOf (semester : Semester) : float :=
  sum_points (graded semester).

(** The required average of the specification, operation by operation. *)
Definition requiredAvgGP (semester : Semester) (targetGPA : float) : float :=
  (targetGPA * totalCreditsOf semester - currentPointsOf semester)
  / remainingCreditsOf semester.

(** The test of the loop over the mappings. *)
Definition passes (requiredGP : float) (m : GradeMapping) : bool :=
  geb (GradeMapping.gradePoint m) requiredGP.

Definition top_mapping : GradeMapping := GradeMapping.mk 91 100 "A+/O" 10.

(** A table in descending order of [minMarks]. *)
Definition minMarks_descending (ms : list GradeMapping) : Prop :=
  ForallOrdPairs
    (fun a b => (GradeMapping.minMarks b <=? GradeMapping.minMarks a) = true) ms.

(** [m] is a mapping of the 10-point template whose grade point is at
    least [r], and no such mapping has lower [minMarks]. *)
Definition minimum_marks_mapping (r : float) (m : GradeMapping) : Prop :=
  In m (GradeTemplate.mappings BIT_MESRA_10_POINT) /\
  passes r m = true /\
  forall m', In m' (GradeTemplate.mappings BIT_MESRA_10_POINT) ->
             passes r m' = true ->
             (GradeMapping.minMarks m <=? GradeMapping.minMarks m') = true.

(** What the callback leaves in [(marksNeeded, gradeNeeded)]. *)
Definition needed_for (requiredGP scale : float) : float * string :=
  if scale =? 10 then
    if gtb requiredGP (GradeMapping.gradePoint top_mapping)
    then (100, (GradeMapping.letterGrade top_mapping ++ "+")%string)
    else scan_mappings requiredGP (GradeTemplate.mappings BIT_MESRA_10_POINT)
           (0, "N/A"%string)
  else (0, "N/A"%string).

Definition recommendation_for (requiredGP scale : float) (course : Course)
  : CourseRecommendation.t :=
  let needed := needed_for requiredGP scale in
  CourseRecommendation.mk (Course.name course) (Course.marks course)
    (Math_round (fst needed)) (snd needed) (fst needed <=? 100).

(** The recommendation for [course] when the required average is [r], on
    the 10-point scale: above the top grade point, 100 marks and the top
    letter followed by "+"; otherwise the mapping of least [minMarks]
    among those whose grade point is at least [r]; and when no grade
    point is at least [r], as happens when [r] is not a number, no marks
    and no grade. *)
Definition follows_minimum_marks (r : float) (course : Course)
    (rec : CourseRecommendation.t) : Prop :=
  CourseRecommendation.courseName rec = Course.name course /\
  CourseRecommendation.currentMarks rec = Course.marks course /\
  (gtb r (GradeMapping.gradePoint top_mapping) = true ->
   CourseRecommendation.marksNeeded rec = 100 /\
   CourseRecommendation.gradeNeeded rec = "A+/O+"%string) /\
  (gtb r (GradeMapping.gradePoint top_mapping) = false ->
   (exists m, In m (GradeTemplate.mappings BIT_MESRA_10_POINT) /\ passes r m = true) ->
   exists m, minimum_marks_mapping r m /\
             CourseRecommendation.marksNeeded rec = GradeMapping.minMarks m /\
             CourseRecommendation.gradeNeeded rec = GradeMapping.letterGrade m) /\
  (gtb r (GradeMapping.gradePoint top_mapping) = false ->
   (forall m, In m (GradeTemplate.mappings BIT_MESRA_10_POINT) -> passes r m = false) ->
   CourseRecommendation.marksNeeded rec = 0 /\
   CourseRecommendation.gradeNeeded rec = "N/A"%string) /\
  CourseRecommendation.feasible rec =
    (CourseRecommendation.marksNeeded rec <=? 100).

(** No template: no marks and no grade. *)
Definition no_recommendation (course : Course) (rec : CourseRecommendation.t) : Prop :=
  rec = CourseRecommendation.mk (Course.name course) (Course.marks course)
          0 "N/A" true.

End F64.

(** * Specifications

    The quantities the statements below are written with. *)

(** Σ f over a list, the sum the specification writes. *)
Fixpoint total {A : Type} (f : A -> Q) (xs : list A) : Q :=
  match xs with
  | [] => 0
  | x :: xs' => f x + total f xs'
  end.

(** ** Semester GPA *)

(** The courses the loop does not skip. *)
Definition counted (c : Course) : bool :=
  has_gradePoint c && negb (eqb (Course.credits c) 0).

(** The courses of the specification: grade point present and credits > 0. *)
Definition qualifies (c : Course) : bool :=
  has_gradePoint c && gtb (Course.credits c) 0.

(** The grade point of a graded course. *)
Definition gp_of (c : Course) : Q :=
  match Course.gradePoint c with
  | Some g => g
  | None => 0
  end.

Definition weighted (c : Course) : Q := gp_of c * Course.credits c.

Definition course_of (cr : Q) (gp : option Q) : Course :=
  Course.mk "course" cr letter None None gp.

(** ** Marks, letters and grade points *)

(** The letter of a mapping as [convertGradeToPoints] compares it. *)
Definition upper_letter (mp : GradeMapping) : string :=
  toUpperCase (GradeMapping.letterGrade mp).

(** [m] lies in the interval of the mapping. *)
Definition in_interval (m : Q) (mp : GradeMapping) : Prop :=
  GradeMapping.minMarks mp <= m <= GradeMapping.maxMarks mp.

(** [mp] is the first mapping of the list whose interval contains [m]. *)
Definition first_bucket (m : Q) (mappings : list GradeMapping) (mp : GradeMapping) : Prop :=
  exists before after,
    mappings = before ++ mp :: after /\
    in_interval m mp /\
    Forall (fun mp' => ~ in_interval m mp') before.

(** ** Cumulative GPA *)

(** The effective GPA of a semester, the [gpa] field of [getSemesterGPA]. *)
Definition effectiveGPA (s : Semester) : option Q :=
  match getSemesterGPA s with
  | Ok r => SemesterGPA.gpa r
  | Err _ => None
  end.

Definition effectiveGPA_value (s : Semester) : Q :=
  match effectiveGPA s with
  | Some g => g
  | None => 0
  end.

(** The weighted average of the specification: Σ(effectiveGPA *
    effectiveCredits) / Σ effectiveCredits over the semesters with a
    defined effective GPA and non-zero effective credits, [null] when
    there is none. *)
Definition claimed_qualifies (s : Semester) : bool :=
  match effectiveGPA s with
  | Some _ => negb (eqb (getSemesterCredits s) 0)
  | None => false
  end.

Definition claimed_cgpa (semesters : list Semester) : option Q :=
  match filter claimed_qualifies semesters with
  | [] => None
  | q => Some (total (fun s => effectiveGPA_value s * getSemesterCredits s) q
               / total getSemesterCredits q)
  end.

(** The credits [calculateCGPA] counts for a semester: those of the
    courses that carry a grade point, or [manualCredits] when the
    semester has no course. *)
Definition gradedCredits (s : Semester) : Q :=
  match Semester.courses s with
  | _ :: _ => total Course.credits (filter has_gradePoint (Semester.courses s))
  | [] =>
      match Semester.manualCredits s with
      | Some c => c
      | None => 0
      end
  end.

Definition cgpa_qualifies (s : Semester) : bool :=
  match effectiveGPA s with
  | Some _ => gtb (gradedCredits s) 0
  | None => false
  end.

Definition all_credits_nonneg (semesters : list Semester) : Prop :=
  Forall (fun s => credits_nonneg (Semester.courses s)) semesters.

(** What one semester adds to [(totalPoints, totalCredits)]. *)
Definition contribution (s : Semester) : Q * Q :=
  if cgpa_qualifies s
  then (effectiveGPA_value s * gradedCredits s, gradedCredits s)
  else (0, 0).

Definition semester_of (courses : list Course) (mg mc : option Q) : Semester :=
  Semester.mk "sem" "Semester" courses 0 mg mc.

(** The letter grades of the two built-in templates. *)
Definition builtin_letters : list string :=
  flat_map (fun T => map GradeMapping.letterGrade (GradeTemplate.mappings T))
           getBuiltinTemplates.

(** ** Cross-semester target *)

(** Rounding to two decimals, [Math.round(x * 100) / 100]. *)
Definition round2 (x : Q) : Q := Math_round (x * 100) / 100.

(** [calculateCGPA(session.semesters) || 0] *)
Definition currentCGPA_of (session : Session) : Q :=
  match calculateCGPA (Session.semesters session) with
  | Ok cg => opt_or_zero cg
  | Err _ => 0
  end.

(** [session.metadata.scale || 10] *)
Definition scaleMax (session : Session) : Q :=
  if eqb (Session.scale session) 0 then 10 else Session.scale session.

(** The closed form of the specification. *)
Definition closed_form (session : Session) (targetCGPA remainingCredits : Q) : Q :=
  (targetCGPA * (creditsCompletedOf (Session.semesters session) + remainingCredits)
   - currentCGPA_of session * creditsCompletedOf (Session.semesters session))
  / remainingCredits.

(** The value [calculateTargetGPA] computes before rounding. *)
Definition required_unrounded (session : Session) (targetCGPA creditsRemaining : Q) : Q :=
  if gtb creditsRemaining 0
  then closed_form session targetCGPA creditsRemaining
  else 0.

(** A session with 60 completed credits at a CGPA of 7.5, on the
    10-point scale. *)
Definition session_75_60 : Session :=
  Session.mk [semester_of [] (Some (75 # 10)) (Some 60)] 10.

(** ** Trend *)

(** The effective GPAs of the semesters that have one, in list order. *)
Definition gpas_in_list_order (semesters : list Semester) : list Q :=
  flat_map (fun s => match effectiveGPA s with
                     | Some g => [g]
                     | None => []
                     end) semesters.

(** A semester without courses, given by its [order] and manual GPA. *)
Definition manual_semester (order gpa : Q) : Semester :=
  Semester.mk "sem" "Semester" [] order (Some gpa) None.

(** ** Intra-semester target *)

(** The two [filter] of the source. *)
Definition graded (semester : Semester) : list Course :=
  filter has_gradePoint (Semester.courses semester).

Definition ungraded (semester : Semester) : list Course :=
  filter (fun c => negb (has_gradePoint c)) (Semester.courses semester).

(** [remainingCredits] and [pointsNeeded] of the source. *)
Definition remainingCreditsOf (semester : Semester) : Q :=
  sum_credits (ungraded semester).

Definition pointsNeededOf (semester : Semester) (targetGPA : Q) : Q :=
  targetGPA * sum_credits (Semester.courses semester) - sum_points (graded semester).

(** The value of [avgGPANeeded]. *)
Definition avgGPANeeded_value (semester : Semester) (targetGPA : Q) : Q :=
  if gtb (remainingCreditsOf semester) 0
  then pointsNeededOf semester targetGPA / remainingCreditsOf semester
  else 0.

(** The letter of the top mapping of the 10-point template, with the
    suffix the source appends. *)
Definition top_plus : string := "A+/O+".

(** [(marksNeeded, gradeNeeded)] as the callback of the source leaves them. *)
Definition needed_for (requiredGP scale : Q) : Q * string :=
  if eqb scale 10 then
    if gtb requiredGP 10 then (100, top_plus)
    else scan_mappings requiredGP (GradeTemplate.mappings BIT_MESRA_10_POINT)
                       (0, "N/A"%string)
  else (0, "N/A"%string).

Definition recommendation_for (requiredGP scale : Q) (course : Course)
  : CourseRecommendation.t :=
  CourseRecommendation.mk (Course.name course) (Course.marks course)
    (Math_round (fst (needed_for requiredGP scale)))
    (snd (needed_for requiredGP scale))
    (leb (fst (needed_for requiredGP scale)) 100).

Definition passes (requiredGP : Q) (m : GradeMapping) : bool :=
  geb (GradeMapping.gradePoint m) requiredGP.

(** Mappings listed from the highest [minMarks] down. *)
Definition minMarks_descending (ms : list GradeMapping) : Prop :=
  ForallOrdPairs (fun a b => GradeMapping.minMarks b <= GradeMapping.minMarks a) ms.

Definition top_mapping : GradeMapping := GradeMapping.mk 91 100 "A+/O" 10.

(** [m] is a mapping of the 10-point template whose grade point is at
    least [r], with the least [minMarks] of all such mappings. *)
Definition minimum_marks_mapping (r : Q) (m : GradeMapping) : Prop :=
  In m (GradeTemplate.mappings BIT_MESRA_10_POINT) /\
  r <= GradeMapping.gradePoint m /\
  forall m', In m' (GradeTemplate.mappings BIT_MESRA_10_POINT) ->
             r <= GradeMapping.gradePoint m' ->
             GradeMapping.minMarks m <= GradeMapping.minMarks m'.

(** ** Grade distribution *)

(** The letter grades of the courses of a session, in the order the two
    nested loops meet them. *)
Definition grades_of (courses : list Course) : list string :=
  flat_map (fun c => match truthy_str (Course.grade c) with
                     | Some g => [g]
                     | None => []
                     end) courses.

Definition all_grades (session : Session) : list string :=
  flat_map (fun s => grades_of (Semester.courses s)) (Session.semesters session).

(** The number of courses of the session graded [g]. *)
Definition occurrences (session : Session) (g : string) : Z :=
  Z.of_nat (count_occ string_dec (all_grades session) g).

Definition keys (h : histogram) : list string := map fst h.

Definition lookup (h : histogram) (g : string) : option slot :=
  option_map snd (find (fun kv => String.eqb (fst kv) g) h).

(** A grade the histogram counts: any string that [Object.prototype]
    does not define. *)
Definition ordinary (g : string) : bool :=
  negb (String.eqb g "__proto__") && negb (inherited g).

(** What the key [g] holds once [n] courses graded [g] have been met. *)
Definition slot_after (g : string) (n : nat) : slot :=
  if inherited g then Text n else Count (Z.of_nat n).

(** No course of any semester has a letter grade ([undefined] and the
    empty string both count as none). *)
Definition no_letter_grades (session : Session) : Prop :=
  forall s c, In s (Session.semesters session) -> In c (Semester.courses s) ->
              Course.grade c = None \/ Course.grade c = Some EmptyString.

(** At least one semester has a [manualGPA] set. *)
Definition has_manual_entry (session : Session) : Prop :=
  exists s, In s (Session.semesters session) /\ Semester.manualGPA s <> None.

Definition graded_course (g : string) : Course :=
  Course.mk "course" 4 letter (Some g) None None.

(** ** Further properties: pooling *)

(** A semester without courses whose manual entry [calculateCGPA] counts. *)
Definition manual_counts (s : Semester) : bool :=
  match Semester.courses s, Semester.manualGPA s, Semester.manualCredits s with
  | [], Some _, Some c => gtb c 0
  | _, _, _ => false
  end.

(** All the courses of a list of semesters, pooled. *)
Definition pooled_courses (semesters : list Semester) : list Course :=
  flat_map Semester.courses semesters.

(** ** Further properties: conversions *)

(** Some mapping of the template has [m] in its interval. *)
Definition covered (m : Q) (T : GradeTemplate) : Prop :=
  exists mp, In mp (GradeTemplate.mappings T) /\ in_interval m mp.

(** ** Further properties: statistics and charts *)

(** The letter grades of the courses of a list of semesters. *)
Definition grades_of_semesters (semesters : list Semester) : list string :=
  flat_map (fun s => grades_of (Semester.courses s)) semesters.

(** The number a slot shows, a text showing none. *)
Definition count_of (v : slot) : Z :=
  match v with
  | Count n => n
  | Text _ => 0
  end.

(** Σ of the counts of a histogram. *)
Definition count_total (h : histogram) : Z :=
  fold_right (fun kv acc => (count_of (snd kv) + acc)%Z) 0%Z h.

(** Insertion of [x] into a list, after every element [y] that the test
    [skip x y] keeps in front: the shape of the stable sorts above. *)
Fixpoint insert_sorted {A : Type} (skip : A -> A -> bool) (x : A) (l : list A)
  : list A :=
  match l with
  | [] => [x]
  | y :: rest => if skip x y then y :: insert_sorted skip x rest else x :: l
  end.

(** Buckets in non-increasing order of value. *)
Definition value_descending (a b : ChartDataPoint.t) : Prop :=
  (count_of (ChartDataPoint.value b) <= count_of (ChartDataPoint.value a))%Z.

(** Entries in non-increasing order of grade point. *)
Definition gradePoint_descending (a b : string * Q) : Prop := snd b <= snd a.

Definition topValue_descending (a b : TopCoursePoint.t) : Prop :=
  TopCoursePoint.value b <= TopCoursePoint.value a.

(** Semesters in non-decreasing [order]. *)
Definition order_ascending (a b : Semester) : Prop :=
  Semester.order a <= Semester.order b.

(** No two different semesters of the list have the same [order]. *)
Definition orders_distinct (semesters : list Semester) : Prop :=
  forall a b, In a semesters -> In b semesters ->
              Semester.order a == Semester.order b -> a = b.

(** The number of semesters with a [manualGPA] set. *)
Definition manual_semesters (semesters : list Semester) : Z :=
  Z.of_nat (List.length (filter has_manualGPA semesters)).

(** A semester without courses that has a [manualGPA]. *)
Definition manual_only (s : Semester) : bool :=
  match Semester.courses s, Semester.manualGPA s with
  | [], Some _ => true
  | _, _ => false
  end.

(** The number of courses of the list that carry a grade point. *)
Definition graded_count (courses : list Course) : Z :=
  Z.of_nat (List.length (filter has_gradePoint courses)).

(** ** Further properties: validation *)


(** ** Further properties: editing *)

(** The id [addSemester] gives to the semester it adds. *)
Definition new_semester_id (now : string) : string := ("sem-" ++ now)%string.

(** No semester of the session has the id [id]. *)
Definition fresh_id (id : string) (session : Session) : Prop :=
  forall s, In s (Session.semesters session) -> Semester.id s <> id.

(** A grade point between 0 and [scale]. *)
Definition on_scale (scale p : Q) : Prop := 0 <= p <= scale.

(** * Properties *)

(** ** Sums and comparisons *)

Lemma eqb_true_iff (a b : Q) : eqb a b = true <-> a == b.
Proof. apply Qeq_bool_iff. Qed.

Lemma eqb_false_iff (a b : Q) : eqb a b = false <-> ~ a == b.
Proof.
  unfold eqb. split.
  - apply Qeq_bool_neq.
  - intros H. destruct (Qeq_bool a b) eqn:E; [|reflexivity].
    apply Qeq_bool_iff in E. contradiction.
Qed.

Lemma leb_true_iff (a b : Q) : leb a b = true <-> a <= b.
Proof. apply Qle_bool_iff. Qed.

Lemma leb_false_iff (a b : Q) : leb a b = false <-> b < a.
Proof.
  unfold leb. split.
  - intros H. apply Qnot_le_lt. intros L. apply Qle_bool_iff in L. congruence.
  - intros H. destruct (Qle_bool a b) eqn:E; [|reflexivity].
    apply Qle_bool_iff in E. lra.
Qed.

Lemma geb_true_iff (a b : Q) : geb a b = true <-> b <= a.
Proof. apply leb_true_iff. Qed.

Lemma geb_false_iff (a b : Q) : geb a b = false <-> a < b.
Proof. apply leb_false_iff. Qed.

Lemma gtb_true_iff (a b : Q) : gtb a b = true <-> b < a.
Proof. unfold gtb. rewrite negb_true_iff. apply leb_false_iff. Qed.

Lemma gtb_false_iff (a b : Q) : gtb a b = false <-> a <= b.
Proof. unfold gtb. rewrite negb_false_iff. apply leb_true_iff. Qed.

Lemma ltb_true_iff (a b : Q) : ltb a b = true <-> a < b.
Proof. unfold ltb. rewrite negb_true_iff. apply leb_false_iff. Qed.

Lemma ltb_false_iff (a b : Q) : ltb a b = false <-> b <= a.
Proof. unfold ltb. rewrite negb_false_iff. apply leb_true_iff. Qed.

Lemma div_ok (a b : Q) : ~ b == 0 -> div a b = Ok (a / b).
Proof. intros H. unfold div. fold (eqb b 0). now rewrite (proj2 (eqb_false_iff b 0) H). Qed.

Lemma total_app {A : Type} (f : A -> Q) (xs ys : list A) :
  total f (xs ++ ys) == total f xs + total f ys.
Proof. induction xs as [|x xs IH]; simpl; [ring | rewrite IH; ring]. Qed.

Lemma total_nonneg {A : Type} (f : A -> Q) (xs : list A) :
  Forall (fun x => 0 <= f x) xs -> 0 <= total f xs.
Proof. induction 1; simpl; lra. Qed.

Lemma total_pos {A : Type} (f : A -> Q) (xs : list A) :
  Forall (fun x => 0 < f x) xs -> xs <> [] -> 0 < total f xs.
Proof.
  intros H Hne. destruct H as [|x xs Hx Hxs]; [congruence|].
  simpl. assert (0 <= total f xs).
  { apply total_nonneg. eapply Forall_impl; [|exact Hxs]. simpl. intros; lra. }
  lra.
Qed.

(** ** The loop of [calculateGPA] *)

Lemma gpa_step_counted (acc : Q * Q) (c : Course) :
  gpa_step acc c =
  if counted c then (fst acc + weighted c, snd acc + Course.credits c) else acc.
Proof.
  unfold gpa_step, counted, has_gradePoint, weighted, gp_of.
  destruct (Course.gradePoint c) as [g|]; simpl; [|reflexivity].
  now destruct (eqb (Course.credits c) 0).
Qed.

Lemma gpa_fold_counted (cs : list Course) (acc : Q * Q) :
  fst (fold_left gpa_step cs acc) == fst acc + total weighted (filter counted cs) /\
  snd (fold_left gpa_step cs acc) == snd acc + total Course.credits (filter counted cs).
Proof.
  revert acc. induction cs as [|c cs IH]; intros acc; simpl.
  - split; ring.
  - destruct (IH (gpa_step acc c)) as [IHp IHc]. rewrite IHp, IHc. clear IH IHp IHc.
    rewrite gpa_step_counted.
    destruct (counted c); simpl; split; ring.
Qed.

Lemma counted_qualifies (cs : list Course) :
  credits_nonneg cs -> filter counted cs = filter qualifies cs.
Proof.
  induction 1 as [|c cs Hc _ IH]; simpl; [reflexivity|].
  rewrite IH. replace (qualifies c) with (counted c); [reflexivity|].
  unfold counted, qualifies. destruct (has_gradePoint c); simpl; [|reflexivity].
  destruct (eqb (Course.credits c) 0) eqn:E; simpl; symmetry.
  - apply eqb_true_iff in E. apply gtb_false_iff. lra.
  - apply eqb_false_iff in E. apply gtb_true_iff.
    destruct (Qlt_le_dec 0 (Course.credits c)) as [L|L]; [exact L|].
    exfalso. apply E. lra.
Qed.

Lemma qualifies_credits_pos (cs : list Course) :
  Forall (fun c => 0 < Course.credits c) (filter qualifies cs).
Proof.
  apply Forall_forall. intros c Hin. apply filter_In in Hin as [_ Hq].
  unfold qualifies in Hq. apply andb_true_iff in Hq as [_ Hq].
  now apply gtb_true_iff in Hq.
Qed.

Lemma average_or_null_zero (t : Q * Q) :
  snd t == 0 -> average_or_null t = Ok None.
Proof.
  intros H. unfold average_or_null. now rewrite (proj2 (eqb_true_iff _ _) H).
Qed.

Lemma average_or_null_nonzero (t : Q * Q) :
  ~ snd t == 0 -> average_or_null t = Ok (Some (fst t / snd t)).
Proof.
  intros H. unfold average_or_null.
  rewrite (proj2 (eqb_false_iff _ _) H), (div_ok _ _ H). reflexivity.
Qed.

(** [calculateGPA] on any list, in terms of the courses it counts. *)
Lemma calculateGPA_counted (cs : list Course) :
  let q := filter counted cs in
  (total Course.credits q == 0 -> calculateGPA cs = Ok None) /\
  (~ total Course.credits q == 0 ->
   exists v, calculateGPA cs = Ok (Some v) /\
             v == total weighted q / total Course.credits q).
Proof.
  intros q. unfold calculateGPA.
  destruct (gpa_fold_counted cs (0, 0)) as [Hp Hc]. simpl in Hp, Hc. fold q in Hp, Hc.
  split; intros H.
  - apply average_or_null_zero. rewrite Hc, H. ring.
  - rewrite average_or_null_nonzero.
    + eexists; split; [reflexivity|]. rewrite Hp, Hc.
      setoid_replace (0 + total weighted q) with (total weighted q) by ring.
      setoid_replace (0 + total Course.credits q) with (total Course.credits q) by ring.
      reflexivity.
    + rewrite Hc. intros E. apply H. rewrite <- E. ring.
Qed.

(** C5 (amended). For every course list with non-negative credits, as the
    schema requires, [calculateGPA] returns the credit-weighted average of
    [gradePoint] over exactly the courses with a grade point present and
    credits > 0, and [null], not zero, when no course qualifies; in
    particular it returns [null] on every list in which each course has
    credits = 0 or no grade point. *)
Theorem C5_calculateGPA_weighted_average :
  (forall courses : list Course,
      credits_nonneg courses ->
      let q := filter qualifies courses in
      (q = [] -> calculateGPA courses = Ok None) /\
      (q <> [] ->
       exists v, calculateGPA courses = Ok (Some v) /\
                 v == total weighted q / total Course.credits q)) /\
  (forall courses : list Course,
      Forall (fun c => Course.credits c == 0 \/ Course.gradePoint c = None) courses ->
      calculateGPA courses = Ok None).
Proof.
  split.
  - intros courses Hnn q.
    destruct (calculateGPA_counted courses) as [Hz Hnz].
    rewrite (counted_qualifies courses Hnn) in Hz, Hnz. fold q in Hz, Hnz.
    split; intros Hq.
    + apply Hz. rewrite Hq. reflexivity.
    + apply Hnz.
      pose proof (total_pos Course.credits q (qualifies_credits_pos courses) Hq).
      lra.
  - intros courses Hall.
    assert (Hnone : filter counted courses = []).
    { induction Hall as [|c cs Hc _ IH]; simpl; [reflexivity|].
      rewrite IH. unfold counted, has_gradePoint.
      destruct Hc as [Hc|Hc].
      - rewrite (proj2 (eqb_true_iff _ _) Hc). simpl. now rewrite andb_false_r.
      - rewrite Hc. reflexivity. }
    destruct (calculateGPA_counted courses) as [Hz _]. apply Hz.
    rewrite Hnone. reflexivity.
Qed.

(** The scenario of the specification: credits 4, 3, 0 with grade points
    9, 8, 10 give 60/7; a course of no credit and an ungraded course give
    [null]. *)
Lemma C5_witness :
  let courses := [course_of 4 (Some 9); course_of 3 (Some 8); course_of 0 (Some 10)] in
  let idle := [course_of 0 (Some 10); course_of 3 None] in
  credits_nonneg courses /\
  filter qualifies courses <> [] /\
  Forall (fun c => Course.credits c == 0 \/ Course.gradePoint c = None) idle /\
  (exists v, calculateGPA courses = Ok (Some v) /\ v == 60 # 7) /\
  calculateGPA idle = Ok None.
Proof.
  intros courses idle.
  assert (Hnn : credits_nonneg courses).
  { repeat constructor; simpl; lra. }
  assert (Hq : filter qualifies courses <> []) by (vm_compute; discriminate).
  assert (Hidle : Forall (fun c => Course.credits c == 0 \/ Course.gradePoint c = None) idle).
  { constructor; [left; reflexivity|]. constructor; [right; reflexivity | constructor]. }
  split; [exact Hnn|]. split; [exact Hq|]. split; [exact Hidle|]. split.
  - destruct (proj2 (proj1 C5_calculateGPA_weighted_average courses Hnn) Hq)
      as [v [Hv Hval]].
    exists v. split; [exact Hv|]. rewrite Hval. vm_compute. reflexivity.
  - exact (proj2 C5_calculateGPA_weighted_average idle Hidle).
Defined.

(** C5 as stated fails: the loop skips a course when its credits are 0,
    not when they are negative.  Credits -1 and 3 with the grade points
    5 and 7 give 8, where the average over the courses with credits > 0
    is 7; credits -3 and 3 give [null], although a course has a grade
    point and credits > 0. *)
Lemma C5_counterexample :
  let courses := [course_of (-1) (Some 5); course_of 3 (Some 7)] in
  let cancelling := [course_of (-3) (Some 5); course_of 3 (Some 7)] in
  (exists v, calculateGPA courses = Ok (Some v) /\ v == 8) /\
  filter qualifies courses = [course_of 3 (Some 7)] /\
  total weighted (filter qualifies courses)
  / total Course.credits (filter qualifies courses) == 7 /\
  filter qualifies cancelling <> [] /\
  calculateGPA cancelling = Ok None.
Proof.
  intros courses cancelling. split.
  - eexists. split; [vm_compute; reflexivity|]. vm_compute. reflexivity.
  - split; [reflexivity|]. split; [vm_compute; reflexivity|].
    split; [vm_compute; discriminate | vm_compute; reflexivity].
Qed.

(** ** Manual fields of a semester that has courses *)

(** C6. For a semester with a non-empty course list, [getSemesterGPA] and
    [getSemesterCredits] do not depend on [manualGPA] and [manualCredits]:
    two semesters that differ only in the manual fields give identical
    results, which are the course-derived ones (never marked manual). *)
Theorem C6_manual_fields_ignored_with_courses :
  forall (id name : string) (courses : list Course) (order : Q)
         (mg mc mg' mc' : option Q),
    courses <> [] ->
    let s := Semester.mk id name courses order mg mc in
    let s' := Semester.mk id name courses order mg' mc' in
    getSemesterGPA s = getSemesterGPA s' /\
    getSemesterCredits s = getSemesterCredits s' /\
    getSemesterGPA s = (g <- calculateGPA courses ;; Ok (SemesterGPA.mk g false)) /\
    getSemesterCredits s =
      fold_left (fun sum c => sum + or_zero (Course.credits c)) courses 0.
Proof.
  intros id name courses order mg mc mg' mc' Hne s s'.
  unfold getSemesterGPA, getSemesterCredits, s, s'; simpl.
  destruct courses as [|c cs]; [congruence|].
  repeat split; reflexivity.
Qed.

Lemma C6_witness :
  let courses := [course_of 4 (Some 8)] in
  courses <> [] /\
  getSemesterGPA (Semester.mk "s1" "Semester 1" courses 0 (Some 2) (Some 30)) =
  getSemesterGPA (Semester.mk "s1" "Semester 1" courses 0 None None) /\
  getSemesterCredits (Semester.mk "s1" "Semester 1" courses 0 (Some 2) (Some 30)) =
  getSemesterCredits (Semester.mk "s1" "Semester 1" courses 0 None None).
Proof.
  intros courses.
  assert (Hne : courses <> []) by discriminate.
  split; [exact Hne|].
  destruct (C6_manual_fields_ignored_with_courses "s1" "Semester 1" courses 0
              (Some 2) (Some 30) None None Hne) as [H1 [H2 _]].
  split; [exact H1 | exact H2].
Defined.

(** ** Marks to letter to grade point *)

Section RoundTrip.

Variable T : GradeTemplate.

(** No two mappings share a letter, case ignored, and no letter changes
    under [trim]. *)
Hypothesis letters_distinct : NoDup (map upper_letter (GradeTemplate.mappings T)).
Hypothesis letters_trimmed :
  Forall (fun mp => trim (upper_letter mp) = upper_letter mp)
         (GradeTemplate.mappings T).

Lemma find_by_key {A : Type} (f : A -> string) (l : list A) (x : A) :
  NoDup (map f l) -> In x l ->
  find (fun y => String.eqb (f y) (f x)) l = Some x.
Proof.
  induction l as [|y l IH]; intros Hnd Hin; [contradiction|].
  simpl. inversion Hnd as [|? ? Hnotin Hnd']; subst.
  destruct Hin as [->|Hin].
  - now rewrite String.eqb_refl.
  - destruct (String.eqb (f y) (f x)) eqn:E.
    + apply String.eqb_eq in E. exfalso. apply Hnotin. rewrite E.
      now apply in_map.
    + now apply IH.
Qed.

Lemma convertGradeToPoints_of_mapping (mp : GradeMapping) (scale : Q) :
  In mp (GradeTemplate.mappings T) ->
  convertGradeToPoints (GradeMapping.letterGrade mp) scale (Some T) =
  GradeMapping.gradePoint mp.
Proof.
  intros Hin. unfold convertGradeToPoints.
  fold (upper_letter mp).
  rewrite (proj1 (Forall_forall _ _) letters_trimmed mp Hin).
  change (fun m => String.eqb (toUpperCase (GradeMapping.letterGrade m)) (upper_letter mp))
    with (fun m => String.eqb (upper_letter m) (upper_letter mp)).
  now rewrite (find_by_key upper_letter _ mp letters_distinct Hin).
Qed.

Lemma roundtrip_first_bucket (m : Q) (mp : GradeMapping) :
  find (in_bucket m) (GradeTemplate.mappings T) = Some mp ->
  exists g, convertMarksToGrade m T = Ok g /\
            convertGradeToPoints g (GradeTemplate.scale T) (Some T) =
            GradeMapping.gradePoint mp.
Proof.
  intros Hfind. exists (GradeMapping.letterGrade mp). split.
  - unfold convertMarksToGrade. now rewrite Hfind.
  - apply convertGradeToPoints_of_mapping. now apply find_some in Hfind.
Qed.

End RoundTrip.

Lemma in_bucket_iff (m : Q) (mp : GradeMapping) :
  in_bucket m mp = true <-> in_interval m mp.
Proof.
  unfold in_bucket, in_interval.
  rewrite andb_true_iff, geb_true_iff, leb_true_iff. reflexivity.
Qed.

Lemma find_first_bucket (m : Q) (mappings : list GradeMapping) :
  (exists mp0, In mp0 mappings /\ in_interval m mp0) ->
  exists mp, find (in_bucket m) mappings = Some mp /\ first_bucket m mappings mp.
Proof.
  induction mappings as [|x l IH]; intros [mp0 [Hin Hint]]; [contradiction|].
  simpl. destruct (in_bucket m x) eqn:E.
  - exists x. split; [reflexivity|]. exists [], l.
    repeat split; try constructor; now apply in_bucket_iff.
  - destruct Hin as [->|Hin].
    + apply in_bucket_iff in Hint. congruence.
    + destruct IH as [mp [Hf [before [after [Heq [Hi Hb]]]]]]; [now exists mp0|].
      exists mp. split; [exact Hf|]. exists (x :: before), after.
      split; [now rewrite Heq|]. split; [exact Hi|].
      constructor; [|exact Hb]. intros C. apply in_bucket_iff in C. congruence.
Qed.

Lemma first_bucket_unique (m : Q) (mappings : list GradeMapping) (a b : GradeMapping) :
  first_bucket m mappings a -> first_bucket m mappings b -> a = b.
Proof.
  intros [ba [aa [Ha [Hia Hba]]]] [bb [ab [Hb [Hib Hbb]]]].
  rewrite Ha in Hb. clear Ha. revert bb Hb Hbb.
  induction ba as [|x ba IH]; intros bb Hb Hbb.
  - destruct bb as [|y bb]; simpl in Hb.
    + now inversion Hb.
    + inversion Hb; subst. inversion Hbb; subst. contradiction.
  - destruct bb as [|y bb]; simpl in Hb.
    + inversion Hb; subst. inversion Hba; subst. contradiction.
    + injection Hb as -> Hb.
      apply Forall_inv_tail in Hba, Hbb. now apply (IH Hba bb).
Qed.

Lemma builtin_letters_distinct (T : GradeTemplate) :
  In T getBuiltinTemplates -> NoDup (map upper_letter (GradeTemplate.mappings T)).
Proof.
  intros [<-|[<-|[]]]; vm_compute;
    repeat (constructor; [simpl; intuition discriminate|]); constructor.
Qed.

Lemma builtin_letters_trimmed (T : GradeTemplate) :
  In T getBuiltinTemplates ->
  Forall (fun mp => trim (upper_letter mp) = upper_letter mp) (GradeTemplate.mappings T).
Proof.
  intros [<-|[<-|[]]]; repeat constructor.
Qed.

(** C7. For both built-in templates [T] and every marks value [m] lying
    in the interval of some mapping, converting [m] to a letter and the
    letter back to points gives the grade point of the first mapping, in
    declaration order, whose interval contains [m]. *)
Theorem C7_marks_grade_points_round_trip :
  forall (T : GradeTemplate) (m : Q),
    In T getBuiltinTemplates ->
    (exists mp0, In mp0 (GradeTemplate.mappings T) /\ in_interval m mp0) ->
    exists mp g,
      first_bucket m (GradeTemplate.mappings T) mp /\
      convertMarksToGrade m T = Ok g /\
      convertGradeToPoints g (GradeTemplate.scale T) (Some T) =
      GradeMapping.gradePoint mp.
Proof.
  intros T m HT Hex.
  destruct (find_first_bucket m _ Hex) as [mp [Hfind Hfirst]].
  destruct (roundtrip_first_bucket T (builtin_letters_distinct T HT)
              (builtin_letters_trimmed T HT) m mp Hfind) as [g [Hg Hp]].
  exists mp, g. repeat split; assumption.
Qed.

Lemma C7_witness :
  In STANDARD_4_POINT getBuiltinTemplates /\
  (exists mp0, In mp0 (GradeTemplate.mappings STANDARD_4_POINT) /\ in_interval 91 mp0) /\
  exists g, convertMarksToGrade 91 STANDARD_4_POINT = Ok g /\
            convertGradeToPoints g 4 (Some STANDARD_4_POINT) = 4.
Proof.
  assert (HT : In STANDARD_4_POINT getBuiltinTemplates) by (right; left; reflexivity).
  assert (Hex : exists mp0, In mp0 (GradeTemplate.mappings STANDARD_4_POINT)
                            /\ in_interval 91 mp0).
  { exists (GradeMapping.mk 90 92 "A" 4). split.
    - right; left; reflexivity.
    - unfold in_interval; simpl; lra. }
  split; [exact HT|]. split; [exact Hex|].
  destruct (C7_marks_grade_points_round_trip STANDARD_4_POINT 91 HT Hex)
    as [mp [g [Hfirst [Hg Hp]]]].
  exists g. split; [exact Hg|].
  assert (Hmp : first_bucket 91 (GradeTemplate.mappings STANDARD_4_POINT)
                  (GradeMapping.mk 90 92 "A" 4)).
  { exists [GradeMapping.mk 93 100 "A+" 4]. eexists. split; [reflexivity|].
    split; [unfold in_interval; simpl; lra|].
    constructor; [|constructor]. unfold in_interval; simpl; lra. }
  rewrite (first_bucket_unique _ _ _ _ Hfirst Hmp) in Hp. exact Hp.
Defined.

(** ** The loop of [calculateCGPA] *)

Lemma graded_credits_counted (cs : list Course) :
  total Course.credits (filter has_gradePoint cs) ==
  total Course.credits (filter counted cs).
Proof.
  induction cs as [|c cs IH]; simpl; [reflexivity|].
  unfold counted at 1. destruct (has_gradePoint c); simpl; [|exact IH].
  destruct (eqb (Course.credits c) 0) eqn:E; simpl; rewrite IH.
  - apply eqb_true_iff in E. rewrite E. ring.
  - reflexivity.
Qed.

Lemma counted_credits_pos (cs : list Course) :
  credits_nonneg cs -> Forall (fun c => 0 < Course.credits c) (filter counted cs).
Proof.
  intros H. rewrite (counted_qualifies cs H). apply qualifies_credits_pos.
Qed.

Lemma counted_total_zero (cs : list Course) :
  credits_nonneg cs ->
  total Course.credits (filter counted cs) == 0 -> filter counted cs = [].
Proof.
  intros Hnn Hz. destruct (filter counted cs) as [|c q] eqn:E; [reflexivity|].
  exfalso.
  assert (0 < total Course.credits (filter counted cs)).
  { apply total_pos; [now apply counted_credits_pos | rewrite E; discriminate]. }
  rewrite E in H. lra.
Qed.

Lemma cgpa_step_contribution (acc : Q * Q) (s : Semester) :
  credits_nonneg (Semester.courses s) ->
  fst (cgpa_step acc s) == fst acc + fst (contribution s) /\
  snd (cgpa_step acc s) == snd acc + snd (contribution s).
Proof.
  intros Hnn.
  unfold cgpa_step, contribution, cgpa_qualifies, effectiveGPA_value, effectiveGPA,
    getSemesterGPA, gradedCredits.
  destruct (Semester.courses s) as [|c0 cs0] eqn:Ecs.
  - destruct (Semester.manualGPA s) as [g|]; simpl.
    + destruct (Semester.manualCredits s) as [c|]; simpl.
      * destruct (gtb c 0); simpl; split; ring.
      * replace (gtb 0 0) with false by reflexivity. simpl; split; ring.
    + destruct (Semester.manualCredits s); simpl; split; ring.
  - rewrite <- Ecs in *. remember (Semester.courses s) as cs eqn:Hcs. clear Hcs Ecs.
    destruct (gpa_fold_counted cs acc) as [Hp Hc]. rewrite Hp, Hc.
    pose proof (graded_credits_counted cs) as Hg.
    destruct (calculateGPA_counted cs) as [Hz Hnz].
    destruct (Qeq_dec (total Course.credits (filter counted cs)) 0) as [E|E].
    + rewrite (Hz E). simpl.
      rewrite (counted_total_zero cs Hnn E). simpl. split; ring.
    + destruct (Hnz E) as [v [Hv Hval]]. rewrite Hv. simpl.
      assert (Hpos : 0 < total Course.credits (filter counted cs)).
      { pose proof (total_nonneg Course.credits (filter counted cs)) as Hge.
        assert (0 <= total Course.credits (filter counted cs)).
        { apply Hge. eapply Forall_impl; [|apply (counted_credits_pos cs Hnn)].
          simpl. intros; lra. }
        destruct (Qlt_le_dec 0 (total Course.credits (filter counted cs))); [assumption|].
        exfalso. apply E. lra. }
      assert (Hgt : gtb (total Course.credits (filter has_gradePoint cs)) 0 = true).
      { apply gtb_true_iff. rewrite Hg. exact Hpos. }
      rewrite Hgt. simpl. split.
      * rewrite Hval, Hg. field. exact E.
      * rewrite Hg. reflexivity.
Qed.

Lemma cgpa_fold_contribution (semesters : list Semester) (acc : Q * Q) :
  all_credits_nonneg semesters ->
  fst (fold_left cgpa_step semesters acc) ==
    fst acc + total (fun s => fst (contribution s)) semesters /\
  snd (fold_left cgpa_step semesters acc) ==
    snd acc + total (fun s => snd (contribution s)) semesters.
Proof.
  intros H. revert acc. induction H as [|s l Hs _ IH]; intros acc; simpl.
  - split; ring.
  - destruct (IH (cgpa_step acc s)) as [IHp IHc]. rewrite IHp, IHc.
    destruct (cgpa_step_contribution acc s Hs) as [Hp Hc]. rewrite Hp, Hc.
    split; ring.
Qed.

Lemma total_contribution (semesters : list Semester) :
  total (fun s => fst (contribution s)) semesters ==
    total (fun s => effectiveGPA_value s * gradedCredits s)
          (filter cgpa_qualifies semesters) /\
  total (fun s => snd (contribution s)) semesters ==
    total gradedCredits (filter cgpa_qualifies semesters).
Proof.
  induction semesters as [|s l [IHp IHc]]; simpl; [split; reflexivity|].
  unfold contribution at 1 3. destruct (cgpa_qualifies s); simpl; rewrite IHp, IHc;
    split; ring.
Qed.

Lemma cgpa_qualifies_credits_pos (semesters : list Semester) :
  Forall (fun s => 0 < gradedCredits s) (filter cgpa_qualifies semesters).
Proof.
  apply Forall_forall. intros s Hin. apply filter_In in Hin as [_ Hq].
  unfold cgpa_qualifies in Hq. destruct (effectiveGPA s); [|discriminate].
  now apply gtb_true_iff in Hq.
Qed.

(** C1 (amended). For every list of semesters whose course credits are
    non-negative, [calculateCGPA] returns the weighted average
    Σ(effectiveGPA * gradedCredits) / Σ gradedCredits over exactly the
    semesters that have a defined effective GPA and positive graded
    credits, and [null] when no semester qualifies.  The graded credits
    of a semester with courses are the credits of its courses that carry
    a grade point, not the credits of all its courses as
    [getSemesterCredits] counts them. *)
Theorem C1_calculateCGPA_graded_credit_average :
  forall semesters : list Semester,
    all_credits_nonneg semesters ->
    let q := filter cgpa_qualifies semesters in
    (q = [] -> calculateCGPA semesters = Ok None) /\
    (q <> [] ->
     exists v, calculateCGPA semesters = Ok (Some v) /\
               v == total (fun s => effectiveGPA_value s * gradedCredits s) q
                    / total gradedCredits q).
Proof.
  intros semesters Hnn q. unfold calculateCGPA.
  destruct (cgpa_fold_contribution semesters (0, 0) Hnn) as [Hp Hc].
  destruct (total_contribution semesters) as [Tp Tc].
  rewrite Tp in Hp. rewrite Tc in Hc. simpl in Hp, Hc. fold q in Hp, Hc.
  split; intros Hq.
  - apply average_or_null_zero. rewrite Hc, Hq. simpl. ring.
  - pose proof (total_pos gradedCredits q (cgpa_qualifies_credits_pos semesters) Hq)
      as Hpos.
    rewrite average_or_null_nonzero.
    + eexists; split; [reflexivity|]. rewrite Hp, Hc. field. lra.
    + rewrite Hc. lra.
Qed.

(** The scenario of the specification: 8.0 over 20 credits of courses and
    a manual entry of 7.0 over 18 credits give 286/38. *)
Lemma C1_witness :
  let semesters :=
    [ semester_of [course_of 20 (Some 8)] None None;
      semester_of [] (Some 7) (Some 18) ] in
  all_credits_nonneg semesters /\
  filter cgpa_qualifies semesters <> [] /\
  exists v, calculateCGPA semesters = Ok (Some v) /\ v == 286 # 38.
Proof.
  intros semesters.
  assert (Hnn : all_credits_nonneg semesters).
  { repeat constructor; simpl; lra. }
  assert (Hq : filter cgpa_qualifies semesters <> []) by (vm_compute; discriminate).
  split; [exact Hnn|]. split; [exact Hq|].
  destruct (proj2 (C1_calculateCGPA_graded_credit_average semesters Hnn) Hq)
    as [v [Hv Hval]].
  exists v. split; [exact Hv|]. rewrite Hval. vm_compute. reflexivity.
Defined.

(** C1 as stated fails: a semester with a course of 4 credits graded 8
    and an ungraded course of 4 credits, followed by a semester with one
    course of 4 credits graded 6.  The code returns (32 + 24) / 8 = 7;
    the stated formula weighs the first semester by all of its 8 credits
    and gives (64 + 24) / 12 = 22/3. *)
Lemma C1_counterexample :
  let semesters :=
    [ semester_of [course_of 4 (Some 8); course_of 4 None] None None;
      semester_of [course_of 4 (Some 6)] None None ] in
  all_credits_nonneg semesters /\
  exists v w,
    calculateCGPA semesters = Ok (Some v) /\
    claimed_cgpa semesters = Some w /\
    v == 7 /\ w == 22 # 3 /\ ~ v == w.
Proof.
  intros semesters. split.
  - repeat constructor; simpl; lra.
  - eexists. eexists. split; [vm_compute; reflexivity|].
    split; [vm_compute; reflexivity|].
    repeat split; try (vm_compute; reflexivity).
    vm_compute. discriminate.
Qed.

(** ** The cross-semester target solver *)

Lemma average_or_null_total (t : Q * Q) : exists r, average_or_null t = Ok r.
Proof.
  destruct (Qeq_dec (snd t) 0) as [E|E].
  - exists None. now apply average_or_null_zero.
  - eexists. now apply average_or_null_nonzero.
Qed.

Lemma calculateCGPA_total (semesters : list Semester) :
  exists r, calculateCGPA semesters = Ok r.
Proof. apply average_or_null_total. Qed.

Lemma calculateGPA_total (courses : list Course) :
  exists r, calculateGPA courses = Ok r.
Proof. apply average_or_null_total. Qed.

Lemma round_to_2 (x : Q) : round_to x 2 = Ok (round2 x).
Proof. reflexivity. Qed.

Lemma calculateTargetGPA_unfold (session : Session) (targetCGPA creditsRemaining : Q) :
  let r := required_unrounded session targetCGPA creditsRemaining in
  let feasible := leb r (scaleMax session) && geb r 0 in
  calculateTargetGPA session targetCGPA creditsRemaining =
  Ok (TargetCalculation.mk targetCGPA
        (or_zero (round2 (currentCGPA_of session)))
        (creditsCompletedOf (Session.semesters session))
        creditsRemaining
        (or_zero (round2 r))
        feasible
        (target_message feasible r (scaleMax session) (currentCGPA_of session))).
Proof.
  unfold calculateTargetGPA, required_unrounded, closed_form, currentCGPA_of, scaleMax.
  destruct (calculateCGPA_total (Session.semesters session)) as [cg ->]. simpl.
  destruct (gtb creditsRemaining 0) eqn:E.
  - apply gtb_true_iff in E. rewrite div_ok by lra. reflexivity.
  - reflexivity.
Qed.

(** ** The trend of [calculateStatistics] *)

Lemma getSemesterGPA_total (s : Semester) :
  getSemesterGPA s = Ok (SemesterGPA.mk (effectiveGPA s)
                           (match Semester.courses s, Semester.manualGPA s with
                            | [], Some _ => true
                            | _, _ => false
                            end)).
Proof.
  unfold effectiveGPA, getSemesterGPA.
  destruct (Semester.courses s) as [|c cs].
  - now destruct (Semester.manualGPA s).
  - destruct (calculateGPA_total (c :: cs)) as [r ->]. reflexivity.
Qed.

Lemma stats_loop_gpas (semesters : list Semester) (st : StatsLoop.t) :
  exists st',
    foldM stats_step semesters st = Ok st' /\
    StatsLoop.semesterGPAs st' = StatsLoop.semesterGPAs st ++ gpas_in_list_order semesters.
Proof.
  revert st. induction semesters as [|s l IH]; intros st; simpl.
  - exists st. now rewrite app_nil_r.
  - unfold stats_step at 1. rewrite getSemesterGPA_total. simpl.
    destruct (effectiveGPA s) as [g|]; simpl;
      match goal with |- context [foldM stats_step l ?st0] =>
        destruct (IH st0) as [st' [Hf Hg]] end;
      exists st'; simpl in *; rewrite Hf, Hg; [rewrite <- app_assoc|]; now split.
Qed.

Lemma last3_cases {A : Type} (xs : list A) :
  (2 <= List.length xs)%nat ->
  (exists a b, last3 xs = [a; b]) \/ (exists a b c, last3 xs = [a; b; c]).
Proof.
  intros H. unfold last3.
  assert (Hlen : List.length (skipn (List.length xs - 3) xs) = 2%nat \/
                 List.length (skipn (List.length xs - 3) xs) = 3%nat).
  { rewrite length_skipn. lia. }
  destruct (skipn (List.length xs - 3) xs) as [|a [|b [|c [|d r]]]];
    simpl in Hlen; try lia.
  - left. now exists a, b.
  - right. now exists a, b, c.
Qed.

Lemma trend_of_total (gpas : list Q) : exists t, trend_of gpas = Ok t.
Proof.
  unfold trend_of. destruct (2 <=? List.length gpas)%nat eqn:E; [|now exists unknown].
  apply Nat.leb_le in E.
  destruct (last3_cases gpas E) as [[a [b ->]]|[a [b [c ->]]]]; simpl;
    unfold div; simpl;
    match goal with |- context [if ?x then _ else _] => destruct x end;
    try match goal with |- context [if ?x then _ else _] => destruct x end;
    eexists; reflexivity.
Qed.

Lemma roundForDisplay_total (v : option Q) : exists r, roundForDisplay v = Ok r.
Proof. destruct v; simpl; eexists; reflexivity. Qed.

(** [calculateStatistics] always returns, and its trend is the trend of
    the effective GPAs taken in the order of the list. *)
Lemma calculateStatistics_trend (session : Session) :
  exists st t,
    calculateStatistics session = Ok st /\
    trend_of (gpas_in_list_order (Session.semesters session)) = Ok t /\
    Statistics.trendDirection st = t.
Proof.
  unfold calculateStatistics.
  destruct (stats_loop_gpas (Session.semesters session) (StatsLoop.mk 0 0 [] [] 0))
    as [st' [Hf Hg]].
  rewrite Hf. simpl in Hg. simpl. rewrite Hg.
  destruct (trend_of_total (gpas_in_list_order (Session.semesters session))) as [t Ht].
  assert (Havg : exists a,
    (if (0 <? StatsLoop.semestersWithData st')%Z
     then div (StatsLoop.totalCredits st') (inject_Z (StatsLoop.semestersWithData st'))
     else Ok 0) = Ok a).
  { destruct (0 <? StatsLoop.semestersWithData st')%Z eqn:E; [|now exists 0].
    apply Z.ltb_lt in E. eexists. apply div_ok.
    unfold Qeq; simpl. lia. }
  destruct Havg as [a ->]. simpl. rewrite Ht. simpl.
  destruct (roundForDisplay_total (Math_max (gpas_in_list_order (Session.semesters session))))
    as [hi ->].
  destruct (roundForDisplay_total (Math_min (gpas_in_list_order (Session.semesters session))))
    as [lo ->].
  simpl. eexists. exists t. repeat split.
Qed.

(** C3 (the code departs from it).  Two semesters, a GPA of 6 with
    [order] 1 and a GPA of 8 with [order] 2: listed in that order the
    trend is improving, listed the other way round, with the same
    [order] fields, it is declining.  The trend follows list position,
    not the [order] field. *)
Theorem C3_trend_follows_list_position :
  let early := manual_semester 1 6 in
  let late := manual_semester 2 8 in
  Permutation [early; late] [late; early] /\
  (exists st, calculateStatistics (Session.mk [early; late] 10) = Ok st /\
              Statistics.trendDirection st = improving) /\
  (exists st, calculateStatistics (Session.mk [late; early] 10) = Ok st /\
              Statistics.trendDirection st = declining).
Proof.
  intros early late. split; [apply perm_swap|].
  split; eexists; (split; [vm_compute; reflexivity | reflexivity]).
Qed.

(** ** The intra-semester target solver *)

Lemma mapM_ok {A B : Type} (f : A -> res B) (g : A -> B) (xs : list A) :
  (forall x, f x = Ok (g x)) -> mapM f xs = Ok (map g xs).
Proof.
  intros H. induction xs as [|x xs IH]; simpl; [reflexivity|].
  now rewrite H, IH.
Qed.

Lemma avgGPANeededOf_ok (semester : Semester) (targetGPA : Q) :
  avgGPANeededOf semester targetGPA = Ok (avgGPANeeded_value semester targetGPA).
Proof.
  unfold avgGPANeededOf, avgGPANeeded_value, remainingCreditsOf, pointsNeededOf,
    graded, ungraded.
  destruct (gtb _ 0) eqn:E; [|reflexivity].
  apply gtb_true_iff in E. apply div_ok. lra.
Qed.

Lemma recommend_ok (requiredGP scale : Q) (course : Course) :
  recommend requiredGP scale course = Ok (recommendation_for requiredGP scale course).
Proof.
  unfold recommend, recommendation_for, needed_for.
  destruct (eqb scale 10); simpl; [|reflexivity].
  destruct (gtb requiredGP 10); reflexivity.
Qed.

Lemma calculateIntraSemesterTarget_ungraded
    (semester : Semester) (targetGPA scale : Q) :
  ungraded semester <> [] ->
  let r := avgGPANeeded_value semester targetGPA in
  let feasible := leb r scale && geb r 0 in
  exists currentGPA,
    calculateGPA (graded semester) = Ok currentGPA /\
    calculateIntraSemesterTarget semester targetGPA scale =
    Ok (IntraSemesterTarget.mk currentGPA targetGPA (graded semester)
          (ungraded semester)
          (map (recommendation_for r scale) (ungraded semester))
          feasible (intra_message feasible r scale)).
Proof.
  intros Hne r feasible.
  destruct (calculateGPA_total (graded semester)) as [g Hg].
  exists g. split; [exact Hg|].
  unfold calculateIntraSemesterTarget. fold (graded semester) (ungraded semester).
  rewrite Hg. simpl.
  destruct (ungraded semester) as [|c cs] eqn:E; [congruence|].
  rewrite avgGPANeededOf_ok. simpl. fold r.
  change (y <- recommend r scale c;; ys <- mapM (recommend r scale) cs;; Ok (y :: ys))
    with (mapM (recommend r scale) (c :: cs)).
  rewrite (mapM_ok _ _ _ (recommend_ok r scale)). reflexivity.
Qed.

Lemma calculateIntraSemesterTarget_total
    (semester : Semester) (targetGPA scale : Q) :
  exists out, calculateIntraSemesterTarget semester targetGPA scale = Ok out.
Proof.
  destruct (ungraded semester) as [|c cs] eqn:E.
  - unfold calculateIntraSemesterTarget. fold (graded semester) (ungraded semester).
    destruct (calculateGPA_total (graded semester)) as [g ->]. rewrite E. simpl.
    eexists; reflexivity.
  - destruct (calculateIntraSemesterTarget_ungraded semester targetGPA scale)
      as [g [_ H]]; [rewrite E; discriminate|].
    eexists; exact H.
Qed.

(** *** The loop over the mappings *)

(** The loop returns its initial pair when no mapping passes the test,
    and otherwise the pair of the last mapping that passes. *)
Lemma scan_mappings_last (requiredGP : Q) (ms : list GradeMapping) (init : Q * string) :
  (Forall (fun m => passes requiredGP m = false) ms /\
   scan_mappings requiredGP ms init = init) \/
  (exists before m after,
      ms = before ++ m :: after /\
      passes requiredGP m = true /\
      Forall (fun m' => passes requiredGP m' = false) after /\
      scan_mappings requiredGP ms init =
        (GradeMapping.minMarks m, GradeMapping.letterGrade m)).
Proof.
  revert init. induction ms as [|x l IH]; intros init.
  - left. split; [constructor | reflexivity].
  - unfold scan_mappings. simpl. fold (passes requiredGP x).
    match goal with |- context [fold_left ?f l ?i] =>
      change (fold_left f l i) with (scan_mappings requiredGP l i);
      destruct (IH i) as [[Hall Hs]|[before [m [after [Heq [Hp [Ha Hs]]]]]]]
    end.
    + destruct (passes requiredGP x) eqn:Ex.
      * right. exists [], x, l. repeat split; auto.
      * left. split; [now constructor | exact Hs].
    + right. exists (x :: before), m, after. repeat split; auto.
      now rewrite Heq.
Qed.

Lemma ForallOrdPairs_split {A : Type} (R : A -> A -> Prop) (before after : list A) (m : A) :
  ForallOrdPairs R (before ++ m :: after) -> Forall (fun a => R a m) before.
Proof.
  induction before as [|x l IH]; intros H; [constructor|].
  simpl in H. inversion H as [|? ? Hx Hl]; subst. constructor.
  - apply (proj1 (Forall_forall _ _) Hx). apply in_or_app. right. now left.
  - now apply IH.
Qed.

(** On a descending table, the last mapping that passes has the least
    [minMarks] of those that pass. *)
Lemma last_passing_is_minimum (requiredGP : Q) (before after : list GradeMapping)
    (m m' : GradeMapping) :
  minMarks_descending (before ++ m :: after) ->
  Forall (fun x => passes requiredGP x = false) after ->
  In m' (before ++ m :: after) -> passes requiredGP m' = true ->
  GradeMapping.minMarks m <= GradeMapping.minMarks m'.
Proof.
  intros Hd Ha Hin Hp. apply in_app_or in Hin as [Hin|[<-|Hin]].
  - apply (proj1 (Forall_forall _ _) (ForallOrdPairs_split _ _ _ _ Hd) m' Hin).
  - lra.
  - apply (proj1 (Forall_forall _ _) Ha) in Hin. congruence.
Qed.

Lemma BIT_minMarks_descending :
  minMarks_descending (GradeTemplate.mappings BIT_MESRA_10_POINT).
Proof.
  unfold minMarks_descending. simpl.
  repeat (constructor; [repeat (constructor; [simpl; lra|]); constructor|]).
  constructor.
Qed.

Lemma BIT_minMarks_integer (m : GradeMapping) :
  In m (GradeTemplate.mappings BIT_MESRA_10_POINT) ->
  Math_round (GradeMapping.minMarks m) = GradeMapping.minMarks m /\
  GradeMapping.minMarks m <= 91.
Proof.
  simpl. intros H.
  repeat (destruct H as [<-|H]; [split; [reflexivity | simpl; lra]|]).
  contradiction.
Qed.

Lemma top_mapping_is_first :
  hd_error (GradeTemplate.mappings BIT_MESRA_10_POINT) = Some top_mapping.
Proof. reflexivity. Qed.

Lemma passes_iff (r : Q) (m : GradeMapping) :
  passes r m = true <-> r <= GradeMapping.gradePoint m.
Proof. apply geb_true_iff. Qed.

(** What the callback leaves in [(marksNeeded, gradeNeeded)], case by case. *)
Lemma needed_for_cases (r scale : Q) :
  (~ scale == 10 /\ needed_for r scale = (0, "N/A"%string)) \/
  (scale == 10 /\ GradeMapping.gradePoint top_mapping < r /\
   needed_for r scale = (100, (GradeMapping.letterGrade top_mapping ++ "+")%string)) \/
  (scale == 10 /\ r <= GradeMapping.gradePoint top_mapping /\
   exists m, minimum_marks_mapping r m /\
             needed_for r scale = (GradeMapping.minMarks m, GradeMapping.letterGrade m)).
Proof.
  unfold needed_for. destruct (eqb scale 10) eqn:Es.
  - apply eqb_true_iff in Es. right.
    destruct (gtb r 10) eqn:Er.
    + left. apply gtb_true_iff in Er. repeat split; auto.
    + right. apply gtb_false_iff in Er. repeat split; auto.
      destruct (scan_mappings_last r (GradeTemplate.mappings BIT_MESRA_10_POINT)
                  (0, "N/A"%string))
        as [[Hall _]|[before [m [after [Heq [Hp [Ha Hs]]]]]]].
      * exfalso. apply Forall_inv in Hall. apply geb_false_iff in Hall.
        simpl in Hall. lra.
      * exists m. split; [|exact Hs]. repeat split.
        -- rewrite Heq. apply in_or_app. right. now left.
        -- now apply passes_iff.
        -- intros m' Hin Hm'. apply (last_passing_is_minimum r before after m m').
           ++ rewrite <- Heq. apply BIT_minMarks_descending.
           ++ exact Ha.
           ++ now rewrite <- Heq.
           ++ now apply passes_iff.
  - apply eqb_false_iff in Es. left. now split.
Qed.

Lemma Forall2_map_self {A B : Type} (P : A -> B -> Prop) (f : A -> B) (l : list A) :
  (forall x, In x l -> P x (f x)) -> Forall2 P l (map f l).
Proof.
  induction l as [|x l IH]; intros H; simpl; constructor.
  - apply H. now left.
  - apply IH. intros y Hy. apply H. now right.
Qed.

(** C10. For every semester, target GPA and scale,
    [calculateIntraSemesterTarget] returns, and every recommendation it
    returns has [feasible = true]: [marksNeeded] is the [minMarks] of a
    mapping of the template, the cap 100, or 0 when no template applies,
    hence at most 100. *)
Theorem C10_recommendations_always_feasible :
  forall (semester : Semester) (targetGPA scale : Q),
    exists out,
      calculateIntraSemesterTarget semester targetGPA scale = Ok out /\
      Forall
        (fun rec =>
           CourseRecommendation.feasible rec = true /\
           CourseRecommendation.marksNeeded rec <= 100 /\
           (CourseRecommendation.marksNeeded rec = 0 \/
            CourseRecommendation.marksNeeded rec = 100 \/
            exists m, In m (GradeTemplate.mappings BIT_MESRA_10_POINT) /\
                      CourseRecommendation.marksNeeded rec = GradeMapping.minMarks m))
        (IntraSemesterTarget.recommendations out).
Proof.
  intros semester targetGPA scale.
  destruct (ungraded semester) as [|c cs] eqn:E.
  - unfold calculateIntraSemesterTarget. fold (graded semester) (ungraded semester).
    destruct (calculateGPA_total (graded semester)) as [g ->]. rewrite E. simpl.
    eexists. split; [reflexivity|]. constructor.
  - destruct (calculateIntraSemesterTarget_ungraded semester targetGPA scale)
      as [g [_ Hout]]; [rewrite E; discriminate|].
    eexists. split; [exact Hout|]. simpl.
    apply Forall_forall. intros rec Hin. apply in_map_iff in Hin as [course [<- _]].
    unfold recommendation_for; simpl.
    destruct (needed_for_cases (avgGPANeeded_value semester targetGPA) scale)
      as [[_ Hn]|[[_ [_ Hn]]|[_ [_ [m [[Hm _] Hn]]]]]]; rewrite Hn; simpl.
    + split; [reflexivity|]. split; [vm_compute; discriminate|]. now left.
    + split; [reflexivity|]. split; [vm_compute; discriminate|]. right. now left.
    + destruct (BIT_minMarks_integer m Hm) as [Hround Hle]. rewrite Hround.
      split; [apply leb_true_iff; lra|]. split; [lra|]. right. right. now exists m.
Qed.

(** ** The target solvers on binary64 *)

Section OnBinary64.

Import F64.
Local Open Scope float_scope.

Lemma F64_recommend_ok (requiredGP scale : float) (course : Course) :
  recommend requiredGP scale course = Ok (recommendation_for requiredGP scale course).
Proof.
  unfold recommend, recommendation_for, needed_for.
  destruct (scale =? 10); simpl; [|reflexivity].
  destruct (gtb requiredGP 10); reflexivity.
Qed.

Lemma F64_calculateIntraSemesterTarget_ungraded
    (semester : Semester) (targetGPA scale : float) :
  ungraded semester <> [] ->
  let r := avgGPANeededOf semester targetGPA in
  let feasible := (r <=? scale) && geb r 0 in
  calculateIntraSemesterTarget semester targetGPA scale =
  Ok (IntraSemesterTarget.mk (calculateGPA (graded semester)) targetGPA
        (graded semester) (ungraded semester)
        (map (recommendation_for r scale) (ungraded semester))
        feasible (intra_message feasible r scale)).
Proof.
  intros Hne r feasible.
  unfold calculateIntraSemesterTarget. fold (graded semester) (ungraded semester).
  destruct (ungraded semester) as [|c cs] eqn:E; [congruence|].
  fold r.
  rewrite (mapM_ok _ _ _ (F64_recommend_ok r scale)). reflexivity.
Qed.

(** *** The loop over the mappings *)

Lemma F64_scan_mappings_last (requiredGP : float) (ms : list GradeMapping)
    (init : float * string) :
  (Forall (fun m => passes requiredGP m = false) ms /\
   scan_mappings requiredGP ms init = init) \/
  (exists before m after,
      ms = before ++ m :: after /\
      passes requiredGP m = true /\
      Forall (fun m' => passes requiredGP m' = false) after /\
      scan_mappings requiredGP ms init =
        (GradeMapping.minMarks m, GradeMapping.letterGrade m)).
Proof.
  revert init. induction ms as [|x l IH]; intros init.
  - left. split; [constructor | reflexivity].
  - unfold scan_mappings. simpl. fold (passes requiredGP x).
    match goal with |- context [fold_left ?f l ?i] =>
      change (fold_left f l i) with (scan_mappings requiredGP l i);
      destruct (IH i) as [[Hall Hs]|[before [m [after [Heq [Hp [Ha Hs]]]]]]]
    end.
    + destruct (passes requiredGP x) eqn:Ex.
      * right. exists [], x, l. repeat split; auto.
      * left. split; [now constructor | exact Hs].
    + right. exists (x :: before), m, after. repeat split; auto.
      now rewrite Heq.
Qed.

Lemma F64_BIT_minMarks_descending :
  minMarks_descending (GradeTemplate.mappings BIT_MESRA_10_POINT).
Proof.
  unfold minMarks_descending. simpl.
  repeat (constructor; [repeat (constructor; [reflexivity|]); constructor|]).
  constructor.
Qed.

(** The [minMarks] of the table are whole numbers up to 91. *)
Lemma F64_BIT_minMarks (m : GradeMapping) :
  In m (GradeTemplate.mappings BIT_MESRA_10_POINT) ->
  Math_round (GradeMapping.minMarks m) = GradeMapping.minMarks m /\
  (GradeMapping.minMarks m <=? 100) = true /\
  (GradeMapping.minMarks m <=? GradeMapping.minMarks m) = true.
Proof.
  simpl. intros H.
  repeat (destruct H as [<-|H]; [repeat split; vm_compute; reflexivity|]).
  contradiction.
Qed.

(** On a descending table, the last mapping that passes has the least
    [minMarks] of those that pass. *)
Lemma F64_last_passing_is_minimum (requiredGP : float)
    (before after : list GradeMapping) (m m' : GradeMapping) :
  minMarks_descending (before ++ m :: after) ->
  (GradeMapping.minMarks m <=? GradeMapping.minMarks m) = true ->
  Forall (fun x => passes requiredGP x = false) after ->
  In m' (before ++ m :: after) -> passes requiredGP m' = true ->
  (GradeMapping.minMarks m <=? GradeMapping.minMarks m') = true.
Proof.
  intros Hd Hm Ha Hin Hp. apply in_app_or in Hin as [Hin|[<-|Hin]].
  - apply (proj1 (Forall_forall _ _) (ForallOrdPairs_split _ _ _ _ Hd) m' Hin).
  - exact Hm.
  - apply (proj1 (Forall_forall _ _) Ha) in Hin. congruence.
Qed.

(** What the callback leaves in [(marksNeeded, gradeNeeded)] on the
    10-point scale, case by case. *)
Lemma F64_needed_for_cases (r scale : float) :
  (scale =? 10) = true ->
  (gtb r (GradeMapping.gradePoint top_mapping) = true /\
   needed_for r scale = (100, "A+/O+"%string)) \/
  (gtb r (GradeMapping.gradePoint top_mapping) = false /\
   (forall m, In m (GradeTemplate.mappings BIT_MESRA_10_POINT) -> passes r m = false) /\
   needed_for r scale = (0, "N/A"%string)) \/
  (gtb r (GradeMapping.gradePoint top_mapping) = false /\
   exists m, minimum_marks_mapping r m /\
             needed_for r scale = (GradeMapping.minMarks m, GradeMapping.letterGrade m)).
Proof.
  intros Hs. unfold needed_for. rewrite Hs.
  destruct (gtb r (GradeMapping.gradePoint top_mapping)) eqn:Er.
  - left. split; reflexivity.
  - right.
    destruct (F64_scan_mappings_last r (GradeTemplate.mappings BIT_MESRA_10_POINT)
                (0, "N/A"%string))
      as [[Hall Hscan]|[before [m [after [Heq [Hp [Ha Hscan]]]]]]].
    + left. split; [reflexivity|]. split; [|exact Hscan].
      intros m Hm. exact (proj1 (Forall_forall _ _) Hall m Hm).
    + right. split; [reflexivity|]. exists m. split; [|exact Hscan].
      assert (Hin : In m (GradeTemplate.mappings BIT_MESRA_10_POINT)).
      { rewrite Heq. apply in_or_app. right. now left. }
      split; [exact Hin|]. split; [exact Hp|].
      intros m' Hin' Hp'. apply (F64_last_passing_is_minimum r before after m m').
      * rewrite <- Heq. apply F64_BIT_minMarks_descending.
      * apply (F64_BIT_minMarks m Hin).
      * exact Ha.
      * now rewrite <- Heq.
      * exact Hp'.
Qed.

Lemma F64_recommendation_follows (r scale : float) (course : Course) :
  (scale =? 10) = true ->
  follows_minimum_marks r course (recommendation_for r scale course).
Proof.
  intros Hs. unfold follows_minimum_marks, recommendation_for.
  destruct (F64_needed_for_cases r scale Hs)
    as [[Hgt Hn]|[[Hgt [Hnone Hn]]|[Hgt [m [Hm Hn]]]]]; rewrite Hn; simpl fst; simpl snd;
    cbn [CourseRecommendation.courseName CourseRecommendation.currentMarks
         CourseRecommendation.marksNeeded CourseRecommendation.gradeNeeded
         CourseRecommendation.feasible].
  - split; [reflexivity|]. split; [reflexivity|]. split; [|split; [|split]].
    + intros _. split; vm_compute; reflexivity.
    + intros C. congruence.
    + intros C. congruence.
    + vm_compute; reflexivity.
  - split; [reflexivity|]. split; [reflexivity|]. split; [|split; [|split]].
    + intros C. congruence.
    + intros _ [m [Hin Hp]]. rewrite (Hnone m Hin) in Hp. discriminate Hp.
    + intros _ _. split; vm_compute; reflexivity.
    + vm_compute; reflexivity.
  - destruct (F64_BIT_minMarks m (proj1 Hm)) as [Hround [Hle _]]. rewrite Hround.
    split; [reflexivity|]. split; [reflexivity|]. split; [|split; [|split]].
    + intros C. congruence.
    + intros _ _. exists m. split; [exact Hm|]. split; reflexivity.
    + intros _ Hnone. destruct Hm as [Hin [Hp _]]. rewrite (Hnone m Hin) in Hp.
      discriminate Hp.
    + now rewrite Hle.
Qed.

Lemma F64_no_recommendation (r scale : float) (course : Course) :
  (scale =? 10) = false ->
  no_recommendation course (recommendation_for r scale course).
Proof.
  intros Hs. unfold no_recommendation, recommendation_for, needed_for. rewrite Hs.
  vm_compute. reflexivity.
Qed.

Lemma F64_sum_credits_zero (courses : list Course) :
  Forall (fun c => Course.credits c = 0) courses -> sum_credits courses = 0.
Proof.
  unfold sum_credits. induction 1 as [|c cs Hc _ IH]; simpl; [reflexivity|].
  rewrite Hc. exact IH.
Qed.

(** *** The cross-semester solver *)

(** C2 (amended).  For every session, target and remaining credits > 0,
    the [requiredGPA] that [calculateTargetGPA] returns is the closed
    form, evaluated in binary64 in the order written, then rounded to two
    decimals by [roundForDisplay] (and 0 when that is zero or not a
    number); [feasible] says that the closed form itself, before the
    rounding, lies between 0 and the scale maximum.  With a current CGPA
    of 7.5 over 60 credits, a target of 8.0 and 20 remaining credits on
    the 10-point scale, it returns 9.5, feasible, with the
    very-challenging message. *)
Theorem C2_calculateTargetGPA_rounded_closed_form :
  (forall (session : Session) (targetCGPA remainingCredits : float),
      (0 <? remainingCredits) = true ->
      let x := closed_form session targetCGPA remainingCredits in
      let out := calculateTargetGPA session targetCGPA remainingCredits in
      TargetCalculation.requiredGPA out = or_zero (round2 x) /\
      TargetCalculation.feasible out = (0 <=? x) && (x <=? scaleMax session)) /\
  (currentCGPA_of session_75_60 = 7.5 /\
   creditsCompletedOf (Session.semesters session_75_60) = 60 /\
   let out := calculateTargetGPA session_75_60 8 20 in
   TargetCalculation.requiredGPA out = 9.5 /\
   TargetCalculation.feasible out = true /\
   TargetCalculation.message out = VeryChallenging 9.5 /\
   (scaleMax session_75_60 * 0.9 <=? 9.5) = true).
Proof.
  split.
  - intros session targetCGPA remainingCredits Hpos x out.
    unfold out, x, calculateTargetGPA, closed_form, currentCGPA_of, scaleMax, round2, gtb.
    rewrite Hpos. cbn [TargetCalculation.requiredGPA TargetCalculation.feasible].
    split; [reflexivity|]. unfold geb. apply andb_comm.
  - repeat split; vm_compute; reflexivity.
Qed.

Lemma C2_witness :
  (0 <? 20) = true /\
  TargetCalculation.requiredGPA (calculateTargetGPA session_75_60 8 20) = 9.5 /\
  TargetCalculation.feasible (calculateTargetGPA session_75_60 8 20) = true.
Proof.
  assert (Hpos : (0 <? 20) = true) by reflexivity.
  split; [exact Hpos|].
  destruct (proj1 C2_calculateTargetGPA_rounded_closed_form session_75_60 8 20 Hpos)
    as [Hreq Hfeas].
  split.
  - rewrite Hreq. vm_compute. reflexivity.
  - rewrite Hfeas. vm_compute. reflexivity.
Defined.

(** C2 as stated fails.  With 1 completed credit at a CGPA of 8, a target
    of 8.5 and 3 remaining credits, the closed form is 8.666666666666666
    and the returned [requiredGPA] is 8.67.  With nothing completed, a
    target of 10.004 and 1 remaining credit on the 10-point scale, the
    returned [requiredGPA] is 10, which lies between 0 and the scale
    maximum, and [feasible] is false. *)
Lemma C2_counterexample :
  let session := Session.mk [semester_of [] (Some 8) (Some 1)] 10 in
  let out := calculateTargetGPA session 8.5 3 in
  let out' := calculateTargetGPA (Session.mk [] 10) 10.004 1 in
  ((0 <? 3) = true /\
   closed_form session 8.5 3 = 8.666666666666666 /\
   TargetCalculation.requiredGPA out = 8.67 /\
   (TargetCalculation.requiredGPA out =? closed_form session 8.5 3) = false) /\
  ((0 <? 1) = true /\
   TargetCalculation.requiredGPA out' = 10 /\
   (0 <=? TargetCalculation.requiredGPA out')
   && (TargetCalculation.requiredGPA out' <=? scaleMax (Session.mk [] 10)) = true /\
   TargetCalculation.feasible out' = false).
Proof.
  intros session out out'. repeat split; vm_compute; reflexivity.
Qed.

(** *** The intra-semester solver *)

(** C4 (amended).  For every semester with at least one ungraded course
    and every target GPA, [calculateIntraSemesterTarget] returns one
    recommendation per ungraded course, in order, each with the name and
    the marks of its course.  Let r be the average the solver works with:
    (targetGPA * totalCredits - currentPoints) / remainingCredits,
    evaluated in binary64 in the order written, when remainingCredits >
    0, and 0 otherwise.  Called with scale 10: when r exceeds the grade
    point of the top mapping, [marksNeeded] is 100 and [gradeNeeded] the
    top letter followed by "+"; otherwise they are the [minMarks] and
    the letter of the mapping of the 10-point template with the least
    [minMarks] among those whose grade point is at least r (and 0 and
    "N/A" when there is none, r not being a number); [feasible] is
    [marksNeeded <= 100].  Called with any other scale, every
    recommendation is 0 marks, "N/A", feasible. *)
Theorem C4_recommendation_is_minimum_marks_mapping :
  forall (semester : Semester) (targetGPA scale : float),
    ungraded semester <> [] ->
    let r := avgGPANeededOf semester targetGPA in
    (gtb (remainingCreditsOf semester) 0 = true ->
     r = requiredAvgGP semester targetGPA) /\
    (gtb (remainingCreditsOf semester) 0 = false -> r = 0) /\
    exists out,
      calculateIntraSemesterTarget semester targetGPA scale = Ok out /\
      ((scale =? 10) = true ->
       Forall2 (follows_minimum_marks r) (ungraded semester)
               (IntraSemesterTarget.recommendations out)) /\
      ((scale =? 10) = false ->
       Forall2 no_recommendation (ungraded semester)
               (IntraSemesterTarget.recommendations out)).
Proof.
  intros semester targetGPA scale Hne r.
  split; [|split].
  - intros Hpos. unfold r, avgGPANeededOf, requiredAvgGP, remainingCreditsOf,
      totalCreditsOf, currentPointsOf, graded, ungraded in *.
    now rewrite Hpos.
  - intros Hzero. unfold r, avgGPANeededOf, remainingCreditsOf, ungraded in *.
    now rewrite Hzero.
  - eexists. split; [apply (F64_calculateIntraSemesterTarget_ungraded _ _ _ Hne)|].
    cbn [IntraSemesterTarget.recommendations]. fold r. split; intros Hs.
    + apply Forall2_map_self. intros course _. now apply F64_recommendation_follows.
    + apply Forall2_map_self. intros course _. now apply F64_no_recommendation.
Qed.

(** A course graded 8 and an ungraded course, 4 credits each, with a
    target of 9 on the 10-point scale: the required average is 10 and the
    recommendation is 91 marks, the grade A+/O. *)
Lemma C4_witness :
  let semester := semester_of [course_of 4 (Some 8); course_of 4 None] None None in
  ungraded semester <> [] /\
  gtb (remainingCreditsOf semester) 0 = true /\
  (10 =? 10) = true /\
  avgGPANeededOf semester 9 = 10 /\
  exists out rec,
    calculateIntraSemesterTarget semester 9 10 = Ok out /\
    IntraSemesterTarget.recommendations out = [rec] /\
    follows_minimum_marks (avgGPANeededOf semester 9) (course_of 4 None) rec /\
    CourseRecommendation.marksNeeded rec = 91 /\
    CourseRecommendation.gradeNeeded rec = "A+/O"%string.
Proof.
  intros semester.
  assert (Hne : ungraded semester <> []) by (vm_compute; discriminate).
  assert (Hpos : gtb (remainingCreditsOf semester) 0 = true) by reflexivity.
  assert (Hs : (10 =? 10) = true) by reflexivity.
  split; [exact Hne|]. split; [exact Hpos|]. split; [exact Hs|].
  destruct (C4_recommendation_is_minimum_marks_mapping semester 9 10 Hne)
    as [Hr [_ [out [Hout [Hall _]]]]].
  split; [rewrite (Hr Hpos); vm_compute; reflexivity|].
  specialize (Hall Hs).
  assert (Hrun : exists o, calculateIntraSemesterTarget semester 9 10 = Ok o /\
                           exists rec, IntraSemesterTarget.recommendations o = [rec] /\
                             CourseRecommendation.marksNeeded rec = 91 /\
                             CourseRecommendation.gradeNeeded rec = "A+/O"%string).
  { eexists. split; [vm_compute; reflexivity|]. eexists. split; [reflexivity|].
    split; reflexivity. }
  destruct Hrun as [o [Ho [rec [Hrec [Hm Hg]]]]].
  rewrite Hout in Ho. injection Ho as <-.
  exists out, rec. split; [exact Hout|]. split; [exact Hrec|].
  rewrite Hrec in Hall. change (ungraded semester) with [course_of 4 None] in Hall.
  apply Forall2_cons_iff in Hall as [Hfirst _].
  split; [exact Hfirst|]. split; assumption.
Defined.

(** C4 as stated fails.  Called with scale 4 on a semester of one
    ungraded course of 3 credits and a target of 3, the solver works with
    the average 3, which no top grade point is below, and returns 0 marks
    and the grade "N/A", which is the letter of no mapping of either
    built-in template. *)
Lemma C4_counterexample :
  let semester := semester_of [course_of 3 None] None None in
  ungraded semester <> [] /\
  requiredAvgGP semester 3 = 3 /\
  gtb 3 (GradeMapping.gradePoint top_mapping) = false /\
  calculateIntraSemesterTarget semester 3 4 =
    Ok (IntraSemesterTarget.mk None 3 [] [course_of 3 None]
          [CourseRecommendation.mk "course" None 0 "N/A" true]
          true (AchievableWithGoodPerformance 3)) /\
  ~ In "N/A"%string builtin_letters.
Proof.
  intros semester. split; [vm_compute; discriminate|].
  split; [vm_compute; reflexivity|]. split; [reflexivity|].
  split; [vm_compute; reflexivity|].
  vm_compute. intros H.
  repeat (destruct H as [H|H]; [discriminate H|]). exact H.
Qed.

(** *** Values on binary64 *)

Example roundForDisplay_below_half_way :
  roundForDisplay (Some 8.665) = Some 8.66 /\ roundForDisplay (Some 1.115) = Some 1.12.
Proof. split; vm_compute; reflexivity. Qed.

Example closed_form_above_the_maximum :
  let session := Session.mk [semester_of [] (Some 6) (Some 15)] 10 in
  closed_form session 8.8 35 = 10.000000000000002 /\
  TargetCalculation.feasible (calculateTargetGPA session 8.8 35) = false.
Proof. split; vm_compute; reflexivity. Qed.

Example requiredGPA_below_half_way :
  let session := Session.mk [semester_of [] (Some 5.35) (Some 10)] 10 in
  TargetCalculation.requiredGPA (calculateTargetGPA session 7.5 20) = 8.57.
Proof. vm_compute. reflexivity. Qed.

Example required_average_above_a_grade_point :
  let semester := semester_of [course_of 15 (Some 10); course_of 10 None] None None in
  avgGPANeededOf semester 8.8 = 7.000000000000003 /\
  map (recommendation_for (avgGPANeededOf semester 8.8) 10) (ungraded semester) =
    [CourseRecommendation.mk "course" None 71 "B" true].
Proof. split; vm_compute; reflexivity. Qed.

Example calculateGPA_depends_on_the_order :
  calculateGPA [course_of 1 (Some 3.7); course_of 1 (Some 3.7); course_of 1 (Some 1.7)]
    = Some 3.033333333333333 /\
  calculateGPA [course_of 1 (Some 3.7); course_of 1 (Some 1.7); course_of 1 (Some 3.7)]
    = Some 3.0333333333333337.
Proof. split; vm_compute; reflexivity. Qed.

End OnBinary64.

(** ** Division by zero in the two target solvers *)

(** C8 (amended).  Both solvers guard the division of their closed form.
    On exact rationals, where a division by zero is an error, both
    return on every input, and the cross-semester solver returns a
    required GPA of 0 when the remaining credits are 0.  On binary64 the
    cross-semester solver returns a required GPA of 0 whenever the
    remaining credits are not greater than 0, and the intra-semester
    solver, whenever the ungraded credits as it adds them up are not
    greater than 0, works with the average 0: the recommendations, the
    feasibility and the message are those of 0.  That is the case
    whenever every ungraded course has 0 credits. *)
Theorem C8_zero_remaining_credits_guarded :
  (forall (session : Session) (targetCGPA creditsRemaining : Q),
      exists out, calculateTargetGPA session targetCGPA creditsRemaining = Ok out) /\
  (forall (session : Session) (targetCGPA creditsRemaining : Q),
      creditsRemaining == 0 ->
      exists out,
        calculateTargetGPA session targetCGPA creditsRemaining = Ok out /\
        TargetCalculation.requiredGPA out = 0) /\
  (forall (semester : Semester) (targetGPA scale : Q),
      exists out, calculateIntraSemesterTarget semester targetGPA scale = Ok out) /\
  (forall (session : F64.Session) (targetCGPA creditsRemaining : float),
      F64.gtb creditsRemaining 0 = false ->
      F64.TargetCalculation.requiredGPA
        (F64.calculateTargetGPA session targetCGPA creditsRemaining) = 0%float) /\
  (forall (semester : F64.Semester) (targetGPA scale : float),
      F64.ungraded semester <> [] ->
      F64.gtb (F64.remainingCreditsOf semester) 0 = false ->
      F64.avgGPANeededOf semester targetGPA = 0%float /\
      exists out,
        F64.calculateIntraSemesterTarget semester targetGPA scale = Ok out /\
        F64.IntraSemesterTarget.recommendations out =
          map (F64.recommendation_for 0 scale) (F64.ungraded semester) /\
        F64.IntraSemesterTarget.feasible out = (0 <=? scale)%float /\
        F64.IntraSemesterTarget.message out =
          F64.intra_message (0 <=? scale)%float 0 scale) /\
  (forall semester : F64.Semester,
      Forall (fun c => F64.Course.credits c = 0%float) (F64.ungraded semester) ->
      F64.gtb (F64.remainingCreditsOf semester) 0 = false).
Proof.
  split; [|split; [|split; [|split; [|split]]]].
  - intros. eexists. apply calculateTargetGPA_unfold.
  - intros session targetCGPA creditsRemaining Hz.
    eexists. split; [apply calculateTargetGPA_unfold|]. simpl.
    unfold required_unrounded.
    assert (Hg : gtb creditsRemaining 0 = false) by (apply gtb_false_iff; lra).
    rewrite Hg. reflexivity.
  - apply calculateIntraSemesterTarget_total.
  - intros session targetCGPA creditsRemaining Hz.
    unfold F64.calculateTargetGPA. rewrite Hz. reflexivity.
  - intros semester targetGPA scale Hne Hz.
    assert (Hv : F64.avgGPANeededOf semester targetGPA = 0%float).
    { unfold F64.avgGPANeededOf. unfold F64.remainingCreditsOf, F64.ungraded in Hz.
      now rewrite Hz. }
    split; [exact Hv|].
    eexists. split; [apply (F64_calculateIntraSemesterTarget_ungraded _ _ _ Hne)|].
    rewrite Hv. cbn [F64.IntraSemesterTarget.recommendations
                     F64.IntraSemesterTarget.feasible F64.IntraSemesterTarget.message].
    assert (Hf : ((0 <=? scale)%float && F64.geb 0 0) = (0 <=? scale)%float)
      by apply andb_true_r.
    rewrite Hf. repeat split.
  - intros semester Hall. unfold F64.remainingCreditsOf.
    now rewrite (F64_sum_credits_zero _ Hall).
Qed.

Lemma C8_witness :
  let semester :=
    F64.semester_of [F64.course_of 4 (Some 8%float); F64.course_of 0 None] None None in
  (0 : Q) == 0 /\
  F64.ungraded semester <> [] /\
  Forall (fun c => F64.Course.credits c = 0%float) (F64.ungraded semester) /\
  F64.gtb (F64.remainingCreditsOf semester) 0 = false /\
  (exists out, calculateTargetGPA session_75_60 8 0 = Ok out /\
               TargetCalculation.requiredGPA out = 0) /\
  F64.gtb 0 0 = false /\
  F64.TargetCalculation.requiredGPA (F64.calculateTargetGPA F64.session_75_60 8 0)
  = 0%float /\
  F64.avgGPANeededOf semester 9 = 0%float.
Proof.
  intros semester.
  assert (H0 : (0 : Q) == 0) by reflexivity.
  assert (Hne : F64.ungraded semester <> []) by (vm_compute; discriminate).
  assert (Hall : Forall (fun c => F64.Course.credits c = 0%float) (F64.ungraded semester)).
  { repeat constructor. }
  assert (Hg : F64.gtb 0 0 = false) by reflexivity.
  destruct C8_zero_remaining_credits_guarded
    as [_ [Hcross [_ [Hcross64 [Hintra Hzero]]]]].
  pose proof (Hzero semester Hall) as Hz.
  split; [exact H0|]. split; [exact Hne|]. split; [exact Hall|]. split; [exact Hz|].
  split; [exact (Hcross session_75_60 8 0 H0)|].
  split; [exact Hg|].
  split; [exact (Hcross64 F64.session_75_60 8%float 0%float Hg)|].
  exact (proj1 (Hintra semester 9%float 10%float Hne Hz)).
Defined.

(** C8 as stated fails.  The ungraded credits 0.1, 0.2, -0.1 and -0.2
    total 0, but added up in binary64 in this order they leave
    2.7755575615628914e-17, which is greater than 0: the solver divides by
    it, and recommends 100 marks in every ungraded course. *)
Lemma C8_counterexample :
  let semester :=
    F64.semester_of
      [F64.course_of 4 (Some 8%float);
       F64.course_of 0.1 None; F64.course_of 0.2 None;
       F64.course_of (-0.1) None; F64.course_of (-0.2) None] None None in
  F64.ungraded semester <> [] /\
  sumQ (map (fun c => F64.exact (F64.Course.credits c)) (F64.ungraded semester)) == 0 /\
  F64.remainingCreditsOf semester = 2.7755575615628914e-17%float /\
  F64.gtb (F64.remainingCreditsOf semester) 0 = true /\
  F64.avgGPANeededOf semester 9 = 1.4411518807585587e+17%float /\
  exists out,
    F64.calculateIntraSemesterTarget semester 9 10 = Ok out /\
    map (fun rec => (F64.CourseRecommendation.marksNeeded rec,
                     F64.CourseRecommendation.gradeNeeded rec))
        (F64.IntraSemesterTarget.recommendations out) =
      [(100%float, "A+/O+"%string); (100%float, "A+/O+"%string);
       (100%float, "A+/O+"%string); (100%float, "A+/O+"%string)] /\
    F64.IntraSemesterTarget.feasible out = false.
Proof.
  intros semester. split; [vm_compute; discriminate|].
  split; [vm_compute; reflexivity|].
  split; [vm_compute; reflexivity|]. split; [vm_compute; reflexivity|].
  split; [vm_compute; reflexivity|].
  eexists. split; [vm_compute; reflexivity|]. split; vm_compute; reflexivity.
Qed.

(** ** The grade-distribution projector *)

Lemma count_grades_bump (courses : list Course) (d : histogram) :
  count_grades d courses = fold_left bump (grades_of courses) d.
Proof.
  unfold count_grades, grades_of. revert d.
  induction courses as [|c cs IH]; intros d; simpl; [reflexivity|].
  rewrite fold_left_app, IH.
  destruct (truthy_str (Course.grade c)); reflexivity.
Qed.

Lemma session_histogram_bump (session : Session) :
  session_histogram session = fold_left bump (all_grades session) [].
Proof.
  unfold session_histogram, all_grades. generalize (@nil (string * slot)).
  induction (Session.semesters session) as [|s l IH]; intros d; simpl; [reflexivity|].
  now rewrite fold_left_app, IH, count_grades_bump.
Qed.

Lemma lookup_assign_next (h : histogram) (g g' : string) :
  lookup (assign_next h g) g' =
  if String.eqb g g'
  then Some (match lookup h g with Some v => plus_one v | None => first_one g end)
  else lookup h g'.
Proof.
  unfold lookup. induction h as [|[k n] h IH]; simpl.
  - destruct (String.eqb g g'); reflexivity.
  - destruct (String.eqb k g) eqn:Ek; simpl.
    + apply String.eqb_eq in Ek. subst k.
      destruct (String.eqb g g'); reflexivity.
    + destruct (String.eqb k g') eqn:Ek'; simpl.
      * apply String.eqb_eq in Ek'. subst k.
        now rewrite String.eqb_sym, Ek.
      * exact IH.
Qed.

Lemma keys_assign_next (h : histogram) (g : string) :
  (In g (keys h) /\ keys (assign_next h g) = keys h) \/
  (~ In g (keys h) /\ keys (assign_next h g) = keys h ++ [g]).
Proof.
  unfold keys. induction h as [|[k n] h IH]; simpl.
  - right. split; [tauto | reflexivity].
  - destruct (String.eqb k g) eqn:Ek; simpl.
    + apply String.eqb_eq in Ek. left. split; [now left | reflexivity].
    + apply String.eqb_neq in Ek.
      destruct IH as [[Hin Heq]|[Hnin Heq]]; rewrite Heq.
      * left. split; [now right | reflexivity].
      * right. split; [tauto | reflexivity].
Qed.

Lemma keys_bump_NoDup (h : histogram) (g : string) :
  NoDup (keys h) -> NoDup (keys (bump h g)).
Proof.
  intros H. unfold bump. destruct (String.eqb g "__proto__"); [exact H|].
  destruct (keys_assign_next h g) as [[_ ->]|[Hnin ->]]; [exact H|].
  apply NoDup_app; [exact H | repeat constructor; tauto |].
  intros x Hx [<-|[]]. contradiction.
Qed.

Lemma lookup_In (h : histogram) (g : string) (v : slot) :
  NoDup (keys h) -> (In (g, v) h <-> lookup h g = Some v).
Proof.
  unfold lookup, keys. induction h as [|[k m] h IH]; simpl; intros Hnd.
  - split; [contradiction | discriminate].
  - inversion Hnd as [|? ? Hnotin Hnd']; subst.
    destruct (String.eqb k g) eqn:Ek; simpl.
    + apply String.eqb_eq in Ek. subst k. split.
      * intros [H|H]; [congruence|].
        exfalso. apply Hnotin. now apply (in_map fst) in H.
      * intros H. left. congruence.
    + apply String.eqb_neq in Ek. rewrite <- (IH Hnd'). split.
      * intros [H|H]; [congruence | exact H].
      * intros H. now right.
Qed.

Lemma plus_one_slot_after (g : string) (n : nat) :
  plus_one (slot_after g n) = slot_after g (S n).
Proof.
  unfold slot_after. destruct (inherited g); simpl; [reflexivity|].
  f_equal. lia.
Qed.

Lemma first_one_slot_after (g : string) : first_one g = slot_after g 1.
Proof. unfold first_one, slot_after. now destruct (inherited g). Qed.

Lemma slot_after_ordinary (g : string) (n : nat) :
  ordinary g = true -> slot_after g n = Count (Z.of_nat n).
Proof.
  unfold ordinary, slot_after. intros H. apply andb_true_iff in H as [_ H].
  now destruct (inherited g).
Qed.

Lemma ordinary_not_proto (g : string) :
  ordinary g = true -> String.eqb g "__proto__" = false.
Proof.
  unfold ordinary. intros H. apply andb_true_iff in H as [H _].
  now destruct (String.eqb g "__proto__").
Qed.

(** The histogram of a list of grades: its keys are distinct; [__proto__]
    never is a key; every other grade of the list is a key, and holds the
    number of its occurrences, as a count or behind an inherited text. *)
Lemma histogram_slots (gs : list string) :
  let h := fold_left bump gs [] in
  NoDup (keys h) /\
  forall g, lookup h g =
            if String.eqb g "__proto__" then None
            else if in_dec string_dec g gs
                 then Some (slot_after g (count_occ string_dec gs g))
                 else None.
Proof.
  induction gs as [|g0 gs IH] using rev_ind; simpl.
  - split; [constructor|]. intros g. now destruct (String.eqb g "__proto__").
  - rewrite fold_left_app. simpl. destruct IH as [Hnd Hl]. split.
    + now apply keys_bump_NoDup.
    + intros g. rewrite count_occ_app. simpl. unfold bump.
      destruct (String.eqb g0 "__proto__") eqn:E0.
      * rewrite Hl. destruct (String.eqb g "__proto__") eqn:Eg; [reflexivity|].
        apply String.eqb_eq in E0. apply String.eqb_neq in Eg.
        destruct (string_dec g0 g) as [C|_]; [congruence|].
        rewrite Nat.add_0_r.
        destruct (in_dec string_dec g gs) as [Hin|Hnin];
          destruct (in_dec string_dec g (gs ++ [g0])) as [Hin'|Hnin']; try reflexivity.
        -- exfalso. apply Hnin', in_or_app. now left.
        -- exfalso. apply in_app_or in Hin' as [H|[H|[]]]; [contradiction|congruence].
      * rewrite lookup_assign_next.
        destruct (String.eqb g0 g) eqn:E.
        -- apply String.eqb_eq in E. subst g0. rewrite Hl, E0.
           destruct (string_dec g g) as [_|C]; [|congruence].
           destruct (in_dec string_dec g (gs ++ [g])) as [_|C];
             [|exfalso; apply C, in_or_app; right; now left].
           destruct (in_dec string_dec g gs) as [Hin|Hnin].
           ++ now rewrite plus_one_slot_after, Nat.add_1_r.
           ++ rewrite (proj1 (count_occ_not_In string_dec gs g) Hnin).
              now rewrite first_one_slot_after.
        -- apply String.eqb_neq in E. rewrite Hl.
           destruct (String.eqb g "__proto__"); [reflexivity|].
           destruct (string_dec g0 g) as [C|_]; [congruence|].
           rewrite Nat.add_0_r.
           destruct (in_dec string_dec g gs) as [Hin|Hnin];
             destruct (in_dec string_dec g (gs ++ [g0])) as [Hin'|Hnin']; try reflexivity.
           ++ exfalso. apply Hnin', in_or_app. now left.
           ++ exfalso. apply in_app_or in Hin' as [H|[H|[]]]; [contradiction|congruence].
Qed.

(** With grades that [Object.prototype] does not define, every grade of
    the list is a key and holds the number of its occurrences. *)
Lemma histogram_counts (gs : list string) :
  Forall (fun g => ordinary g = true) gs ->
  let h := fold_left bump gs [] in
  NoDup (keys h) /\
  forall g v, In (g, v) h <->
              In g gs /\ v = Count (Z.of_nat (count_occ string_dec gs g)).
Proof.
  intros Hord h. destruct (histogram_slots gs) as [Hnd Hl]. fold h in Hnd, Hl.
  split; [exact Hnd|]. intros g v. rewrite (lookup_In h g v Hnd), Hl.
  destruct (in_dec string_dec g gs) as [Hin|Hnin].
  - pose proof (proj1 (Forall_forall _ _) Hord g Hin) as Hg.
    rewrite (ordinary_not_proto g Hg), (slot_after_ordinary g _ Hg).
    split; [intros E; injection E as <-; now split | intros [_ ->]; reflexivity].
  - destruct (String.eqb g "__proto__");
      (split; [discriminate | intros [Hin _]; contradiction]).
Qed.

Lemma insert_by_index_perm (kv : string * slot) (l : list (string * slot)) :
  Permutation (insert_by_index kv l) (kv :: l).
Proof.
  induction l as [|x l IH]; simpl; [reflexivity|].
  destruct (index_of_key (fst kv) <=? index_of_key (fst x))%N; [reflexivity|].
  rewrite IH. apply perm_swap.
Qed.

Lemma filter_partition_perm {A : Type} (f : A -> bool) (l : list A) :
  Permutation (filter f l ++ filter (fun x => negb (f x)) l) l.
Proof.
  induction l as [|x l IH]; simpl; [reflexivity|].
  destruct (f x); simpl.
  - now apply perm_skip.
  - rewrite <- Permutation_middle. now apply perm_skip.
Qed.

Lemma Object_entries_perm (h : histogram) : Permutation (Object_entries h) h.
Proof.
  unfold Object_entries.
  rewrite <- (filter_partition_perm is_index_key h) at 3.
  apply Permutation_app_tail.
  induction (filter is_index_key h) as [|x l IH]; simpl; [reflexivity|].
  rewrite insert_by_index_perm. now apply perm_skip.
Qed.

Lemma insert_desc_perm (p : ChartDataPoint.t) (l : list ChartDataPoint.t) :
  Permutation (insert_desc p l) (p :: l).
Proof.
  induction l as [|x l IH]; simpl; [reflexivity|].
  destruct (sorts_behind p x); [|reflexivity].
  rewrite IH. apply perm_swap.
Qed.

Lemma sort_desc_perm (l : list ChartDataPoint.t) : Permutation (sort_desc l) l.
Proof.
  unfold sort_desc. induction l as [|x l IH]; simpl; [reflexivity|].
  rewrite insert_desc_perm. now apply perm_skip.
Qed.

Lemma no_letter_grades_iff (session : Session) :
  no_letter_grades session <-> all_grades session = [].
Proof.
  unfold no_letter_grades, all_grades, grades_of. split.
  - intros H. induction (Session.semesters session) as [|s l IH]; simpl; [reflexivity|].
    rewrite IH by (intros s0 c Hs Hc; apply (H s0 c); [now right | exact Hc]).
    rewrite app_nil_r.
    assert (Hs : forall c, In c (Semester.courses s) ->
                           Course.grade c = None \/ Course.grade c = Some EmptyString)
      by (intros c Hc; apply (H s c); [now left | exact Hc]).
    induction (Semester.courses s) as [|c cs IHc]; simpl; [reflexivity|].
    rewrite IHc by (intros c0 Hc0; apply Hs; now right).
    destruct (Hs c (or_introl eq_refl)) as [-> | ->]; reflexivity.
  - intros H s c Hs Hc.
    destruct (Course.grade c) as [[|a g]|] eqn:Eg; [now right | | now left].
    exfalso.
    assert (Hin : In (String a g)
              (flat_map (fun s0 => flat_map
                 (fun c0 => match truthy_str (Course.grade c0) with
                            | Some g0 => [g0] | None => [] end)
                 (Semester.courses s0)) (Session.semesters session))).
    { apply in_flat_map. exists s. split; [exact Hs|].
      apply in_flat_map. exists c. split; [exact Hc|]. rewrite Eg. now left. }
    rewrite H in Hin. contradiction.
Qed.

Lemma has_manual_entry_iff (session : Session) :
  has_manual_entry session <->
  existsb has_manualGPA (Session.semesters session) = true.
Proof.
  unfold has_manual_entry. rewrite existsb_exists. split.
  - intros [s [Hs Hm]]. exists s. split; [exact Hs|].
    unfold has_manualGPA. destruct (Semester.manualGPA s); [reflexivity | congruence].
  - intros [s [Hs Hm]]. exists s. split; [exact Hs|].
    unfold has_manualGPA in Hm. destruct (Semester.manualGPA s); [discriminate | discriminate Hm].
Qed.

(** C9 (the code departs from it).  The histogram is a plain object
    indexed by the grade, so a grade that names a member of
    [Object.prototype] is not counted.  A course graded [__proto__]
    leaves no key: with a manual semester beside it the projector
    answers with the "Manual Entry" bucket, although a course has a
    letter grade, and without one it answers with no bucket at all.  A
    course graded [constructor] gets a bucket whose value is a text and
    not the count 1.  The same sessions with the grade A give the bucket
    A with the count 1. *)
Theorem C9_prototype_names_are_not_counted :
  let session_of g manual :=
    Session.mk [semester_of [graded_course g] None None;
                semester_of [] manual (Some 20)] 10 in
  (all_grades (session_of "__proto__"%string (Some 8)) = ["__proto__"%string] /\
   ~ no_letter_grades (session_of "__proto__"%string (Some 8)) /\
   getGradeDistribution (session_of "__proto__"%string (Some 8)) =
     Ok [ChartDataPoint.mk "Manual Entry" (Count 1) (Count 1)]) /\
  getGradeDistribution (session_of "__proto__"%string None) = Ok [] /\
  getGradeDistribution (session_of "constructor"%string (Some 8)) =
    Ok [ChartDataPoint.mk "constructor" (Text 1) (Text 1)] /\
  getGradeDistribution (session_of "A"%string (Some 8)) =
    Ok [ChartDataPoint.mk "A" (Count 1) (Count 1)].
Proof.
  intros session_of. repeat split; try reflexivity.
  intros H. apply no_letter_grades_iff in H. discriminate H.
Qed.

(** ** Scenarios of the specification *)

Example marks_91_is_top_grade :
  convertMarksToGrade 91 BIT_MESRA_10_POINT = Ok "A+/O"%string.
Proof. reflexivity. Qed.

Example marks_90_is_A :
  convertMarksToGrade 90 BIT_MESRA_10_POINT = Ok "A"%string.
Proof. reflexivity. Qed.

Example marks_between_buckets_fall_to_F :
  convertMarksToGrade (181 # 2) BIT_MESRA_10_POINT = Ok "F"%string.
Proof. reflexivity. Qed.

Example trend_6_7_85_improving :
  trend_of [6; 7; 85 # 10] = Ok improving.
Proof. reflexivity. Qed.

Example unknown_letter_is_zero :
  convertGradeToPoints "Z" 10 None = 0.
Proof. reflexivity. Qed.

Example letter_is_trimmed_and_uppercased :
  convertGradeToPoints " a+/o " 10 (Some BIT_MESRA_10_POINT) = 10.
Proof. reflexivity. Qed.

(** * Further properties of the engine *)

(** ** Pooling *)

Lemma cgpa_fold_pooled (semesters : list Semester) (acc : Q * Q) :
  Forall (fun s => manual_counts s = false) semesters ->
  fold_left cgpa_step semesters acc =
  fold_left gpa_step (pooled_courses semesters) acc.
Proof.
  intros H. revert acc. induction H as [|s l Hs _ IH]; intros acc; simpl.
  - reflexivity.
  - unfold pooled_courses in *. simpl. rewrite fold_left_app, <- IH. f_equal.
    unfold cgpa_step. unfold manual_counts in Hs.
    destruct (Semester.courses s) as [|c cs]; [|reflexivity].
    destruct (Semester.manualGPA s); [|reflexivity].
    destruct (Semester.manualCredits s); [|reflexivity].
    now rewrite Hs.
Qed.

(** X3. When no semester contributes a manual entry, the CGPA is the GPA
    of all the courses of all the semesters taken as one list. *)
Theorem X3_calculateCGPA_is_pooled_GPA :
  forall semesters : list Semester,
    Forall (fun s => manual_counts s = false) semesters ->
    calculateCGPA semesters = calculateGPA (pooled_courses semesters).
Proof.
  intros semesters H. unfold calculateCGPA, calculateGPA.
  now rewrite (cgpa_fold_pooled semesters (0, 0) H).
Qed.

Lemma X3_witness :
  let semesters :=
    [ semester_of [course_of 4 (Some 8); course_of 4 None] None None;
      semester_of [course_of 4 (Some 6)] (Some 2) (Some 30) ] in
  Forall (fun s => manual_counts s = false) semesters /\
  calculateCGPA semesters =
  calculateGPA [course_of 4 (Some 8); course_of 4 None; course_of 4 (Some 6)].
Proof.
  intros semesters.
  assert (H : Forall (fun s => manual_counts s = false) semesters)
    by (repeat constructor).
  split; [exact H|]. exact (X3_calculateCGPA_is_pooled_GPA semesters H).
Defined.

(** ** Rounding for display *)

Lemma Math_round_monotone (x y : Q) : x <= y -> Math_round x <= Math_round y.
Proof.
  intros H. unfold Math_round. rewrite <- Zle_Qle.
  apply Qfloor_resp_le. lra.
Qed.

Lemma round2_monotone (x y : Q) : x <= y -> round2 x <= round2 y.
Proof.
  intros H. unfold round2.
  assert (Math_round (x * 100) <= Math_round (y * 100))
    by (apply Math_round_monotone; lra).
  apply Qle_shift_div_l; [lra|].
  setoid_replace (Math_round (x * 100) / 100 * 100) with (Math_round (x * 100))
    by (field). exact H0.
Qed.

(** X6. [roundForDisplay] keeps [null], returns a number for a number,
    and preserves order. *)
Theorem X6_roundForDisplay_monotone :
  roundForDisplay None = Ok None /\
  (forall x : Q, exists r, roundForDisplay (Some x) = Ok (Some r)) /\
  (forall x y : Q,
      x <= y ->
      exists rx ry, roundForDisplay (Some x) = Ok (Some rx) /\
                    roundForDisplay (Some y) = Ok (Some ry) /\ rx <= ry).
Proof.
  split; [reflexivity|]. split.
  - intros x. exists (round2 x). reflexivity.
  - intros x y H. exists (round2 x), (round2 y).
    repeat split. now apply round2_monotone.
Qed.

Lemma X6_witness :
  (8123 # 1000) <= (26 # 3) /\
  exists rx ry, roundForDisplay (Some (8123 # 1000)) = Ok (Some rx) /\
                roundForDisplay (Some (26 # 3)) = Ok (Some ry) /\
                rx <= ry /\ rx == 812 # 100 /\ ry == 867 # 100.
Proof.
  assert (H : (8123 # 1000) <= (26 # 3)) by (unfold Qle; simpl; lia).
  split; [exact H|].
  destruct (proj2 (proj2 X6_roundForDisplay_monotone) _ _ H) as [rx [ry [Hx [Hy Hle]]]].
  exists rx, ry. split; [exact Hx|]. split; [exact Hy|]. split; [exact Hle|].
  simpl in Hx, Hy. injection Hx as <-. injection Hy as <-.
  split; vm_compute; reflexivity.
Defined.

(** ** Scale conversion *)

Ltac split_bands :=
  repeat match goal with
         | |- context [if geb ?a ?b then _ else _] =>
             let E := fresh "E" in
             destruct (geb a b) eqn:E;
             [apply geb_true_iff in E | apply geb_false_iff in E]
         end.

(** X7. A conversion between equal scales returns the value unchanged,
    whatever the method.  The linear conversion never fails and is
    monotone in both directions; it takes a value between 0 and 10 to a
    value between 0 and 4, and a value between 0 and 4 to a value between
    0 and 10; and it takes 0 to 0 and the maximum of a scale to the
    maximum of the other. *)
Theorem X7_convertScale_linear_monotone_bounded :
  (forall (v s : Q) (method : ConversionMethod),
      convertScale v s s method = Ok (Conversion.mk v SameScale)) /\
  (forall v w : Q,
      v <= w ->
      exists a b,
        convertScale v 10 4 linear = Ok a /\
        convertScale w 10 4 linear = Ok b /\
        Conversion.convertedValue a <= Conversion.convertedValue b) /\
  (forall v w : Q,
      v <= w ->
      exists a b,
        convertScale v 4 10 linear = Ok a /\
        convertScale w 4 10 linear = Ok b /\
        Conversion.convertedValue a <= Conversion.convertedValue b) /\
  (forall v : Q,
      0 <= v <= 10 ->
      exists a, convertScale v 10 4 linear = Ok a /\
                0 <= Conversion.convertedValue a <= 4) /\
  (forall v : Q,
      0 <= v <= 4 ->
      exists a, convertScale v 4 10 linear = Ok a /\
                0 <= Conversion.convertedValue a <= 10) /\
  (exists a b c d,
      convertScale 0 10 4 linear = Ok a /\ Conversion.convertedValue a == 0 /\
      convertScale 10 10 4 linear = Ok b /\ Conversion.convertedValue b == 4 /\
      convertScale 0 4 10 linear = Ok c /\ Conversion.convertedValue c == 0 /\
      convertScale 4 4 10 linear = Ok d /\ Conversion.convertedValue d == 10).
Proof.
  split; [|split; [|split; [|split; [|split]]]].
  - intros v s method. unfold convertScale.
    now rewrite (proj2 (eqb_true_iff s s) (Qeq_refl s)).
  - intros v w H. eexists. eexists. split; [reflexivity|]. split; [reflexivity|].
    simpl. unfold Qdiv. change (/ 10) with (1 # 10). lra.
  - intros v w H. eexists. eexists. split; [reflexivity|]. split; [reflexivity|].
    simpl. unfold Qdiv. change (/ 4) with (1 # 4). lra.
  - intros v H. eexists. split; [reflexivity|].
    simpl. unfold Qdiv. change (/ 10) with (1 # 10). lra.
  - intros v H. eexists. split; [reflexivity|].
    simpl. unfold Qdiv. change (/ 4) with (1 # 4). lra.
  - do 4 eexists. repeat split; vm_compute; reflexivity.
Qed.

Lemma X7_witness :
  (95 # 10) <= 10 /\ 0 <= 4 <= 4 /\
  (exists a b,
      convertScale (95 # 10) 10 4 linear = Ok a /\
      convertScale 10 10 4 linear = Ok b /\
      Conversion.convertedValue a <= Conversion.convertedValue b) /\
  (exists a, convertScale 4 4 10 linear = Ok a /\
             0 <= Conversion.convertedValue a <= 10).
Proof.
  assert (H1 : (95 # 10) <= 10) by lra.
  assert (H2 : 0 <= 4 <= 4) by lra.
  split; [exact H1|]. split; [exact H2|].
  destruct X7_convertScale_linear_monotone_bounded as [_ [Hm [_ [_ [Hb _]]]]].
  split; [exact (Hm _ _ H1) | exact (Hb 4 H2)].
Defined.

(** X8. The official conversion never fails and is monotone in both
    directions; from the 10-point scale a value between 0 and 10 gives a
    value between 0 and 4, and from the 4-point scale a value between 0
    and 4 gives a value between 0 and 9: the official table never returns
    a 10-point value above 9. *)
Theorem X8_convertScale_official_monotone_bounded :
  (forall v w : Q,
      v <= w ->
      exists a b,
        convertScale v 10 4 official = Ok a /\
        convertScale w 10 4 official = Ok b /\
        Conversion.convertedValue a <= Conversion.convertedValue b) /\
  (forall v w : Q,
      v <= w ->
      exists a b,
        convertScale v 4 10 official = Ok a /\
        convertScale w 4 10 official = Ok b /\
        Conversion.convertedValue a <= Conversion.convertedValue b) /\
  (forall v : Q,
      0 <= v <= 10 ->
      exists a, convertScale v 10 4 official = Ok a /\
                0 <= Conversion.convertedValue a <= 4) /\
  (forall v : Q,
      0 <= v <= 4 ->
      exists a, convertScale v 4 10 official = Ok a /\
                0 <= Conversion.convertedValue a <= 9).
Proof.
  split; [|split; [|split]].
  - intros v w H. unfold convertScale. simpl.
    split_bands; eexists; eexists; (split; [reflexivity|]);
      (split; [reflexivity|]); simpl; lra.
  - intros v w H. unfold convertScale. simpl.
    split_bands; eexists; eexists; (split; [reflexivity|]);
      (split; [reflexivity|]); simpl; lra.
  - intros v H. unfold convertScale. simpl.
    split_bands; eexists; (split; [reflexivity|]); simpl; lra.
  - intros v H. unfold convertScale. simpl.
    split_bands; eexists; (split; [reflexivity|]); simpl; lra.
Qed.

Lemma X8_witness :
  (95 # 10) <= 10 /\ 0 <= 4 <= 4 /\
  (exists a b,
      convertScale (95 # 10) 10 4 official = Ok a /\
      convertScale 10 10 4 official = Ok b /\
      Conversion.convertedValue a <= Conversion.convertedValue b) /\
  (exists a, convertScale 4 4 10 official = Ok a /\
             0 <= Conversion.convertedValue a <= 9).
Proof.
  assert (H1 : (95 # 10) <= 10) by lra.
  assert (H2 : 0 <= 4 <= 4) by lra.
  split; [exact H1|]. split; [exact H2|].
  destruct X8_convertScale_official_monotone_bounded as [Hm [_ [_ Hb]]].
  split; [exact (Hm _ _ H1) | exact (Hb 4 H2)].
Defined.

(** ** The built-in tables *)

Lemma find_none_all {A : Type} (f : A -> bool) (l : list A) :
  (forall x, In x l -> f x = false) -> find f l = None.
Proof.
  induction l as [|x l IH]; intros H; simpl; [reflexivity|].
  rewrite (H x (or_introl eq_refl)). apply IH. intros y Hy. apply H. now right.
Qed.

Ltac pick_interval :=
  repeat first
    [ apply Exists_cons_hd; unfold in_interval, Qle; simpl; lia
    | apply Exists_cons_tl ].

(** X9. In each built-in template every whole mark from 0 to 100 lies in
    the interval of a mapping, and no mark, whole or not, lies in the
    intervals of two mappings. *)
Theorem X9_builtin_buckets_partition_whole_marks :
  forall T : GradeTemplate,
    In T getBuiltinTemplates ->
    (forall z : Z, (0 <= z <= 100)%Z -> covered (inject_Z z) T) /\
    (forall (m : Q) (mp mp' : GradeMapping),
        In mp (GradeTemplate.mappings T) -> In mp' (GradeTemplate.mappings T) ->
        in_interval m mp -> in_interval m mp' -> mp = mp').
Proof.
  intros T HT. split.
  - intros z Hz. unfold covered. apply Exists_exists.
    destruct HT as [<-|[<-|[]]]; simpl.
    + assert (Hcase : (91 <= z \/ 81 <= z <= 90 \/ 71 <= z <= 80 \/ 61 <= z <= 70 \/
                       51 <= z <= 60 \/ 41 <= z <= 50 \/ z <= 40)%Z) by lia.
      decompose [or] Hcase; pick_interval.
    + assert (Hcase : (93 <= z \/ 90 <= z <= 92 \/ 87 <= z <= 89 \/ 83 <= z <= 86 \/
                       80 <= z <= 82 \/ 77 <= z <= 79 \/ 73 <= z <= 76 \/
                       70 <= z <= 72 \/ 67 <= z <= 69 \/ 63 <= z <= 66 \/
                       60 <= z <= 62 \/ z <= 59)%Z) by lia.
      decompose [or] Hcase; pick_interval.
  - intros m mp mp' Hin Hin' [Hlo Hhi] [Hlo' Hhi'].
    destruct HT as [<-|[<-|[]]]; simpl in Hin, Hin';
      repeat (destruct Hin as [<-|Hin]; [|]); try contradiction;
      repeat (destruct Hin' as [<-|Hin']; [|]); try contradiction;
      simpl in *; first [reflexivity | exfalso; lra].
Qed.

Lemma X9_witness :
  In BIT_MESRA_10_POINT getBuiltinTemplates /\ (0 <= 90 <= 100)%Z /\
  covered 90 BIT_MESRA_10_POINT.
Proof.
  assert (HT : In BIT_MESRA_10_POINT getBuiltinTemplates) by (left; reflexivity).
  assert (Hz : (0 <= 90 <= 100)%Z) by lia.
  split; [exact HT|]. split; [exact Hz|].
  exact (proj1 (X9_builtin_buckets_partition_whole_marks _ HT) 90%Z Hz).
Defined.

(** X10. A mark that lies in no interval of a built-in template, be it
    below 0, above 100 or strictly between two intervals, converts to
    the grade F with 0 points. *)
Theorem X10_uncovered_marks_convert_to_F :
  forall (T : GradeTemplate) (m : Q),
    In T getBuiltinTemplates ->
    ~ covered m T ->
    convertMarksToPoints m T = Ok ("F"%string, 0).
Proof.
  intros T m HT Hnot.
  assert (Hfind : find (in_bucket m) (GradeTemplate.mappings T) = None).
  { apply find_none_all. intros mp Hin.
    destruct (in_bucket m mp) eqn:E; [|reflexivity].
    exfalso. apply Hnot. exists mp. split; [exact Hin|]. now apply in_bucket_iff. }
  unfold convertMarksToPoints, convertMarksToGrade. rewrite Hfind.
  destruct HT as [<-|[<-|[]]]; reflexivity.
Qed.

Lemma X10_witness :
  In BIT_MESRA_10_POINT getBuiltinTemplates /\
  ~ covered (181 # 2) BIT_MESRA_10_POINT /\
  convertMarksToPoints (181 # 2) BIT_MESRA_10_POINT = Ok ("F"%string, 0).
Proof.
  assert (HT : In BIT_MESRA_10_POINT getBuiltinTemplates) by (left; reflexivity).
  assert (Hnot : ~ covered (181 # 2) BIT_MESRA_10_POINT).
  { intros [mp [Hin [Hlo Hhi]]]. simpl in Hin.
    repeat (destruct Hin as [<-|Hin]; [simpl in *; lra|]). contradiction. }
  split; [exact HT|]. split; [exact Hnot|].
  exact (X10_uncovered_marks_convert_to_F _ _ HT Hnot).
Defined.

(** X11. On the marks that lie in some interval of a built-in template,
    the grade point [convertMarksToPoints] returns is monotone: more
    marks never give fewer points. *)
Theorem X11_points_monotone_on_covered_marks :
  forall (T : GradeTemplate) (m1 m2 : Q),
    In T getBuiltinTemplates ->
    covered m1 T -> covered m2 T ->
    m1 <= m2 ->
    exists l1 p1 l2 p2,
      convertMarksToPoints m1 T = Ok (l1, p1) /\
      convertMarksToPoints m2 T = Ok (l2, p2) /\
      p1 <= p2.
Proof.
  intros T m1 m2 HT H1 H2 Hle.
  destruct (find_first_bucket m1 _ H1) as [mp1 [Hf1 _]].
  destruct (find_first_bucket m2 _ H2) as [mp2 [Hf2 _]].
  destruct (roundtrip_first_bucket T (builtin_letters_distinct T HT)
              (builtin_letters_trimmed T HT) m1 mp1 Hf1) as [g1 [Hg1 Hp1]].
  destruct (roundtrip_first_bucket T (builtin_letters_distinct T HT)
              (builtin_letters_trimmed T HT) m2 mp2 Hf2) as [g2 [Hg2 Hp2]].
  exists g1, (GradeMapping.gradePoint mp1), g2, (GradeMapping.gradePoint mp2).
  unfold convertMarksToPoints. rewrite Hg1, Hg2. unfold bind. rewrite Hp1, Hp2.
  split; [reflexivity|]. split; [reflexivity|].
  apply find_some in Hf1 as [Hin1 Hb1]. apply find_some in Hf2 as [Hin2 Hb2].
  apply in_bucket_iff in Hb1, Hb2. destruct Hb1 as [Hlo1 Hhi1], Hb2 as [Hlo2 Hhi2].
  clear Hg1 Hg2 Hp1 Hp2 H1 H2.
  destruct HT as [<-|[<-|[]]]; simpl in Hin1, Hin2;
    repeat (destruct Hin1 as [<-|Hin1]; [|]); try contradiction;
    repeat (destruct Hin2 as [<-|Hin2]; [|]); try contradiction;
    simpl in *; lra.
Qed.

Lemma X11_witness :
  In BIT_MESRA_10_POINT getBuiltinTemplates /\
  covered 90 BIT_MESRA_10_POINT /\ covered 91 BIT_MESRA_10_POINT /\ 90 <= 91 /\
  exists l1 p1 l2 p2,
    convertMarksToPoints 90 BIT_MESRA_10_POINT = Ok (l1, p1) /\
    convertMarksToPoints 91 BIT_MESRA_10_POINT = Ok (l2, p2) /\
    p1 <= p2.
Proof.
  assert (HT : In BIT_MESRA_10_POINT getBuiltinTemplates) by (left; reflexivity).
  assert (H1 : covered 90 BIT_MESRA_10_POINT).
  { exists (GradeMapping.mk 81 90 "A" 9). split; [right; left; reflexivity|].
    unfold in_interval; simpl; lra. }
  assert (H2 : covered 91 BIT_MESRA_10_POINT).
  { exists (GradeMapping.mk 91 100 "A+/O" 10). split; [left; reflexivity|].
    unfold in_interval; simpl; lra. }
  assert (Hle : 90 <= 91) by lra.
  split; [exact HT|]. split; [exact H1|]. split; [exact H2|]. split; [exact Hle|].
  exact (X11_points_monotone_on_covered_marks _ _ _ HT H1 H2 Hle).
Defined.

(** ** Statistics *)

Lemma stats_loop_fields (semesters : list Semester) (st : StatsLoop.t) :
  exists st',
    foldM stats_step semesters st = Ok st' /\
    StatsLoop.totalCourses st' =
      (StatsLoop.totalCourses st + Z.of_nat (List.length (pooled_courses semesters)))%Z /\
    StatsLoop.totalCredits st' =
      fold_left (fun acc s => acc + getSemesterCredits s) semesters
                (StatsLoop.totalCredits st) /\
    StatsLoop.gradeDistribution st' =
      fold_left (fun d sem => count_grades d (Semester.courses sem)) semesters
                (StatsLoop.gradeDistribution st) /\
    StatsLoop.semesterGPAs st' =
      StatsLoop.semesterGPAs st ++ gpas_in_list_order semesters /\
    StatsLoop.semestersWithData st' =
      (StatsLoop.semestersWithData st
       + Z.of_nat (List.length (gpas_in_list_order semesters)))%Z.
Proof.
  revert st. induction semesters as [|s l IH]; intros st; simpl.
  - exists st. rewrite app_nil_r. repeat split; lia.
  - unfold stats_step at 1. rewrite getSemesterGPA_total. simpl.
    unfold pooled_courses in *. simpl. rewrite length_app.
    destruct (effectiveGPA s) as [g|]; simpl;
      match goal with |- context [foldM stats_step l ?st0] =>
        destruct (IH st0) as [st' [Hf [Hn [Hc [Hd [Hg Hw]]]]]] end;
      exists st'; simpl in *; rewrite Hf, Hn, Hc, Hd, Hg, Hw;
      [rewrite <- app_assoc|]; repeat split; try reflexivity; lia.
Qed.

Lemma calculateStatistics_fields (session : Session) :
  let gpas := gpas_in_list_order (Session.semesters session) in
  exists st,
    calculateStatistics session = Ok st /\
    Statistics.totalCourses st =
      Z.of_nat (List.length (pooled_courses (Session.semesters session))) /\
    Statistics.totalCredits st = creditsCompletedOf (Session.semesters session) /\
    Statistics.gradeDistribution st =
      calculateGradeDistribution (Session.semesters session) /\
    Statistics.highestSemesterGPA st = option_map round2 (Math_max gpas) /\
    Statistics.lowestSemesterGPA st = option_map round2 (Math_min gpas).
Proof.
  intros gpas. unfold calculateStatistics.
  destruct (stats_loop_fields (Session.semesters session) (StatsLoop.mk 0 0 [] [] 0))
    as [st' [Hf [Hn [Hc [Hd [Hg Hw]]]]]].
  rewrite Hf. simpl in Hn, Hc, Hd, Hg, Hw. simpl. rewrite Hg. fold gpas.
  destruct (trend_of_total gpas) as [t Ht].
  assert (Havg : exists a,
    (if (0 <? StatsLoop.semestersWithData st')%Z
     then div (StatsLoop.totalCredits st') (inject_Z (StatsLoop.semestersWithData st'))
     else Ok 0) = Ok a).
  { destruct (0 <? StatsLoop.semestersWithData st')%Z eqn:E; [|now exists 0].
    apply Z.ltb_lt in E. eexists. apply div_ok.
    unfold Qeq; simpl. lia. }
  destruct Havg as [a ->]. simpl. rewrite Ht. simpl.
  destruct (Math_max gpas) as [hi|], (Math_min gpas) as [lo|]; simpl;
    eexists; (split; [reflexivity|]); simpl; rewrite Hn, Hc, Hd;
    repeat split; reflexivity.
Qed.

(** X12. The totals of [calculateStatistics] agree with the other views
    of the session: [totalCourses] is the number of courses,
    [gradeDistribution] is what [calculateGradeDistribution] returns, and
    [totalCredits] is the [creditsCompleted] of [calculateTargetGPA] and
    the "Completed" value of [getCreditsBreakdown]. *)
Theorem X12_statistics_totals_agree_with_other_views :
  forall (session : Session) (targetCGPA creditsRemaining : Q),
    exists st out remaining,
      calculateStatistics session = Ok st /\
      calculateTargetGPA session targetCGPA creditsRemaining = Ok out /\
      Statistics.totalCourses st =
        Z.of_nat (List.length (pooled_courses (Session.semesters session))) /\
      Statistics.gradeDistribution st =
        calculateGradeDistribution (Session.semesters session) /\
      TargetCalculation.creditsCompleted out = Statistics.totalCredits st /\
      getCreditsBreakdown session =
        [ CreditsPoint.mk "Completed" (Statistics.totalCredits st) "#6366f1";
          remaining ].
Proof.
  intros session targetCGPA creditsRemaining.
  destruct (calculateStatistics_fields session) as [st [Hst [Hn [Hc [Hd _]]]]].
  exists st. eexists. eexists. split; [exact Hst|].
  split; [apply calculateTargetGPA_unfold|]. simpl.
  split; [exact Hn|]. split; [exact Hd|]. split; [now rewrite Hc|].
  unfold getCreditsBreakdown. rewrite Hc. reflexivity.
Qed.

Lemma fold_Qmax_spec (l : list Q) (x : Q) :
  In (fold_left Qmax l x) (x :: l) /\
  Forall (fun y => y <= fold_left Qmax l x) (x :: l).
Proof.
  revert x. induction l as [|y l IH]; intros x; simpl.
  - split; [now left|]. constructor; [lra | constructor].
  - destruct (IH (Qmax x y)) as [Hin Hall].
    apply Forall_cons_iff in Hall as [Hm Hl].
    assert (Hx : x <= Qmax x y /\ y <= Qmax x y).
    { unfold Qmax. destruct (leb x y) eqn:E.
      - apply leb_true_iff in E. split; lra.
      - apply leb_false_iff in E. split; lra. }
    split.
    + destruct Hin as [Hin|Hin]; [|now right; right].
      rewrite <- Hin. unfold Qmax. destruct (leb x y); [right; now left | now left].
    + constructor; [lra|]. constructor; [lra | exact Hl].
Qed.

Lemma fold_Qmin_spec (l : list Q) (x : Q) :
  In (fold_left Qmin l x) (x :: l) /\
  Forall (fun y => fold_left Qmin l x <= y) (x :: l).
Proof.
  revert x. induction l as [|y l IH]; intros x; simpl.
  - split; [now left|]. constructor; [lra | constructor].
  - destruct (IH (Qmin x y)) as [Hin Hall].
    apply Forall_cons_iff in Hall as [Hm Hl].
    assert (Hx : Qmin x y <= x /\ Qmin x y <= y).
    { unfold Qmin. destruct (leb x y) eqn:E.
      - apply leb_true_iff in E. split; lra.
      - apply leb_false_iff in E. split; lra. }
    split.
    + destruct Hin as [Hin|Hin]; [|now right; right].
      rewrite <- Hin. unfold Qmin. destruct (leb x y); [now left | right; now left].
    + constructor; [lra|]. constructor; [lra | exact Hl].
Qed.

(** X13. [calculateStatistics] reports no highest and no lowest GPA when
    no semester has an effective GPA.  Otherwise the highest it reports
    is what [roundForDisplay] returns on the GPA of a best semester, the
    lowest what it returns on the GPA of a worst one; the lowest is at
    most the highest, and what [roundForDisplay] returns on the GPA of
    any semester lies between them. *)
Theorem X13_statistics_highest_lowest :
  forall session : Session,
    let gpas := gpas_in_list_order (Session.semesters session) in
    exists st,
      calculateStatistics session = Ok st /\
      (gpas = [] ->
       Statistics.highestSemesterGPA st = None /\
       Statistics.lowestSemesterGPA st = None) /\
      (gpas <> [] ->
       exists best worst,
         In best gpas /\ In worst gpas /\
         (forall g, In g gpas -> worst <= g <= best) /\
         roundForDisplay (Some best) = Ok (Statistics.highestSemesterGPA st) /\
         roundForDisplay (Some worst) = Ok (Statistics.lowestSemesterGPA st) /\
         exists hi lo,
           Statistics.highestSemesterGPA st = Some hi /\
           Statistics.lowestSemesterGPA st = Some lo /\
           lo <= hi /\
           forall g, In g gpas ->
                     exists r, roundForDisplay (Some g) = Ok (Some r) /\ lo <= r <= hi).
Proof.
  intros session gpas.
  destruct (calculateStatistics_fields session) as [st [Hst [_ [_ [_ [Hhi Hlo]]]]]].
  fold gpas in Hhi, Hlo. exists st. split; [exact Hst|]. split.
  - intros E. rewrite E in Hhi, Hlo. now split.
  - intros Hne. destruct gpas as [|x l]; [congruence|].
    simpl in Hhi, Hlo.
    destruct (fold_Qmax_spec l x) as [Hbest Hmax].
    destruct (fold_Qmin_spec l x) as [Hworst Hmin].
    exists (fold_left Qmax l x), (fold_left Qmin l x).
    split; [exact Hbest|]. split; [exact Hworst|].
    split.
    { intros g Hg. split.
      - exact (proj1 (Forall_forall _ _) Hmin g Hg).
      - exact (proj1 (Forall_forall _ _) Hmax g Hg). }
    split; [rewrite Hhi; reflexivity|]. split; [rewrite Hlo; reflexivity|].
    exists (round2 (fold_left Qmax l x)), (round2 (fold_left Qmin l x)).
    split; [exact Hhi|]. split; [exact Hlo|].
    assert (Hall : forall g, In g (x :: l) ->
              round2 (fold_left Qmin l x) <= round2 g <= round2 (fold_left Qmax l x)).
    { intros g Hg. split; apply round2_monotone.
      - exact (proj1 (Forall_forall _ _) Hmin g Hg).
      - exact (proj1 (Forall_forall _ _) Hmax g Hg). }
    split.
    + destruct (Hall x (or_introl eq_refl)). lra.
    + intros g Hg. exists (round2 g). split; [reflexivity | exact (Hall g Hg)].
Qed.

Lemma X13_witness :
  let session := Session.mk [manual_semester 1 6; manual_semester 2 8] 10 in
  gpas_in_list_order (Session.semesters session) <> [] /\
  exists st hi lo,
    calculateStatistics session = Ok st /\
    Statistics.highestSemesterGPA st = Some hi /\
    Statistics.lowestSemesterGPA st = Some lo /\
    lo <= hi.
Proof.
  intros session.
  assert (Hne : gpas_in_list_order (Session.semesters session) <> [])
    by (vm_compute; discriminate).
  split; [exact Hne|].
  destruct (X13_statistics_highest_lowest session) as [st [Hst [_ Hsome]]].
  destruct (Hsome Hne) as [best [worst [_ [_ [_ [_ [_ [hi [lo [Hhi [Hlo [Hle _]]]]]]]]]]]].
  exists st, hi, lo. repeat split; assumption.
Defined.

(** ** The grade histogram *)

Lemma calculateGradeDistribution_bump (semesters : list Semester) :
  calculateGradeDistribution semesters =
  fold_left bump (grades_of_semesters semesters) [].
Proof.
  unfold calculateGradeDistribution, grades_of_semesters.
  generalize (@nil (string * slot)).
  induction semesters as [|s l IH]; intros d; simpl; [reflexivity|].
  now rewrite fold_left_app, IH, count_grades_bump.
Qed.

Lemma count_total_assign_next (h : histogram) (g : string) :
  ordinary g = true ->
  Forall (fun kv => is_count (snd kv) = true) h ->
  count_total (assign_next h g) = (count_total h + 1)%Z /\
  Forall (fun kv => is_count (snd kv) = true) (assign_next h g).
Proof.
  intros Hg. pose proof (slot_after_ordinary g 1 Hg) as H1.
  rewrite <- first_one_slot_after in H1.
  induction 1 as [|[k v] h Hv Hall [IHt IHa]]; simpl.
  - rewrite H1. split; [reflexivity | repeat constructor].
  - simpl in Hv. destruct (String.eqb k g); simpl.
    + destruct v as [n|ones]; [|discriminate Hv]. simpl.
      split; [lia | now constructor].
    + rewrite IHt. split; [lia | now constructor].
Qed.

Lemma count_total_fold (gs : list string) (h : histogram) :
  Forall (fun g => ordinary g = true) gs ->
  Forall (fun kv => is_count (snd kv) = true) h ->
  count_total (fold_left bump gs h) = (count_total h + Z.of_nat (List.length gs))%Z.
Proof.
  intros Hgs. revert h. induction Hgs as [|g gs Hg _ IH]; intros h Hh; simpl; [lia|].
  unfold bump at 2. rewrite (ordinary_not_proto g Hg).
  destruct (count_total_assign_next h g Hg Hh) as [Ht Ha].
  rewrite (IH _ Ha), Ht. lia.
Qed.

(** X14. The histogram of [calculateGradeDistribution] has distinct keys:
    the distinct letter grades of the courses, [__proto__] apart.  Under
    a grade that [Object.prototype] does not define it holds the number of
    courses with that grade, and when every grade is such, the counts add
    up to the number of courses that have a letter grade. *)
Theorem X14_calculateGradeDistribution_counts :
  forall semesters : list Semester,
    let h := calculateGradeDistribution semesters in
    let grades := grades_of_semesters semesters in
    NoDup (map fst h) /\
    (forall g, In g (map fst h) <-> In g grades /\ g <> "__proto__"%string) /\
    (forall g v, ordinary g = true ->
                 (In (g, v) h <->
                  In g grades /\ v = Count (Z.of_nat (count_occ string_dec grades g)))) /\
    (Forall (fun g => ordinary g = true) grades ->
     Forall (fun kv => exists n, snd kv = Count n /\ (1 <= n)%Z) h /\
     count_total h = Z.of_nat (List.length grades)).
Proof.
  intros semesters h grades.
  assert (Hh : h = fold_left bump grades []) by apply calculateGradeDistribution_bump.
  destruct (histogram_slots grades) as [Hnd Hl]. rewrite <- Hh in Hnd, Hl.
  split; [exact Hnd|]. split; [|split].
  - intros g. split.
    + intros Hin. apply in_map_iff in Hin as [[k v] [Hk Hkv]]. simpl in Hk. subst k.
      apply (lookup_In h g v Hnd) in Hkv. rewrite Hl in Hkv.
      destruct (String.eqb g "__proto__") eqn:E; [discriminate|].
      apply String.eqb_neq in E.
      destruct (in_dec string_dec g grades); [now split | discriminate].
    + intros [Hin Hne]. apply String.eqb_neq in Hne.
      apply in_map_iff. exists (g, slot_after g (count_occ string_dec grades g)).
      split; [reflexivity|]. apply (lookup_In h g _ Hnd). rewrite Hl, Hne.
      destruct (in_dec string_dec g grades); [reflexivity | contradiction].
  - intros g v Hg. rewrite (lookup_In h g v Hnd), Hl, (ordinary_not_proto g Hg).
    rewrite (slot_after_ordinary g _ Hg).
    destruct (in_dec string_dec g grades) as [Hin|Hnin].
    + split; [intros E; injection E as <-; now split | intros [_ ->]; reflexivity].
    + split; [discriminate | intros [Hin _]; contradiction].
  - intros Hord. split.
    + destruct (histogram_counts grades Hord) as [_ Hc]. rewrite <- Hh in Hc.
      apply Forall_forall. intros [g v] Hin. apply Hc in Hin as [Hin ->]. simpl.
      eexists. split; [reflexivity|].
      apply (count_occ_In string_dec) in Hin. lia.
    + rewrite Hh, count_total_fold; [simpl; lia | exact Hord | constructor].
Qed.

Lemma X14_witness :
  let semesters :=
    [semester_of [graded_course "A"; graded_course "__proto__"; graded_course "A"]
       None None] in
  ordinary "A" = true /\
  In ("A"%string, Count 2) (calculateGradeDistribution semesters) /\
  ~ In "__proto__"%string (map fst (calculateGradeDistribution semesters)).
Proof.
  intros semesters.
  assert (Ha : ordinary "A" = true) by reflexivity.
  destruct (X14_calculateGradeDistribution_counts semesters) as [_ [Hkeys [Hcount _]]].
  split; [exact Ha|]. split.
  - apply (Hcount "A"%string (Count 2) Ha).
    split; [now left | reflexivity].
  - intros Hin. apply Hkeys in Hin as [_ Hne]. now apply Hne.
Defined.

(** ** The stable sorts *)

Section InsertSorted.

Context {A : Type} (skip : A -> A -> bool) (R : A -> A -> Prop).

Hypothesis skip_true : forall x y, skip x y = true -> R y x.
Hypothesis skip_false : forall x y, skip x y = false -> R x y.
Hypothesis R_trans : forall a b c, R a b -> R b c -> R a c.

Lemma insert_sorted_perm (x : A) (l : list A) :
  Permutation (insert_sorted skip x l) (x :: l).
Proof.
  induction l as [|y l IH]; simpl; [reflexivity|].
  destruct (skip x y); [|reflexivity].
  rewrite IH. apply perm_swap.
Qed.

Lemma insert_sorted_sorted (x : A) (l : list A) :
  StronglySorted R l -> StronglySorted R (insert_sorted skip x l).
Proof.
  induction 1 as [|y l Hs IH Hy]; simpl.
  - constructor; constructor.
  - destruct (skip x y) eqn:E.
    + constructor; [exact IH|].
      apply Forall_forall. intros z Hz.
      apply (Permutation_in _ (insert_sorted_perm x l)) in Hz as [<-|Hz].
      * now apply skip_true.
      * exact (proj1 (Forall_forall _ _) Hy z Hz).
    + apply skip_false in E. constructor; [now constructor|].
      constructor; [exact E|].
      apply Forall_forall. intros z Hz. apply (R_trans _ y); [exact E|].
      exact (proj1 (Forall_forall _ _) Hy z Hz).
Qed.

Lemma sort_sorted (l : list A) :
  StronglySorted R (fold_right (insert_sorted skip) [] l).
Proof.
  induction l as [|x l IH]; simpl; [constructor|].
  now apply insert_sorted_sorted.
Qed.

Lemma sort_perm (l : list A) :
  Permutation (fold_right (insert_sorted skip) [] l) l.
Proof.
  induction l as [|x l IH]; simpl; [reflexivity|].
  rewrite insert_sorted_perm. now apply perm_skip.
Qed.

End InsertSorted.

Lemma StronglySorted_app_inv {A : Type} (R : A -> A -> Prop) (l1 l2 : list A) :
  StronglySorted R (l1 ++ l2) ->
  StronglySorted R l1 /\ forall a b, In a l1 -> In b l2 -> R a b.
Proof.
  induction l1 as [|x l1 IH]; simpl; intros H.
  - split; [constructor | contradiction].
  - apply StronglySorted_inv in H as [Hs Hx]. destruct (IH Hs) as [Hs1 Hcross].
    apply Forall_app in Hx as [Hx1 Hx2]. split; [now constructor|].
    intros a b [<-|Ha] Hb.
    + exact (proj1 (Forall_forall _ _) Hx2 b Hb).
    + now apply Hcross.
Qed.

Lemma StronglySorted_map {A B : Type} (R : A -> A -> Prop) (R' : B -> B -> Prop)
    (f : A -> B) (l : list A) :
  (forall a b, R a b -> R' (f a) (f b)) ->
  StronglySorted R l -> StronglySorted R' (map f l).
Proof.
  intros Hf. induction 1 as [|x l Hs IH Hx]; simpl; constructor; [exact IH|].
  apply Forall_map. eapply Forall_impl; [|exact Hx]. intros a. apply Hf.
Qed.

(** Points that all hold a count are sorted into non-increasing order. *)
Lemma insert_desc_counts (p : ChartDataPoint.t) (l : list ChartDataPoint.t) :
  is_count (ChartDataPoint.value p) = true ->
  Forall (fun q => is_count (ChartDataPoint.value q) = true) l ->
  StronglySorted value_descending l ->
  StronglySorted value_descending (insert_desc p l).
Proof.
  intros Hp Hall Hs. induction Hs as [|y l Hs IH Hy]; simpl.
  - constructor; constructor.
  - apply Forall_cons_iff in Hall as [Hcy Hall].
    unfold sorts_behind. unfold is_count in *.
    destruct (ChartDataPoint.value p) as [x|] eqn:Ex; [|discriminate Hp].
    destruct (ChartDataPoint.value y) as [z|] eqn:Ey; [|discriminate Hcy].
    destruct (x <? z)%Z eqn:E.
    + apply Z.ltb_lt in E. constructor; [exact (IH Hall)|].
      apply Forall_forall. intros q Hq.
      apply (Permutation_in _ (insert_desc_perm p l)) in Hq as [<-|Hq].
      * unfold value_descending. rewrite Ex, Ey. simpl. lia.
      * exact (proj1 (Forall_forall _ _) Hy q Hq).
    + apply Z.ltb_ge in E. constructor; [now constructor|].
      constructor; [unfold value_descending; rewrite Ex, Ey; simpl; lia|].
      apply Forall_forall. intros q Hq.
      pose proof (proj1 (Forall_forall _ _) Hy q Hq) as Hyq.
      unfold value_descending in *. rewrite Ex. rewrite Ey in Hyq. simpl in *. lia.
Qed.

Lemma sort_desc_counts (l : list ChartDataPoint.t) :
  Forall (fun q => is_count (ChartDataPoint.value q) = true) l ->
  StronglySorted value_descending (sort_desc l).
Proof.
  unfold sort_desc. induction 1 as [|x l Hx Hall IH]; simpl; [constructor|].
  apply insert_desc_counts; [exact Hx | | exact IH].
  apply Forall_forall. intros q Hq.
  apply (Permutation_in _ (sort_desc_perm l)) in Hq.
  exact (proj1 (Forall_forall _ _) Hall q Hq).
Qed.

(** The buckets when the manual-entry branch is not taken and every grade
    is one the histogram counts. *)
Lemma histogram_buckets (session : Session) :
  Forall (fun g => ordinary g = true) (all_grades session) ->
  let points := map bucket_of (Object_entries (session_histogram session)) in
  Forall (fun q => is_count (ChartDataPoint.value q) = true) points /\
  NoDup (map ChartDataPoint.name (sort_desc points)) /\
  forall p, In p (sort_desc points) <->
            exists g, In g (all_grades session) /\
                      p = ChartDataPoint.mk g (Count (occurrences session g))
                            (Count (occurrences session g)).
Proof.
  intros Hord points. set (h := session_histogram session).
  assert (Hperm : Permutation (sort_desc points) (map bucket_of h)).
  { unfold points. rewrite sort_desc_perm. apply Permutation_map, Object_entries_perm. }
  destruct (histogram_counts (all_grades session) Hord) as [Hnd Hc].
  rewrite <- session_histogram_bump in Hnd, Hc. fold h in Hnd, Hc.
  split; [|split].
  - apply Forall_forall. intros q Hq.
    apply (Permutation_in _ (Permutation_sym (sort_desc_perm points))) in Hq.
    apply (Permutation_in _ Hperm) in Hq.
    apply in_map_iff in Hq as [[g v] [<- Hgv]]. apply Hc in Hgv as [_ ->]. reflexivity.
  - eapply Permutation_NoDup.
    + apply Permutation_map. symmetry. exact Hperm.
    + rewrite map_map. exact Hnd.
  - intros p. split.
    + intros Hin. apply (Permutation_in _ Hperm) in Hin.
      apply in_map_iff in Hin as [[g v] [<- Hgv]].
      apply Hc in Hgv as [Hg ->]. exists g. split; [exact Hg | reflexivity].
    + intros [g [Hg ->]]. apply (Permutation_in _ (Permutation_sym Hperm)).
      apply in_map_iff. exists (g, Count (occurrences session g)).
      split; [reflexivity|]. apply Hc. split; [exact Hg | reflexivity].
Qed.

(** X15. [getGradeDistribution].  When no course has a letter grade and
    some semester has a [manualGPA] set, it returns the single bucket
    "Manual Entry", of value 1, its count the number of semesters with a
    non-zero [manualGPA].  Otherwise, when no grade is a name that
    [Object.prototype] defines, it returns exactly one bucket per
    distinct letter grade, whose value and count are the number of
    courses with that grade, in non-increasing order of the count. *)
Theorem X15_getGradeDistribution_buckets_sorted :
  (forall session : Session,
      no_letter_grades session -> has_manual_entry session ->
      getGradeDistribution session =
      Ok [ChartDataPoint.mk "Manual Entry" (Count 1)
            (Count (Z.of_nat (List.length
                      (filter (fun s => truthy_num (Semester.manualGPA s))
                              (Session.semesters session)))))]) /\
  (forall session : Session,
      Forall (fun g => ordinary g = true) (all_grades session) ->
      ~ (no_letter_grades session /\ has_manual_entry session) ->
      exists points,
        getGradeDistribution session = Ok points /\
        StronglySorted value_descending points /\
        NoDup (map ChartDataPoint.name points) /\
        forall p, In p points <->
                  exists g, In g (all_grades session) /\
                            p = ChartDataPoint.mk g (Count (occurrences session g))
                                  (Count (occurrences session g))).
Proof.
  split.
  - intros session Hno Hman. unfold getGradeDistribution.
    apply no_letter_grades_iff in Hno. apply has_manual_entry_iff in Hman.
    rewrite session_histogram_bump, Hno, Hman. reflexivity.
  - intros session Hord Hnot.
    assert (Hbranch : no_keys (session_histogram session)
                      && existsb has_manualGPA (Session.semesters session) = false).
    { apply not_true_is_false. intros Hb. apply andb_true_iff in Hb as [Hk Hm].
      apply Hnot. split; [|now apply has_manual_entry_iff].
      apply no_letter_grades_iff.
      destruct (histogram_counts (all_grades session) Hord) as [_ Hc].
      rewrite <- session_histogram_bump in Hc.
      destruct (all_grades session) as [|g gs]; [reflexivity|].
      exfalso.
      destruct (session_histogram session); [|discriminate Hk].
      apply (proj2 (Hc g (Count (Z.of_nat (count_occ string_dec (g :: gs) g))))).
      split; [now left | reflexivity]. }
    destruct (histogram_buckets session Hord) as [Hcounts [Hnd Hin]].
    eexists. split; [|split; [|split; [exact Hnd | exact Hin]]].
    + unfold getGradeDistribution. rewrite Hbranch. unfold sort_by_value.
      unfold consistent_comparator.
      rewrite (proj2 (forallb_forall _ _)); [reflexivity|].
      intros q Hq. exact (proj1 (Forall_forall _ _) Hcounts q Hq).
    + now apply sort_desc_counts.
Qed.

Lemma X15_witness :
  let manual := Session.mk [semester_of [] (Some 8) (Some 20)] 10 in
  let lettered :=
    Session.mk [semester_of [graded_course "A"; graded_course "B"; graded_course "A"]
                  None None] 10 in
  no_letter_grades manual /\ has_manual_entry manual /\
  Forall (fun g => ordinary g = true) (all_grades lettered) /\
  ~ (no_letter_grades lettered /\ has_manual_entry lettered) /\
  getGradeDistribution manual =
    Ok [ChartDataPoint.mk "Manual Entry" (Count 1) (Count 1)] /\
  exists points,
    getGradeDistribution lettered = Ok points /\
    In (ChartDataPoint.mk "A" (Count 2) (Count 2)) points.
Proof.
  intros manual lettered.
  assert (Hno : no_letter_grades manual).
  { intros s c [<-|[]] []. }
  assert (Hman : has_manual_entry manual).
  { eexists. split; [left; reflexivity | discriminate]. }
  assert (Hord : Forall (fun g => ordinary g = true) (all_grades lettered)).
  { repeat constructor. }
  assert (Hnot : ~ (no_letter_grades lettered /\ has_manual_entry lettered)).
  { intros [H _]. apply no_letter_grades_iff in H. discriminate H. }
  split; [exact Hno|]. split; [exact Hman|]. split; [exact Hord|].
  split; [exact Hnot|]. split.
  - rewrite (proj1 X15_getGradeDistribution_buckets_sorted manual Hno Hman). reflexivity.
  - destruct (proj2 X15_getGradeDistribution_buckets_sorted lettered Hord Hnot)
      as [points [Hout [_ [_ Hin]]]].
    exists points. split; [exact Hout|]. apply Hin.
    exists "A"%string. split; [now left | reflexivity].
Defined.

Lemma insert_by_gradePoint_generic (e : string * Q) (l : list (string * Q)) :
  insert_by_gradePoint e l = insert_sorted (fun e e' => ltb (snd e) (snd e')) e l.
Proof. induction l as [|q l IH]; simpl; [reflexivity | now rewrite IH]. Qed.

Lemma sort_by_gradePoint_generic (l : list (string * Q)) :
  sort_by_gradePoint l =
  fold_right (insert_sorted (fun e e' => ltb (snd e) (snd e'))) [] l.
Proof.
  unfold sort_by_gradePoint. induction l as [|x l IH]; simpl; [reflexivity|].
  now rewrite IH, insert_by_gradePoint_generic.
Qed.

Lemma sort_by_gradePoint_sorted (l : list (string * Q)) :
  StronglySorted gradePoint_descending (sort_by_gradePoint l).
Proof.
  rewrite sort_by_gradePoint_generic. apply sort_sorted; unfold gradePoint_descending.
  - intros x y H. apply ltb_true_iff in H. lra.
  - intros x y H. now apply ltb_false_iff in H.
  - intros a b c. lra.
Qed.

Lemma sort_by_gradePoint_perm (l : list (string * Q)) :
  Permutation (sort_by_gradePoint l) l.
Proof. rewrite sort_by_gradePoint_generic. apply sort_perm. Qed.

Lemma length_string_append (s1 s2 : string) :
  String.length (s1 ++ s2) = (String.length s1 + String.length s2)%nat.
Proof. induction s1 as [|c s1 IH]; simpl; [reflexivity | now rewrite IH]. Qed.

Lemma length_substring_prefix (n : nat) (s : string) :
  String.length (substring 0 n s) = Nat.min n (String.length s).
Proof.
  revert s. induction n as [|n IH]; intros s; simpl.
  - now destruct s.
  - destruct s as [|c s]; simpl; [reflexivity | now rewrite IH].
Qed.

Lemma elide_length (name : string) : (String.length (elide name) <= 28)%nat.
Proof.
  unfold elide. destruct (25 <? String.length name)%nat eqn:E.
  - apply Nat.ltb_lt in E. rewrite length_string_append, length_substring_prefix.
    change (String.length "...") with 3%nat. lia.
  - apply Nat.ltb_ge in E. lia.
Qed.

(** X16. For a count of at least 0, [getTopCourses] returns the smaller
    of [count] and the number of graded courses; the points are in
    non-increasing order of grade point, every graded course left out has
    a grade point no higher than any course kept, and no name is longer
    than 28 characters. *)
Theorem X16_getTopCourses_keeps_the_best :
  forall (session : Session) (count : Z),
    (0 <= count)%Z ->
    let top := getTopCourses session count in
    List.length top = Nat.min (Z.to_nat count) (List.length (allCoursesOf session)) /\
    StronglySorted topValue_descending top /\
    Forall (fun p => (String.length (TopCoursePoint.name p) <= 28)%nat) top /\
    exists kept dropped,
      Permutation (kept ++ dropped) (allCoursesOf session) /\
      map TopCoursePoint.value top = map snd kept /\
      forall a b, In a kept -> In b dropped -> snd b <= snd a.
Proof.
  intros session count Hc top. unfold top, getTopCourses, slice_to.
  assert (Hneg : (count <? 0)%Z = false) by (apply Z.ltb_ge; lia).
  rewrite Hneg.
  set (n := Z.to_nat count). set (sorted := sort_by_gradePoint (allCoursesOf session)).
  pose proof (sort_by_gradePoint_sorted (allCoursesOf session)) as Hs. fold sorted in Hs.
  pose proof (sort_by_gradePoint_perm (allCoursesOf session)) as Hp. fold sorted in Hp.
  rewrite <- (firstn_skipn n sorted) in Hs.
  apply StronglySorted_app_inv in Hs as [Hkept Hcross].
  split; [|split; [|split]].
  - rewrite length_map, length_firstn, (Permutation_length Hp). reflexivity.
  - apply (StronglySorted_map gradePoint_descending); [|exact Hkept].
    intros a b H. exact H.
  - apply Forall_map. apply Forall_forall. intros e _. simpl. apply elide_length.
  - exists (firstn n sorted), (skipn n sorted). split; [|split].
    + now rewrite firstn_skipn.
    + rewrite map_map. reflexivity.
    + intros a b Ha Hb. exact (Hcross a b Ha Hb).
Qed.

Lemma X16_witness :
  let session :=
    Session.mk [semester_of [course_of 4 (Some 7); course_of 4 None;
                             course_of 3 (Some 9); course_of 2 (Some 8)] None None] 10 in
  (0 <= 2)%Z /\
  List.length (getTopCourses session 2) = 2%nat /\
  map TopCoursePoint.value (getTopCourses session 2) = [9; 8].
Proof.
  intros session.
  assert (Hc : (0 <= 2)%Z) by lia.
  split; [exact Hc|].
  destruct (X16_getTopCourses_keeps_the_best session 2 Hc) as [Hlen _].
  split; [exact Hlen | reflexivity].
Defined.


(** ** Progress metrics *)

Lemma progress_courses_fold (courses : list Course) (st : Z * Z) :
  fst (fold_left progress_course_step courses st) =
    (fst st + Z.of_nat (List.length courses))%Z /\
  snd (fold_left progress_course_step courses st) =
    (snd st + graded_count courses)%Z.
Proof.
  unfold graded_count. revert st.
  induction courses as [|c cs IH]; intros st; simpl.
  - split; lia.
  - destruct (IH (progress_course_step st c)) as [Hf Hs]. rewrite Hf, Hs.
    unfold progress_course_step. simpl.
    destruct (has_gradePoint c); simpl; split; lia.
Qed.

Lemma progress_fold (semesters : list Semester) (st : ProgressLoop.t) :
  let st' := fold_left progress_step semesters st in
  ProgressLoop.completedCredits st' =
    fold_left (fun acc s => acc + getSemesterCredits s) semesters
              (ProgressLoop.completedCredits st) /\
  ProgressLoop.totalCourses st' =
    (ProgressLoop.totalCourses st
     + Z.of_nat (List.length (pooled_courses semesters)))%Z /\
  ProgressLoop.coursesCompleted st' =
    (ProgressLoop.coursesCompleted st + graded_count (pooled_courses semesters))%Z /\
  ProgressLoop.semestersWithManualEntry st' =
    (ProgressLoop.semestersWithManualEntry st
     + Z.of_nat (List.length (filter manual_only semesters)))%Z.
Proof.
  revert st. induction semesters as [|s l IH]; intros st; simpl.
  - unfold graded_count. simpl. repeat split; lia.
  - destruct (IH (progress_step st s)) as [Hc [Ht [Hd Hm]]].
    rewrite Hc, Ht, Hd, Hm. clear IH Hc Ht Hd Hm.
    unfold progress_step. simpl.
    destruct (progress_courses_fold (Semester.courses s)
                (ProgressLoop.totalCourses st, ProgressLoop.coursesCompleted st))
      as [Hf Hs].
    rewrite Hf, Hs. simpl.
    unfold pooled_courses, graded_count, manual_only. simpl.
    rewrite filter_app, !length_app.
    split; [reflexivity|].
    destruct (Semester.courses s) as [|c cs]; simpl;
      destruct (Semester.manualGPA s); simpl; repeat split; lia.
Qed.

Lemma manual_only_without_courses (semesters : list Semester) :
  pooled_courses semesters = [] ->
  filter manual_only semesters = filter has_manualGPA semesters.
Proof.
  unfold pooled_courses. induction semesters as [|s l IH]; simpl; [reflexivity|].
  intros H. apply app_eq_nil in H as [Hs Hl]. rewrite (IH Hl).
  unfold manual_only, has_manualGPA. rewrite Hs. reflexivity.
Qed.

(** X18. For a non-zero credit requirement [getProgressMetrics] returns;
    the percentage is at most 100, the completed credits are the
    effective credits of all semesters, and the completed courses are at
    most the total.  When the session has courses, the two counts are
    the number of courses and of graded courses; when it has none, both
    are the number of semesters with a manual GPA. *)
Theorem X18_getProgressMetrics_counts :
  forall (session : Session) (totalCreditsRequired : Q),
    ~ totalCreditsRequired == 0 ->
    let courses := pooled_courses (Session.semesters session) in
    exists m,
      getProgressMetrics session totalCreditsRequired = Ok m /\
      ProgressMetrics.percentage m <= 100 /\
      ProgressMetrics.completedCredits m =
        creditsCompletedOf (Session.semesters session) /\
      (0 <= ProgressMetrics.coursesCompleted m <= ProgressMetrics.totalCourses m)%Z /\
      (courses <> [] ->
       ProgressMetrics.totalCourses m = Z.of_nat (List.length courses) /\
       ProgressMetrics.coursesCompleted m = graded_count courses) /\
      (courses = [] ->
       ProgressMetrics.totalCourses m = manual_semesters (Session.semesters session) /\
       ProgressMetrics.coursesCompleted m =
         manual_semesters (Session.semesters session)).
Proof.
  intros session required Hreq courses. unfold getProgressMetrics.
  destruct (progress_fold (Session.semesters session) (ProgressLoop.mk 0 0 0 0))
    as [Hc [Ht [Hd Hm]]].
  simpl in Hc, Ht, Hd, Hm. fold courses in Ht, Hd.
  set (st := fold_left progress_step (Session.semesters session)
                       (ProgressLoop.mk 0 0 0 0)) in *.
  rewrite (div_ok _ _ Hreq). simpl.
  eexists. split; [reflexivity|]. simpl.
  assert (Hgc : (0 <= graded_count courses <= Z.of_nat (List.length courses))%Z).
  { unfold graded_count. pose proof (filter_length_le has_gradePoint courses). lia. }
  split; [|split; [exact Hc|]].
  { unfold Qmin. destruct (leb 100 _) eqn:E; [lra|].
    apply leb_false_iff in E. lra. }
  rewrite Ht, Hd, Hm.
  destruct courses as [|c cs] eqn:Ecs.
  - rewrite (manual_only_without_courses _ Ecs). fold (manual_semesters (Session.semesters session)).
    unfold graded_count. simpl.
    assert (Hk : (0 <= manual_semesters (Session.semesters session))%Z)
      by (unfold manual_semesters; lia).
    destruct (0 <? manual_semesters (Session.semesters session))%Z eqn:Ek; simpl.
    + split; [lia|]. split; [intros C; congruence | intros _; split; reflexivity].
    + apply Z.ltb_ge in Ek. split; [lia|].
      split; [intros C; congruence | intros _; split; lia].
  - assert (Hz : (Z.of_nat (List.length (c :: cs)) =? 0)%Z = false)
      by (apply Z.eqb_neq; simpl; lia).
    rewrite Hz, andb_false_r.
    split; [lia|]. split; [intros _; split; lia | intros C; discriminate C].
Qed.

Lemma X18_witness :
  let session := Session.mk [semester_of [] (Some 8) (Some 20);
                             semester_of [] None None] 10 in
  ~ (160 : Q) == 0 /\
  exists m, getProgressMetrics session 160 = Ok m /\
            ProgressMetrics.totalCourses m = 1%Z /\
            ProgressMetrics.coursesCompleted m = 1%Z /\
            ProgressMetrics.percentage m <= 100.
Proof.
  intros session.
  assert (H : ~ (160 : Q) == 0) by (intros C; discriminate C).
  split; [exact H|].
  destruct (X18_getProgressMetrics_counts session 160 H)
    as [m [Hm [Hp [_ [_ [_ Hnone]]]]]].
  exists m. split; [exact Hm|].
  destruct (Hnone eq_refl) as [Ht Hd].
  split; [exact Ht|]. split; [exact Hd | exact Hp].
Defined.

(** ** The charts ordered by [order] *)

Lemma insert_by_order_generic (s : Semester) (l : list Semester) :
  insert_by_order s l =
  insert_sorted (fun s t => ltb (Semester.order t) (Semester.order s)) s l.
Proof. induction l as [|t l IH]; simpl; [reflexivity | now rewrite IH]. Qed.

Lemma sort_by_order_generic (l : list Semester) :
  sort_by_order l =
  fold_right (insert_sorted (fun s t => ltb (Semester.order t) (Semester.order s))) [] l.
Proof.
  unfold sort_by_order. induction l as [|x l IH]; simpl; [reflexivity|].
  now rewrite IH, insert_by_order_generic.
Qed.

Lemma sort_by_order_sorted (l : list Semester) :
  StronglySorted order_ascending (sort_by_order l).
Proof.
  rewrite sort_by_order_generic. apply sort_sorted; unfold order_ascending.
  - intros x y H. apply ltb_true_iff in H. lra.
  - intros x y H. now apply ltb_false_iff in H.
  - intros a b c. lra.
Qed.

Lemma sort_by_order_perm (l : list Semester) : Permutation (sort_by_order l) l.
Proof. rewrite sort_by_order_generic. apply sort_perm. Qed.

(** Two sorted lists with the same elements are equal when elements that
    tie are the same element. *)
Lemma sorted_perm_unique {A : Type} (R : A -> A -> Prop) (l1 l2 : list A) :
  (forall a, R a a) ->
  (forall a b, In a l1 -> In b l1 -> R a b -> R b a -> a = b) ->
  StronglySorted R l1 -> StronglySorted R l2 -> Permutation l1 l2 -> l1 = l2.
Proof.
  intros Hrefl. revert l2.
  induction l1 as [|a l1 IH]; intros l2 Hanti H1 H2 Hp.
  - now apply Permutation_nil in Hp.
  - destruct l2 as [|b l2].
    + apply Permutation_sym, Permutation_nil in Hp. discriminate.
    + apply StronglySorted_inv in H1 as [H1 Ha].
      apply StronglySorted_inv in H2 as [H2 Hb].
      assert (Hab : R a b).
      { assert (Hin : In b (a :: l1))
          by (apply (Permutation_in _ (Permutation_sym Hp)); now left).
        destruct Hin as [<-|Hin]; [apply Hrefl|].
        exact (proj1 (Forall_forall _ _) Ha b Hin). }
      assert (Hba : R b a).
      { assert (Hin : In a (b :: l2)) by (apply (Permutation_in _ Hp); now left).
        destruct Hin as [<-|Hin]; [apply Hrefl|].
        exact (proj1 (Forall_forall _ _) Hb a Hin). }
      assert (Heq : a = b).
      { apply Hanti; [now left | | exact Hab | exact Hba].
        apply (Permutation_in _ (Permutation_sym Hp)). now left. }
      subst b. f_equal. apply IH; [| exact H1 | exact H2 |].
      * intros x y Hx Hy. apply Hanti; now right.
      * now apply Permutation_cons_inv in Hp.
Qed.

Lemma sort_by_order_permutation (l l' : list Semester) :
  Permutation l l' -> orders_distinct l -> sort_by_order l = sort_by_order l'.
Proof.
  intros Hp Hd.
  apply (sorted_perm_unique order_ascending).
  - intros a. unfold order_ascending. lra.
  - intros a b Ha Hb Hab Hba. apply Hd.
    + now apply (Permutation_in _ (sort_by_order_perm l)).
    + now apply (Permutation_in _ (sort_by_order_perm l)).
    + unfold order_ascending in *. lra.
  - apply sort_by_order_sorted.
  - apply sort_by_order_sorted.
  - rewrite sort_by_order_perm, Hp. symmetry. apply sort_by_order_perm.
Qed.

(** X19. [getCGPATimeline] and [getSemesterComparison] walk the semesters
    in non-decreasing [order], whatever their position in the list; when
    no two different semesters share an [order], permuting the list of
    semesters changes neither result. *)
Theorem X19_charts_follow_order_field :
  forall (semesters semesters' : list Semester) (scale : Q),
    Permutation semesters semesters' ->
    orders_distinct semesters ->
    (exists chronological,
        StronglySorted order_ascending chronological /\
        Permutation chronological semesters /\
        getCGPATimeline (Session.mk semesters scale) =
          timeline_points chronological (0, 0) /\
        getSemesterComparison (Session.mk semesters scale) =
          mapM comparison_point chronological) /\
    getCGPATimeline (Session.mk semesters scale) =
    getCGPATimeline (Session.mk semesters' scale) /\
    getSemesterComparison (Session.mk semesters scale) =
    getSemesterComparison (Session.mk semesters' scale).
Proof.
  intros l l' scale Hp Hd. split; [|split].
  - exists (sort_by_order l).
    split; [apply sort_by_order_sorted|]. split; [apply sort_by_order_perm|].
    split; reflexivity.
  - unfold getCGPATimeline. simpl. now rewrite (sort_by_order_permutation l l' Hp Hd).
  - unfold getSemesterComparison. simpl.
    now rewrite (sort_by_order_permutation l l' Hp Hd).
Qed.

Lemma X19_witness :
  let early := manual_semester 1 6 in
  let late := manual_semester 2 8 in
  Permutation [early; late] [late; early] /\
  orders_distinct [early; late] /\
  getSemesterComparison (Session.mk [early; late] 10) =
  getSemesterComparison (Session.mk [late; early] 10) /\
  getCGPATimeline (Session.mk [early; late] 10) =
  getCGPATimeline (Session.mk [late; early] 10).
Proof.
  intros early late.
  assert (Hp : Permutation [early; late] [late; early]) by apply perm_swap.
  assert (Hd : orders_distinct [early; late]).
  { intros a b [<-|[<-|[]]] [<-|[<-|[]]] H; try reflexivity; discriminate H. }
  split; [exact Hp|]. split; [exact Hd|].
  destruct (X19_charts_follow_order_field _ _ 10 Hp Hd) as [_ [Ht Hc]].
  split; [exact Hc | exact Ht].
Defined.

(** ** Validation *)


(** ** The cross-semester solver *)

(** X23. When [calculateTargetGPA], asked about positive remaining
    credits, a non-negative target and non-negative completed credits,
    answers that the target is already achieved, the current CGPA is
    indeed above the target. *)
Theorem X23_already_achieved_message_is_truthful :
  forall (session : Session) (targetCGPA creditsRemaining : Q)
         (out : TargetCalculation.t) (shown : Q),
    0 < creditsRemaining ->
    0 <= targetCGPA ->
    0 <= creditsCompletedOf (Session.semesters session) ->
    calculateTargetGPA session targetCGPA creditsRemaining = Ok out ->
    TargetCalculation.message out = TargetAlreadyAchieved shown ->
    targetCGPA < currentCGPA_of session /\ shown = currentCGPA_of session /\
    TargetCalculation.feasible out = false.
Proof.
  intros session t rem out shown Hpos Ht Hc Hout Hmsg.
  rewrite calculateTargetGPA_unfold in Hout. injection Hout as <-.
  simpl in Hmsg. simpl.
  unfold required_unrounded in *. rewrite (proj2 (gtb_true_iff _ _) Hpos) in *.
  set (x := closed_form session t rem) in *.
  set (c := creditsCompletedOf (Session.semesters session)) in *.
  set (cur := currentCGPA_of session) in *.
  unfold target_message in Hmsg.
  destruct (leb x (scaleMax session) && geb x 0) eqn:Ef; simpl in Hmsg.
  { destruct (geb x (scaleMax session * (9 # 10))); [discriminate|].
    destruct (geb x (scaleMax session * (7 # 10))); discriminate. }
  destruct (gtb x (scaleMax session)) eqn:Eg; [discriminate|].
  injection Hmsg as <-. split; [|split; reflexivity].
  apply gtb_false_iff in Eg. apply andb_false_iff in Ef as [Ef|Ef].
  { apply leb_false_iff in Ef. lra. }
  apply geb_false_iff in Ef.
  assert (Hnum : t * (c + rem) - cur * c < 0).
  { assert (E : t * (c + rem) - cur * c == x * rem).
    { unfold x, closed_form. fold c cur. field. lra. }
    rewrite E. setoid_replace 0 with (0 * rem) by ring.
    apply Qmult_lt_compat_r; assumption. }
  destruct (Qlt_le_dec t cur) as [Hlt|Hge]; [exact Hlt|]. exfalso.
  assert (cur * c <= t * c) by (apply Qmult_le_compat_r; assumption).
  assert (0 <= t * rem) by (apply Qmult_le_0_compat; lra).
  lra.
Qed.

Lemma X23_witness :
  let session := Session.mk [semester_of [] (Some 9) (Some 60)] 10 in
  0 < 20 /\ 0 <= 6 /\ 0 <= creditsCompletedOf (Session.semesters session) /\
  exists out shown,
    calculateTargetGPA session 6 20 = Ok out /\
    TargetCalculation.message out = TargetAlreadyAchieved shown /\
    6 < currentCGPA_of session.
Proof.
  intros session.
  assert (H1 : 0 < 20) by lra.
  assert (H2 : 0 <= 6) by lra.
  assert (H3 : 0 <= creditsCompletedOf (Session.semesters session))
    by (vm_compute; discriminate).
  split; [exact H1|]. split; [exact H2|]. split; [exact H3|].
  assert (Hrun : exists out shown,
             calculateTargetGPA session 6 20 = Ok out /\
             TargetCalculation.message out = TargetAlreadyAchieved shown).
  { eexists. eexists. split; [vm_compute; reflexivity | reflexivity]. }
  destruct Hrun as [out [shown [Hout Hmsg]]].
  exists out, shown. split; [exact Hout|]. split; [exact Hmsg|].
  exact (proj1 (X23_already_achieved_message_is_truthful session 6 20 out shown
                  H1 H2 H3 Hout Hmsg)).
Defined.

(** ** The intra-semester solver without ungraded courses *)

(** X26. When no course of the semester is ungraded, the intra-semester
    solver recommends nothing; it reports the GPA of the courses and is
    feasible exactly when that GPA exists and is at least the target, so
    a semester without courses is never feasible. *)
Theorem X26_all_graded_semester :
  forall (semester : Semester) (targetGPA scale : Q),
    ungraded semester = [] ->
    exists out,
      calculateIntraSemesterTarget semester targetGPA scale = Ok out /\
      IntraSemesterTarget.recommendations out = [] /\
      calculateGPA (Semester.courses semester) =
        Ok (IntraSemesterTarget.currentSemesterGPA out) /\
      (IntraSemesterTarget.feasible out = true <->
       exists v, IntraSemesterTarget.currentSemesterGPA out = Some v /\ targetGPA <= v) /\
      (Semester.courses semester = [] -> IntraSemesterTarget.feasible out = false).
Proof.
  intros semester t scale Hnone.
  assert (Hall : graded semester = Semester.courses semester).
  { unfold graded, ungraded in *.
    induction (Semester.courses semester) as [|c cs IH]; simpl in *; [reflexivity|].
    destruct (has_gradePoint c); simpl in *; [f_equal; now apply IH | discriminate]. }
  unfold calculateIntraSemesterTarget. fold (graded semester) (ungraded semester).
  rewrite Hnone, Hall.
  destruct (calculateGPA_total (Semester.courses semester)) as [g Hg]. rewrite Hg. simpl.
  eexists. split; [reflexivity|]. simpl. split; [reflexivity|]. split; [reflexivity|].
  split.
  - destruct g as [v|].
    + rewrite geb_true_iff. split.
      * intros H. now exists v.
      * intros [v' [E H]]. now injection E as <-.
    + split; [discriminate | intros [v [E _]]; discriminate E].
  - intros E. rewrite E in Hg. vm_compute in Hg. injection Hg as <-. reflexivity.
Qed.

Lemma X26_witness :
  let semester := semester_of [course_of 4 (Some 8)] None None in
  ungraded semester = [] /\
  exists out,
    calculateIntraSemesterTarget semester 9 10 = Ok out /\
    IntraSemesterTarget.recommendations out = [] /\
    IntraSemesterTarget.feasible out = false.
Proof.
  intros semester.
  assert (H : ungraded semester = []) by reflexivity.
  split; [exact H|].
  destruct (X26_all_graded_semester semester 9 10 H) as [out [Hout [Hrec [Hg [Hf _]]]]].
  exists out. split; [exact Hout|]. split; [exact Hrec|].
  destruct (IntraSemesterTarget.feasible out) eqn:E; [|reflexivity].
  exfalso. destruct (proj1 Hf eq_refl) as [v [Hv Hle]].
  rewrite Hv in Hg. vm_compute in Hg. injection Hg as <-.
  revert Hle. unfold Qle. simpl. lia.
Defined.

(** ** Editing a session *)

Lemma filter_all_true {A : Type} (f : A -> bool) (l : list A) :
  Forall (fun x => f x = true) l -> filter f l = l.
Proof. induction 1 as [|x l Hx _ IH]; simpl; [reflexivity | now rewrite Hx, IH]. Qed.

Lemma with_courses_same (s : Semester) : with_courses s (Semester.courses s) = s.
Proof. now destruct s. Qed.

Lemma with_semesters_same (session : Session) :
  with_semesters session (Session.semesters session) = session.
Proof. now destruct session. Qed.

Lemma gpas_in_list_order_app (l l' : list Semester) :
  gpas_in_list_order (l ++ l') = gpas_in_list_order l ++ gpas_in_list_order l'.
Proof. unfold gpas_in_list_order. apply flat_map_app. Qed.

(** X27. [addSemester] appends one semester, whose [order] is the number
    of semesters there were; the new semester changes neither the CGPA
    nor the GPAs the trend is computed from nor the completed credits;
    and when its id is new, deleting it again restores the session. *)
Theorem X27_addSemester_is_neutral :
  forall (now : string) (session : Session),
    let session' := addSemester now session in
    (exists added,
        Session.semesters session' = Session.semesters session ++ [added] /\
        Semester.id added = new_semester_id now /\
        Semester.order added ==
          inject_Z (Z.of_nat (List.length (Session.semesters session)))) /\
    calculateCGPA (Session.semesters session') =
      calculateCGPA (Session.semesters session) /\
    gpas_in_list_order (Session.semesters session') =
      gpas_in_list_order (Session.semesters session) /\
    creditsCompletedOf (Session.semesters session') ==
      creditsCompletedOf (Session.semesters session) /\
    (fresh_id (new_semester_id now) session ->
     deleteSemester (new_semester_id now) session' = session).
Proof.
  intros now session session'. unfold session', addSemester. simpl.
  split; [|split; [|split; [|split]]].
  - eexists. split; [reflexivity|]. split; reflexivity.
  - unfold calculateCGPA. now rewrite fold_left_app.
  - rewrite gpas_in_list_order_app. simpl. apply app_nil_r.
  - unfold creditsCompletedOf. rewrite fold_left_app.
    match goal with
    | |- fold_left ?f [?s] ?a == _ =>
        change (fold_left f [s] a) with (a + getSemesterCredits s);
        change (getSemesterCredits s) with 0
    end.
    ring.
  - intros Hfresh. unfold deleteSemester, with_semesters. simpl.
    rewrite filter_app. simpl. fold (new_semester_id now).
    rewrite String.eqb_refl. simpl. rewrite app_nil_r.
    rewrite filter_all_true; [now destruct session|].
    apply Forall_forall. intros s Hs. apply negb_true_iff, String.eqb_neq.
    now apply Hfresh.
Qed.

Lemma X27_witness :
  let session := Session.mk [semester_of [course_of 4 (Some 8)] None None] 10 in
  fresh_id (new_semester_id "1700000000000") session /\
  deleteSemester (new_semester_id "1700000000000")
                 (addSemester "1700000000000" session) = session.
Proof.
  intros session.
  assert (H : fresh_id (new_semester_id "1700000000000") session).
  { intros s [<-|[]]. discriminate. }
  split; [exact H|].
  exact (proj2 (proj2 (proj2 (proj2
           (X27_addSemester_is_neutral "1700000000000" session)))) H).
Defined.

Lemma remove_at_last {A : Type} (l : list A) (x : A) :
  remove_at (List.length l) (l ++ [x]) = l.
Proof. induction l as [|y l IH]; simpl; [reflexivity | now rewrite IH]. Qed.

Lemma remove_at_beyond {A : Type} (i : nat) (l : list A) :
  (List.length l <= i)%nat -> remove_at i l = l.
Proof.
  revert i. induction l as [|y l IH]; intros i H; [now destruct i|].
  destruct i as [|i]; simpl in H; [lia|]. simpl. rewrite IH; [reflexivity | lia].
Qed.

Lemma replace_at_beyond {A : Type} (i : nat) (y : A) (l : list A) :
  (List.length l <= i)%nat -> replace_at i y l = l.
Proof.
  revert i. induction l as [|z l IH]; intros i H; [now destruct i|].
  destruct i as [|i]; simpl in H; [lia|]. simpl. rewrite IH; [reflexivity | lia].
Qed.

Lemma map_same_in {A : Type} (f : A -> A) (l : list A) :
  (forall x, In x l -> f x = x) -> map f l = l.
Proof.
  induction l as [|x l IH]; intros H; simpl; [reflexivity|].
  rewrite H by now left. rewrite IH; [reflexivity|]. intros y Hy. apply H. now right.
Qed.

(** X28. Deleting the course that [addCourse] has just appended (its
    index is the number of courses the semester had) restores the
    session; and [deleteCourse] and [updateCourse] at an index beyond the
    last course of the semester leave the session unchanged. *)
Theorem X28_course_edits_round_trip :
  forall (semesterId : string) (session : Session),
    (forall (course : Course) (n : nat),
        (forall s, In s (Session.semesters session) ->
                   Semester.id s = semesterId ->
                   List.length (Semester.courses s) = n) ->
        deleteCourse semesterId n (addCourse semesterId course session) = session) /\
    (forall (i : nat) (course : Course),
        (forall s, In s (Session.semesters session) ->
                   Semester.id s = semesterId ->
                   (List.length (Semester.courses s) <= i)%nat) ->
        deleteCourse semesterId i session = session /\
        updateCourse semesterId i course session = session).
Proof.
  intros semesterId session. split.
  - intros course n Hlen. unfold deleteCourse, addCourse, with_semesters. simpl.
    rewrite map_map, map_same_in; [now destruct session|].
    intros s Hs. destruct (String.eqb (Semester.id s) semesterId) eqn:E.
    + simpl. rewrite E. unfold with_courses at 1. simpl.
      apply String.eqb_eq in E. rewrite <- (Hlen s Hs E), remove_at_last.
      apply with_courses_same.
    + now rewrite E.
  - intros i course Hlen. unfold deleteCourse, updateCourse, with_semesters.
    split; (rewrite map_same_in; [now destruct session|]);
      intros s Hs; destruct (String.eqb (Semester.id s) semesterId) eqn:E;
      try reflexivity; apply String.eqb_eq in E.
    + rewrite remove_at_beyond by now apply Hlen. apply with_courses_same.
    + rewrite replace_at_beyond by now apply Hlen. apply with_courses_same.
Qed.

Lemma X28_witness :
  let session := Session.mk [semester_of [course_of 4 (Some 8)] None None] 10 in
  (forall s, In s (Session.semesters session) -> Semester.id s = "sem"%string ->
             List.length (Semester.courses s) = 1%nat) /\
  deleteCourse "sem" 1 (addCourse "sem" (course_of 3 None) session) = session.
Proof.
  intros session.
  assert (H : forall s, In s (Session.semesters session) -> Semester.id s = "sem"%string ->
                        List.length (Semester.courses s) = 1%nat).
  { intros s [<-|[]] _. reflexivity. }
  split; [exact H|].
  exact (proj1 (X28_course_edits_round_trip "sem" session) (course_of 3 None) 1%nat H).
Defined.

(** ** Letters to grade points *)

Lemma record_get_in (table : list (string * Q)) (key : string) (p : Q) :
  record_get table key = Some p -> In p (map snd table).
Proof.
  unfold record_get. destruct (find _ table) as [kv|] eqn:E; [|discriminate].
  simpl. intros H. injection H as <-. apply find_some in E as [Hin _].
  now apply in_map.
Qed.

Lemma table_lookup_on_scale (table : list (string * Q)) (key : string) (scale : Q) :
  0 <= scale ->
  Forall (on_scale scale) (map snd table) ->
  on_scale scale (match record_get table key with Some p => p | None => 0 end).
Proof.
  intros Hs Hall. destruct (record_get table key) as [p|] eqn:E.
  - exact (proj1 (Forall_forall _ _) Hall p (record_get_in _ _ _ E)).
  - unfold on_scale. lra.
Qed.

(** X29. A grade point that [convertGradeToPoints] returns for the
    10-point scale, without a template or with the 10-point template,
    lies between 0 and 10, and for the 4-point scale, without a template
    or with the 4-point template, between 0 and 4, whatever the letter. *)
Theorem X29_convertGradeToPoints_on_scale :
  forall grade : string,
    on_scale 10 (convertGradeToPoints grade 10 None) /\
    on_scale 10 (convertGradeToPoints grade 10 (Some BIT_MESRA_10_POINT)) /\
    on_scale 4 (convertGradeToPoints grade 4 None) /\
    on_scale 4 (convertGradeToPoints grade 4 (Some STANDARD_4_POINT)).
Proof.
  intros grade.
  assert (H10 : forall key, on_scale 10
            (match record_get LETTER_TO_POINTS_10 key with Some p => p | None => 0 end)).
  { intros key. apply table_lookup_on_scale; [lra|].
    repeat constructor; simpl; lra. }
  assert (H4 : forall key, on_scale 4
            (match record_get LETTER_TO_POINTS_4 key with Some p => p | None => 0 end)).
  { intros key. apply table_lookup_on_scale; [lra|].
    repeat constructor; simpl; lra. }
  unfold convertGradeToPoints.
  replace (eqb 10 10) with true by reflexivity.
  replace (eqb 4 10) with false by reflexivity.
  split; [apply H10|]. split; [|split; [apply H4|]].
  - destruct (find _ (GradeTemplate.mappings BIT_MESRA_10_POINT)) as [m|] eqn:E;
      [|apply H10].
    apply find_some in E as [Hin _]. simpl in Hin.
    repeat (destruct Hin as [<-|Hin]; [unfold on_scale; simpl; lra|]). contradiction.
  - destruct (find _ (GradeTemplate.mappings STANDARD_4_POINT)) as [m|] eqn:E;
      [|apply H4].
    apply find_some in E as [Hin _]. simpl in Hin.
    repeat (destruct Hin as [<-|Hin]; [unfold on_scale; simpl; lra|]). contradiction.
Qed.

(** X30. [getTemplateByName] returns a template exactly when the name is
    that of a built-in template, and then returns that template; for any
    other name it returns nothing. *)
Theorem X30_getTemplateByName_finds_builtins :
  forall (name : string) (T : GradeTemplate),
    getTemplateByName name = Some T <->
    In T getBuiltinTemplates /\ GradeTemplate.name T = name.
Proof.
  intros name T. unfold getTemplateByName. split.
  - intros H. apply find_some in H as [Hin Hname].
    split; [exact Hin | now apply String.eqb_eq].
  - intros [[<-|[<-|[]]] <-]; reflexivity.
Qed.
